(** * BistApp: the data pipeline of [main.py], embedded and verified

    [main.py] downloads one page, takes two of its tables by position,
    joins them on the ticker column, normalises the market value, buckets
    the daily return into six colour labels and hands the frame to a
    treemap constructor.

    The embedding follows the source line by line.  The libraries it calls
    are modelled by what the calls in [main.py] rely on:
    - a float64 is a primitive binary64 [float]; comparisons, division and
      NaN are the IEEE ones;
    - a Python [str] is a [string] of UTF-8 bytes; the three characters the
      source replaces (['%'], [','], ['.']) are ASCII, so replacing bytes
      and replacing code points agree;
    - a table returned by [pd.read_html] is a finite map from column names
      to columns, a column being a float64 array or an object array of
      strings with NaN for a missing cell; an integer column is taken as
      the float64 array of the same numbers;
    - a raised exception is the left injection of a sum;
    - [px.treemap] is not modelled: the function that builds the figure is
      an argument of [create_treemap], of which only the arguments it is
      called with and what the code does with its result are fixed here. *)

From Stdlib Require Import ZArith Floats Ascii String.
From stdpp Require Import gmap strings list.

#[local] Set Warnings "-inexact-float".
#[local] Open Scope string_scope.
#[local] Arguments String.append !_ _ / : simpl nomatch.

(** ** Exceptions *)

(** The exception classes the pipeline can meet.  [RequestException] stands
    for everything [requests.get] and [raise_for_status] raise. *)
Inductive exn : Set :=
  | RequestException
  | IndexError
  | KeyError
  | TypeError
  | ValueError
  | AttributeError.

#[global] Instance exn_eq_dec : EqDecision exn.
Proof. solve_decision. Defined.

(** A computation that returns an [A] or raises. *)
Definition result : Type -> Type := sum exn.

Definition raise {A} (e : exn) : result A := inl e.

#[global] Instance result_ret : MRet result := fun A a => inr a.
#[global] Instance result_bind : MBind result := fun A B k m =>
  match m with
  | inl e => inl e
  | inr a => k a
  end.

#[global] Instance result_fmap : FMap result := fun A B f m =>
  match m with
  | inl e => inl e
  | inr a => inr (f a)
  end.

(** [try: m except e => h]: a handler for the one class [e]; any other
    exception passes through. *)
Definition try_except {A} (m : result A) (e : exn) (h : result A) : result A :=
  match m with
  | inl e' => if decide (e' = e) then h else inl e'
  | inr a => inr a
  end.

(** Run [f] on every element, left to right, stopping at the first raise. *)
Fixpoint traverse {A B} (f : A -> result B) (l : list A) : result (list B) :=
  match l with
  | [] => mret []
  | a :: l' => b ← f a; bs ← traverse f l'; mret (b :: bs)
  end.

(** ** float64 *)

Module F.

Definition lt (x y : float) : bool := PrimFloat.ltb x y.
Definition le (x y : float) : bool := PrimFloat.leb x y.
Definition div (x y : float) : float := PrimFloat.div x y.
Definition isnan (x : float) : bool := PrimFloat.is_nan x.

(** The float64 nearest to the integer [(-1)^neg * m]; a zero keeps the
    sign. *)
Definition of_int (neg : bool) (m : Z) : float :=
  SF2Prim (binary_normalize prec emax (if neg then - m else m)%Z 0 neg).

(** The float64 nearest to [(-1)^neg * m / 10^k], for [k > 0]: the
    quotient of the two integers, rounded once. *)
Definition of_quot (neg : bool) (m : Z) (k : Z) : float :=
  match m with
  | Zpos p =>
      SF2Prim (SFdiv prec emax (S754_finite neg p 0)
                 (S754_finite false (Z.to_pos (10 ^ k)) 0))
  | _ => if neg then PrimFloat.neg_zero else PrimFloat.zero
  end.

(** The float64 nearest to [(-1)^neg * m * 10^e]. *)
Definition of_decimal (neg : bool) (m : Z) (e : Z) : float :=
  if (0 <=? e)%Z
  then of_int neg (m * 10 ^ e)
  else of_quot neg m (- e).

End F.

(** ** Python strings *)

Module Str.

(** [s.replace(old, new)] for a one-character [old]. *)
Fixpoint replace (old : ascii) (new : string) (s : string) : string :=
  match s with
  | "" => ""
  | String c s' =>
      if Ascii.eqb c old then new ++ replace old new s'
      else String c (replace old new s')
  end.

Definition is_space (c : ascii) : bool :=
  let n := nat_of_ascii c in
  ((n =? 32) || ((9 <=? n) && (n <=? 13)))%nat.

Definition is_digit (c : ascii) : bool :=
  let n := nat_of_ascii c in ((48 <=? n) && (n <=? 57))%nat.

Definition digit_val (c : ascii) : Z := Z.of_nat (nat_of_ascii c) - 48.

Fixpoint lstrip (s : string) : string :=
  match s with
  | String c s' => if is_space c then lstrip s' else s
  | "" => ""
  end.

Fixpoint rstrip (s : string) : string :=
  match s with
  | "" => ""
  | String c s' =>
      match rstrip s' with
      | "" => if is_space c then "" else String c ""
      | t => String c t
      end
  end.

Definition strip (s : string) : string := rstrip (lstrip s).

Definition lower_char (c : ascii) : ascii :=
  let n := nat_of_ascii c in
  if ((65 <=? n) && (n <=? 90))%nat then ascii_of_nat (n + 32) else c.

Fixpoint lower (s : string) : string :=
  match s with
  | "" => ""
  | String c s' => String (lower_char c) (lower s')
  end.

(** [sep.join(parts)] *)
Fixpoint join (sep : string) (parts : list string) : string :=
  match parts with
  | [] => ""
  | [p] => p
  | p :: ps => p ++ sep ++ join sep ps
  end.

(** A run of decimal digits at the head of [s]: its value after [acc],
    how many digits were read, and the rest.  With [us], one underscore
    is skipped between two digits, as in a Python literal. *)
Fixpoint digits (us : bool) (s : string) (acc : Z) (n : nat) : Z * nat * string :=
  match s with
  | String c s' =>
      if is_digit c then digits us s' (acc * 10 + digit_val c)%Z (S n)
      else if us && Ascii.eqb c "_" && (0 <? n)%nat then
        match s' with
        | String d _ => if is_digit d then digits us s' acc n else (acc, n, s)
        | "" => (acc, n, s)
        end
      else (acc, n, s)
  | "" => (acc, n, s)
  end.

(** An optional sign: whether it is a minus, and the rest. *)
Definition sign (s : string) : bool * string :=
  match s with
  | String "-" s' => (true, s')
  | String "+" s' => (false, s')
  | _ => (false, s)
  end.

(** The exponent part [e<sign><digits>], or nothing. *)
Definition exponent (us : bool) (s : string) : option (Z * string) :=
  match s with
  | "" => Some (0%Z, "")
  | String c s' =>
      if Ascii.eqb (lower_char c) "e" then
        let '(neg, s1) := sign s' in
        let '(v, n, s2) := digits us s1 0 0 in
        if (0 <? n)%nat then Some (if neg then (- v)%Z else v, s2) else None
      else Some (0%Z, s)
  end.

(** A decimal number [<digits>[.<digits>][e<exp>]] with at least one
    digit in the mantissa, as mantissa and power of ten. *)
Definition decimal (us : bool) (s : string) : option (Z * Z) :=
  let '(i, ni, s1) := digits us s 0 0 in
  let '(m, nf, s2) :=
    match s1 with
    | String "." s1' => digits us s1' i 0
    | _ => (i, 0, s1)
    end in
  if (0 <? ni + nf)%nat then
    match exponent us s2 with
    | Some (e, "") => Some (m, (e - Z.of_nat nf)%Z)
    | _ => None
    end
  else None.

(** The grammar of a floating-point literal in an ASCII string:
    surrounding white space, a sign, then [inf], [infinity], [nan] in any
    case or a decimal number.  [us] tells whether underscores between
    digits are accepted, as [float(s)] does. *)
Definition parse_float (us : bool) (s : string) : option float :=
  let '(neg, t) := sign (strip s) in
  let w := lower t in
  if String.eqb w "inf" || String.eqb w "infinity"
  then Some (if neg then PrimFloat.neg_infinity else PrimFloat.infinity)
  else if String.eqb w "nan" then Some PrimFloat.nan
  else
    match decimal us t with
    | Some (m, e) => Some (F.of_decimal neg m e)
    | None => None
    end.

(** The number [<sign><decimal>] a string writes between white space,
    to the nearest float64: no [inf], no [nan]. *)
Definition number (us : bool) (s : string) : option float :=
  let '(neg, t) := sign (strip s) in
  match decimal us t with
  | Some (m, e) => Some (F.of_decimal neg m e)
  | None => None
  end.

(** [inf] or [infinity] in any case after an optional sign, and nothing
    else. *)
Definition infinity (s : string) : option float :=
  let '(neg, t) := sign s in
  let w := lower t in
  if String.eqb w "inf" || String.eqb w "infinity"
  then Some (if neg then PrimFloat.neg_infinity else PrimFloat.infinity)
  else None.

(** The bytes before the first NUL: the string a C function reads. *)
Fixpoint c_str (s : string) : string :=
  match s with
  | "" => ""
  | String c s' => if Ascii.eqb c Ascii.zero then "" else String c (c_str s')
  end.

(** *** [float(s)]

    Before it parses a [str], [float] replaces every character above
    ASCII: white space by a space, a decimal digit of any script by the
    ASCII digit of its value; any other character makes the string
    invalid.  The two tables are those of Unicode 14.0 (Python 3.11). *)

Definition unicode_space (cp : N) : bool :=
  ((cp =? 133) || (cp =? 160) || (cp =? 5760)
   || ((8192 <=? cp) && (cp <=? 8202))
   || (cp =? 8232) || (cp =? 8233) || (cp =? 8239) || (cp =? 8287)
   || (cp =? 12288))%N.

(** The decimal digits above ASCII, as runs (first code point, length);
    the value of a digit is its offset in the run, modulo 10. *)
Definition decimal_runs : list (N * N) :=
  [(1632, 10); (1776, 10); (1984, 10); (2406, 10); (2534, 10);
   (2662, 10); (2790, 10); (2918, 10); (3046, 10); (3174, 10);
   (3302, 10); (3430, 10); (3558, 10); (3664, 10); (3792, 10);
   (3872, 10); (4160, 10); (4240, 10); (6112, 10); (6160, 10);
   (6470, 10); (6608, 10); (6784, 10); (6800, 10); (6992, 10);
   (7088, 10); (7232, 10); (7248, 10); (42528, 10); (43216, 10);
   (43264, 10); (43472, 10); (43504, 10); (43600, 10); (44016, 10);
   (65296, 10); (66720, 10); (68912, 10); (69734, 10); (69872, 10);
   (69942, 10); (70096, 10); (70384, 10); (70736, 10); (70864, 10);
   (71248, 10); (71360, 10); (71472, 10); (71904, 10); (72016, 10);
   (72784, 10); (73040, 10); (73120, 10); (92768, 10); (92864, 10);
   (93008, 10); (120782, 50); (123200, 10); (123632, 10);
   (125264, 10); (130032, 10)]%N.

Definition unicode_decimal (cp : N) : option N :=
  (fun run : N * N => ((cp - run.1) mod 10)%N)
    <$> List.find (fun run : N * N => ((run.1 <=? cp) && (cp <? run.1 + run.2))%N)
          decimal_runs.

Definition ascii_of_code_point (cp : N) : option ascii :=
  if unicode_space cp then Some " "%char
  else (fun d => ascii_of_N (48 + d)) <$> unicode_decimal cp.

(** The string with its characters above ASCII replaced.  The bytes are
    read as UTF-8: [need] continuation bytes are still expected for the
    code point whose leading bits are [acc]. *)
Fixpoint to_ascii_from (need : nat) (acc : N) (s : string) : option string :=
  match s with
  | "" => if (need =? 0)%nat then Some "" else None
  | String c s' =>
      let b := N_of_ascii c in
      match need with
      | O =>
          if (b <? 128)%N then String c <$> to_ascii_from 0 0 s'
          else if (b <? 192)%N then None
          else if (b <? 224)%N then to_ascii_from 1 (b - 192) s'
          else if (b <? 240)%N then to_ascii_from 2 (b - 224) s'
          else if (b <? 248)%N then to_ascii_from 3 (b - 240) s'
          else None
      | S k =>
          if ((128 <=? b) && (b <? 192))%N then
            let cp := (acc * 64 + (b - 128))%N in
            match k with
            | O =>
                match ascii_of_code_point cp with
                | Some a => String a <$> to_ascii_from 0 0 s'
                | None => None
                end
            | S _ => to_ascii_from k cp s'
            end
          else None
      end
  end.

Definition to_ascii (s : string) : option string := to_ascii_from 0 0 s.

Definition is_ascii (s : string) : bool :=
  forallb (fun c => (N_of_ascii c <? 128)%N) (list_ascii_of_string s).

(** [float(s)]: the literal grammar, underscores included, on the
    replaced string. *)
Definition float_of_str (s : string) : option float :=
  match to_ascii s with
  | Some t => parse_float true t
  | None => None
  end.

End Str.

(** ** pandas *)

(** A column of a frame: a float64 array, or an object array whose cells
    are strings, [None] standing for NaN (a missing cell). *)
Inductive column : Type :=
  | Float64 (xs : list float)
  | Object (xs : list (option string)).

(** A [DataFrame] maps column names to columns. *)
Abbreviation DataFrame := (gmap string column).

Module pd.

Definition nrows (c : column) : nat :=
  match c with
  | Float64 xs => length xs
  | Object xs => length xs
  end.

(** [frame[name]] *)
Definition getitem (frame : DataFrame) (name : string) : result column :=
  match frame !! name with
  | Some c => mret c
  | None => raise KeyError
  end.

(** [series / d].  On an object array the division runs cell by cell
    and the result is an object array again: a string raises [TypeError],
    NaN divided by a number is NaN. *)
Definition truediv (c : column) (d : float) : result column :=
  match c with
  | Float64 xs => mret (Float64 (map (fun x => F.div x d) xs))
  | Object xs =>
      Object <$>
        traverse (fun o : option string =>
                    match o with
                    | Some _ => raise TypeError
                    | None => mret None
                    end) xs
  end.

(** [series.str]: only for an array of strings. *)
Definition str (c : column) : result (list (option string)) :=
  match c with
  | Object xs => mret xs
  | Float64 _ => raise AttributeError
  end.

(** [series.str.replace(old, new)]: NaN cells stay NaN.  [old] is one
    character; pandas takes a pattern of one character literally, whatever
    the default of [regex]. *)
Definition str_replace (old : ascii) (new : string)
    (xs : list (option string)) : list (option string) :=
  map (fmap (Str.replace old new)) xs.

(** What the parser behind [pd.to_numeric] accepts in a string, read as a
    C string: a number between ASCII white space, without underscores, or
    else exactly [inf] or [infinity] with an optional sign, in any case;
    [None] is a string it refuses.  The value is the nearest float64 when
    the numeral has a point, at most 15 digits and no exponent, the only
    numerals whose value is used below.  Elsewhere the parser rounds from
    the first 17 digits, gives up on a number too large for a float64 and
    hands a numeral without point or exponent to [int]; the nearest
    float64 stands there for what it returns. *)
Definition floatify (s : string) : option float :=
  let data := Str.c_str s in
  match Str.number false data with
  | Some x => Some x
  | None => Str.infinity data
  end.

(** [pd.to_numeric(series, errors='coerce')] on an object array: a cell
    that is no number is NaN. *)
Definition to_numeric_cell (o : option string) : float :=
  match o with
  | Some s => default PrimFloat.nan (floatify s)
  | None => PrimFloat.nan
  end.

Definition to_numeric_coerce (xs : list (option string)) : column :=
  Float64 (map to_numeric_cell xs).

(** [series.astype('float64')] on an object array: [float(cell)] on each
    cell, [ValueError] at the first string that is no number. *)
Definition float_cell (o : option string) : result float :=
  match o with
  | Some s =>
      match Str.float_of_str s with
      | Some x => mret x
      | None => raise ValueError
      end
  | None => mret PrimFloat.nan
  end.

Definition astype_float64 (xs : list (option string)) : result column :=
  Float64 <$> traverse float_cell xs.

(** *** merge *)

Definition float_key_eqb (a b : float) : bool :=
  PrimFloat.eqb a b || (F.isnan a && F.isnan b).

Definition same_key {K} `{EqDecision K} (a b : K) : bool := bool_decide (a = b).

(** Positions in [r], counted from [j], whose key equals [a]. *)
Fixpoint matches {K} (eqb : K -> K -> bool) (a : K) (j : nat) (r : list K) : list nat :=
  match r with
  | [] => []
  | b :: r' => (if eqb a b then [j] else []) ++ matches eqb a (S j) r'
  end.

(** The pairs (left position, right position) of equal keys
    ([how='inner']), in the order of the left keys, which is the order
    pandas documents for an inner join. *)
Fixpoint inner_join {K} (eqb : K -> K -> bool) (i : nat) (l r : list K) : list (nat * nat) :=
  match l with
  | [] => []
  | a :: l' => map (pair i) (matches eqb a 0 r) ++ inner_join eqb (S i) l' r
  end.

Definition has_string (xs : list (option string)) : bool :=
  existsb (fun o : option string => match o with Some _ => true | None => false end) xs.

Definition is_empty {A} (l : list A) : bool :=
  match l with [] => true | _ :: _ => false end.

(** An object key [o] against a float64 key [f].  The dtypes are not
    compared when one side only has no row; strings against numbers are
    refused, and so are two sides without a row; an object key that holds
    NaN only is joined with the numbers, NaN matching NaN.  [pairs] makes
    the pairs from the object key seen as numbers. *)
Definition join_mixed (o : list (option string)) (f : list float)
    (pairs : list float -> list (nat * nat)) : result (list (nat * nat)) :=
  if xorb (is_empty o) (is_empty f) then mret []
  else if is_empty o || has_string o then raise ValueError
  else mret (pairs ((fun _ => PrimFloat.nan) <$> o)).

(** Keys of one dtype are joined by value, NaN matching NaN. *)
Definition join_keys (lk rk : column) : result (list (nat * nat)) :=
  match lk, rk with
  | Object l, Object r => mret (inner_join same_key 0 l r)
  | Float64 l, Float64 r => mret (inner_join float_key_eqb 0 l r)
  | Object o, Float64 f =>
      join_mixed o f (fun nans => inner_join float_key_eqb 0 nans f)
  | Float64 f, Object o =>
      join_mixed o f (fun nans => inner_join float_key_eqb 0 f nans)
  end.

(** The rows of [c] at the positions [idx].  The positions a join yields
    are in range; the default stands for the fill value of a missing
    row. *)
Definition take (idx : list nat) (c : column) : column :=
  match c with
  | Float64 xs => Float64 (map (fun i => default PrimFloat.nan (xs !! i)) idx)
  | Object xs => Object (map (fun i => default None (xs !! i)) idx)
  end.

(** [pd.merge(left, right, on=on)]: the columns of [left], then those of
    [right] but the key, each restricted to the joined rows.  The frames
    merged in [main.py] share no column but the key, so the suffixes
    pandas gives to a name present on both sides are not modelled. *)
Definition merge (left right : DataFrame) (on : string) : result DataFrame :=
  lk ← getitem left on;
  rk ← getitem right on;
  idx ← join_keys lk rk;
  mret ((take (idx.*1) <$> left) ∪ (take (idx.*2) <$> delete on right)).

(** *** cut *)

Fixpoint increasing (bins : list float) : bool :=
  match bins with
  | a :: ((b :: _) as bins') => F.lt a b && increasing bins'
  | _ => true
  end.

(** The label of the first bin [(lo, hi]] that holds [x]. *)
Fixpoint cut_value (x : float) (bins : list float) (labels : list string) : option string :=
  match bins, labels with
  | lo :: ((hi :: _) as bins'), l :: labels' =>
      if F.lt lo x && F.le x hi then Some l else cut_value x bins' labels'
  | _, _ => None
  end.

(** [pd.cut(series, bins=bins, labels=labels)], with the defaults
    [right=True] and [include_lowest=False].  The categorical it returns
    is kept as the array of its labels, NaN where no bin holds the
    value. *)
Definition cut (c : column) (bins : list float) (labels : list string) : result column :=
  if negb (increasing bins) || negb (length labels + 1 =? length bins)%nat
  then raise ValueError
  else
    match c with
    | Float64 xs => mret (Object (map (fun x => cut_value x bins labels) xs))
    | Object xs =>
        Object <$>
          traverse (fun o : option string =>
                      match o with
                      | Some _ => raise TypeError
                      | None => mret None
                      end) xs
    end.

(** *** Masks and length *)

(** [series > d] and [series < d] run cell by cell: NaN compares false, a
    string against a number raises [TypeError]. *)
Definition compare_cells (test : float -> bool) (c : column) : result (list bool) :=
  match c with
  | Float64 xs => mret (map test xs)
  | Object xs =>
      traverse (fun o : option string =>
                  match o with
                  | Some _ => raise TypeError
                  | None => mret false
                  end) xs
  end.

Definition gt (c : column) (d : float) : result (list bool) :=
  compare_cells (fun x => F.lt d x) c.

Definition lt (c : column) (d : float) : result (list bool) :=
  compare_cells (fun x => F.lt x d) c.

(** The positions, counted from [i], of the true cells of a mask. *)
Fixpoint where_true (i : nat) (mask : list bool) : list nat :=
  match mask with
  | [] => []
  | b :: mask' => (if b then [i] else []) ++ where_true (S i) mask'
  end.

(** [frame[mask]]: the rows where the mask is true. *)
Definition getitem_mask (frame : DataFrame) (mask : list bool) : DataFrame :=
  take (where_true 0 mask) <$> frame.

(** [len(frame)]: the number of rows, read on a column of the frame (all
    the columns of a frame have as many); 0 for a frame with no column. *)
Definition len (frame : DataFrame) : nat :=
  from_option (fun kc : string * column => nrows kc.2) 0 (head (map_to_list frame)).

End pd.

(** ** [fetch_and_process_data] *)

Definition color_ranges : list float := [-10; -5; -0.01; 0; 0.01; 5; 10]%float.
Definition color_labels : list string :=
  ["red"; "indianred"; "lightpink"; "lightgreen"; "lime"; "green"].

(** The label line 57 gives to one return value, [None] for NaN. *)
Definition classify (x : float) : option string :=
  pd.cut_value x color_ranges color_labels.

(** The six labels under the names the design document gives them, in the
    order of [color_labels]. *)
Inductive ColorCategory : Set :=
  | deep_negative
  | mild_negative
  | near_zero_negative
  | near_zero_positive
  | mild_positive
  | strong_positive.

Definition label (c : ColorCategory) : string :=
  match c with
  | deep_negative => "red"
  | mild_negative => "indianred"
  | near_zero_negative => "lightpink"
  | near_zero_positive => "lightgreen"
  | mild_positive => "lime"
  | strong_positive => "green"
  end.

(** [tables[i]] *)
Definition index {A} (l : list A) (i : nat) : result A :=
  match l !! i with
  | Some a => mret a
  | None => raise IndexError
  end.

(** Lines 27-32: the sector frame. *)
Definition sector_frame (sector_table : DataFrame) : result DataFrame :=
  kod ← pd.getitem sector_table "Kod";
  sektor ← pd.getitem sector_table "Sektör";
  piyasa ← pd.getitem sector_table "Piyasa Değeri (mn $)";
  mret {[ "Hisse" := kod; "Sektör" := sektor; "Piyasa Değeri (mn $)" := piyasa ]}.

(** Lines 37-40 (and 46-49): the return frame from a numeric column. *)
Definition return_frame (return_table : DataFrame) : result DataFrame :=
  kod ← pd.getitem return_table "Kod";
  getiri ← pd.getitem return_table "Günlük Getiri (%)";
  pct ← pd.truediv getiri 100;
  mret {[ "Hisse" := kod; "Getiri (%)" := pct ]}.

(** Lines 42-49: the handler of [TypeError].  The column is rewritten in
    place in [return_table], then the frame is built as before. *)
Definition return_fallback (return_table : DataFrame) : result DataFrame :=
  getiri ← pd.getitem return_table "Günlük Getiri (%)";
  strs ← pd.str getiri;
  let nums := pd.to_numeric_coerce
                (pd.str_replace "," "." (pd.str_replace "%" "" strs)) in
  return_frame (<["Günlük Getiri (%)" := nums]> return_table).

(** Lines 42-48 on one cell of the column, then the division. *)
Definition fallback_value (o : option string) : float :=
  F.div (pd.to_numeric_cell
           (Str.replace "," "." <$> (Str.replace "%" "" <$> o))) 100.

(** Lines 36-49. *)
Definition build_return (return_table : DataFrame) : result DataFrame :=
  try_except (return_frame return_table) TypeError (return_fallback return_table).

(** The column "Getiri (%)" lines 36-49 compute from the column "Günlük
    Getiri (%)": the quotients of the primary path for a numeric column,
    the values of the handler for a column that holds a string, and the
    column itself, still of dtype object, when it holds NaN only. *)
Definition returns_column (c : column) : column :=
  match c with
  | Float64 xs => Float64 ((fun x => F.div x 100) <$> xs)
  | Object ss =>
      if pd.has_string ss then Float64 (fallback_value <$> ss) else Object ss
  end.

(** Line 53, on one cell. *)
Definition parse_market_value (s : string) : option float :=
  Str.float_of_str (Str.replace "," "." (Str.replace "." "" s)).

(** The strings line 53 is written for: groups of digits separated by
    dots, a comma, then the decimals, as in "1.234,56". *)
Definition all_digits (s : string) : bool :=
  forallb Str.is_digit (list_ascii_of_string s).

Definition region_formatted (groups : list string) (decimals : string) : Prop :=
  groups <> [] /\ Forall (fun g => g <> "" /\ all_digits g = true) groups /\
  all_digits decimals = true.

Definition region_string (groups : list string) (decimals : string) : string :=
  Str.join "." groups ++ "," ++ decimals.

(** The integer a string of digits writes, after the digits in [acc]. *)
Fixpoint number_from (acc : Z) (s : string) : Z :=
  match s with
  | "" => acc
  | String c s' => number_from (acc * 10 + Str.digit_val c) s'
  end.

(** A percentage as a return column of strings writes it: a sign, digits,
    a comma, decimals and '%', as in "-1,25%"; and the number it writes,
    to the nearest float64. *)
Definition percentage_string (neg : bool) (i d : string) : string :=
  (if neg then "-" else "") ++ i ++ "," ++ d ++ "%".

Definition percentage_value (neg : bool) (i d : string) : float :=
  F.of_decimal neg (number_from 0 (i ++ d)) (- Z.of_nat (String.length d)).

(** The cell [o] is the percentage string of the number [x], written
    with at most 15 digits. *)
Definition renders (o : option string) (x : float) : Prop :=
  exists neg i d,
    o = Some (percentage_string neg i d) /\ i <> "" /\
    all_digits i = true /\ all_digits d = true /\
    String.length i + String.length d <= 15 /\
    x = percentage_value neg i d.

(** Line 53 on one cell of the column: NaN stays NaN, a string is parsed
    or raises. *)
Definition market_value_cell (o : option string) : result float :=
  match o with
  | Some s =>
      match parse_market_value s with
      | Some x => mret x
      | None => raise ValueError
      end
  | None => mret PrimFloat.nan
  end.

(** Lines 53-57, on the merged frame. *)
Definition normalise_and_classify (df : DataFrame) : result DataFrame :=
  piyasa ← pd.getitem df "Piyasa Değeri (mn $)";
  strs ← pd.str piyasa;
  nums ← pd.astype_float64 (pd.str_replace "," "." (pd.str_replace "." "" strs));
  let df := <["Piyasa Değeri (mn $)" := nums]> df in
  getiri ← pd.getitem df "Getiri (%)";
  renk ← pd.cut getiri color_ranges color_labels;
  mret (<["Renk" := renk]> df).

(** Lines 26-52: from the tables of the page to the merged frame. *)
Definition merged_frame (tables : list DataFrame) : result DataFrame :=
  sector_table ← index tables 2;
  sector_df ← sector_frame sector_table;
  return_table ← index tables 6;
  return_df ← build_return return_table;
  pd.merge sector_df return_df "Hisse".

(** The body of the [try] block.  [page] is what lines 21-26 produce: the
    tables [pd.read_html] finds in the page, or the exception raised by
    the request or by the extraction. *)
Definition process (page : result (list DataFrame)) : result DataFrame :=
  tables ← page;
  df ← merged_frame tables;
  normalise_and_classify df.

(** What a call leaves behind: the value returned and the exceptions
    written to the log by the handler. *)
Record outcome (A : Type) : Type := Outcome { returned : option A; logged : list exn }.
Arguments Outcome {A} _ _.
Arguments returned {A} _.
Arguments logged {A} _.

(** [except Exception as e: logging.error(...); return None] *)
Definition catch_all {A} (m : result A) : outcome A :=
  match m with
  | inr a => Outcome (Some a) []
  | inl e => Outcome None [e]
  end.

Definition fetch_and_process_data (page : result (list DataFrame)) : outcome DataFrame :=
  catch_all (process page).

(** ** plotly *)

(** A cell as the chart reads it: a text or a number (NaN for a missing
    cell). *)
Inductive cell : Type :=
  | Text (s : string)
  | Number (x : float).

Definition cells (c : column) : list cell :=
  match c with
  | Float64 xs => Number <$> xs
  | Object xs => (fun o => match o with Some s => Text s | None => Number PrimFloat.nan end) <$> xs
  end.

Definition cell_at (df : DataFrame) (name : string) (i : nat) : option cell :=
  c ← df !! name; cells c !! i.

Module px.

(** A level of [path]: [px.Constant(label)] or a column name. *)
Inductive path_item : Type :=
  | Constant (label : string)
  | Column (name : string).

(** The keyword arguments of the call [px.treemap(df, ...)]. *)
Record treemap_args : Type := TreemapArgs {
  data_frame : DataFrame;
  path : list path_item;
  values : string;
  color : string;
  custom_data : list string;
  color_discrete_map : gmap string string
}.

(** A node of the chart as a template sees it: the labels along [path]
    from the root down, the size, the colour value and the custom
    data. *)
Record leaf : Type := Leaf {
  ids : list cell;
  size : cell;
  colour : cell;
  customdata : list cell
}.

(** A trace of a figure: the nodes plotly made, and the two templates,
    [None] until one is set. *)
Record trace : Type := Trace {
  nodes : list leaf;
  hovertemplate : option string;
  texttemplate : option string
}.

(** A figure is the list of its traces. *)
Record figure : Type := Figure { data : list trace }.

(** [fig.update_traces(hovertemplate=h)]: on every trace. *)
Definition update_traces (h : string) (fig : figure) : figure :=
  Figure ((fun t => Trace (nodes t) (Some h) (texttemplate t)) <$> data fig).

(** [fig.data[0].texttemplate = t]: [IndexError] when the figure has no
    trace. *)
Definition set_texttemplate (t : string) (fig : figure) : result figure :=
  match data fig with
  | [] => raise IndexError
  | tr :: trs => mret (Figure (Trace (nodes tr) (hovertemplate tr) (Some t) :: trs))
  end.

(** The colour the map of the call gives to a colour value: a text is
    looked up, a NaN is no key of the map. *)
Definition mapped_colour (m : gmap string string) (c : cell) : option string :=
  match c with
  | Text label => m !! label
  | Number _ => None
  end.

(** *** Templates *)










End px.

(** ** [create_treemap] *)

Definition color_map : gmap string string :=
  list_to_map
    [("(?)", "#262931"); ("red", "red"); ("indianred", "indianred");
     ("lightpink", "lightpink"); ("lightgreen", "lightgreen");
     ("lime", "lime"); ("green", "green")].

Definition treemap_call (df : DataFrame) : px.treemap_args :=
  {| px.data_frame := df;
     px.path := [px.Constant "Borsa İstanbul"; px.Column "Sektör"; px.Column "Hisse"];
     px.values := "Piyasa Değeri (mn $)";
     px.color := "Renk";
     px.custom_data := ["Getiri (%)"; "Sektör"];
     px.color_discrete_map := color_map |}.

Definition hover_template : string :=
  Str.join "<br>"
    ["Hisse: %{label}";
     "Piyasa Değeri (mn $): %{value}";
     "Getiri: %{customdata[0]}";
     "Sektör: %{customdata[1]}"].

Definition text_template : string := "<b>%{label}</b><br>%{customdata[0]} %".

(** Lines 66-104.  [treemap] stands for [px.treemap]: what it returns,
    or raises, for the arguments of the call. *)
Definition create_treemap (treemap : px.treemap_args -> result px.figure)
    (df : DataFrame) : outcome px.figure :=
  catch_all (
    fig ← treemap (treemap_call df);
    let fig := px.update_traces hover_template fig in
    fig ← px.set_texttemplate text_template fig;
    mret fig).

(** ** [main] *)

(** The chart [main] draws: none unless both calls return a value. *)
Definition main (treemap : px.treemap_args -> result px.figure)
    (page : result (list DataFrame)) : option px.figure :=
  df ← returned (fetch_and_process_data page);
  returned (create_treemap treemap df).

(** Lines 140-146 of [main]: the three numbers of the summary, the total
    number of rows, the number of rows whose return is above zero and the
    number of rows whose return is below zero. *)
Definition summary_metrics (df : DataFrame) : result (nat * nat * nat) :=
  let total := pd.len df in
  getiri ← pd.getitem df "Getiri (%)";
  mask ← pd.gt getiri 0;
  let positive_return := pd.len (pd.getitem_mask df mask) in
  getiri ← pd.getitem df "Getiri (%)";
  mask ← pd.lt getiri 0;
  let negative_return := pd.len (pd.getitem_mask df mask) in
  mret (total, positive_return, negative_return).

(** ** Example pages *)

(** A page with [sector_table] at position 2 and [return_table] at
    position 6, the other tables being empty. *)
Definition page_of (sector_table return_table : DataFrame) : list DataFrame :=
  [∅; ∅; sector_table; ∅; ∅; ∅; return_table].

Definition sector_rows (kod sektor piyasa : list (option string)) : DataFrame :=
  {[ "Kod" := Object kod; "Sektör" := Object sektor;
     "Piyasa Değeri (mn $)" := Object piyasa ]}.

Definition return_rows (kod : list (option string)) (getiri : column) : DataFrame :=
  {[ "Kod" := Object kod; "Günlük Getiri (%)" := getiri ]}.

(** * Properties *)

(** ** The order of float64 *)

Module FloatOrder.

Ltac cmp_cases :=
  repeat match goal with
    | |- context [(?a ?= ?b)%Z] => destruct (Z.compare_spec a b); subst
    | H : context [(?a ?= ?b)%Z] |- _ => destruct (Z.compare_spec a b); subst
    | |- context [(?a ?= ?b)%positive] => destruct (Pos.compare_spec a b); subst
    | H : context [(?a ?= ?b)%positive] |- _ => destruct (Pos.compare_spec a b); subst
    end;
  simpl in *; try congruence; try lia.

Lemma SFcompare_lt_trans a b c :
  SFcompare a b = Some Lt -> SFcompare b c = Some Lt -> SFcompare a c = Some Lt.
Proof.
  destruct a as [[]|[]| |[] ma ea], b as [[]|[]| |[] mb eb], c as [[]|[]| |[] mc ec];
    simpl; try congruence;
    change (Pos.compare_cont Eq) with Pos.compare;
    intros Hab Hbc; cmp_cases.
Qed.

Lemma SFcompare_lt_eq_trans a b c :
  SFcompare a b = Some Lt -> SFcompare b c = Some Eq -> SFcompare a c = Some Lt.
Proof.
  destruct a as [[]|[]| |[] ma ea], b as [[]|[]| |[] mb eb], c as [[]|[]| |[] mc ec];
    simpl; try congruence;
    change (Pos.compare_cont Eq) with Pos.compare;
    intros Hab Hbc; cmp_cases.
Qed.

Lemma lt_trans x y z : F.lt x y = true -> F.lt y z = true -> F.lt x z = true.
Proof.
  unfold F.lt. rewrite !ltb_spec. unfold SFltb.
  destruct (SFcompare (Prim2SF x) (Prim2SF y)) as [[]|] eqn:Hxy; try discriminate.
  destruct (SFcompare (Prim2SF y) (Prim2SF z)) as [[]|] eqn:Hyz; try discriminate.
  intros _ _. now rewrite (SFcompare_lt_trans _ _ _ Hxy Hyz).
Qed.

Lemma lt_le_trans x y z : F.lt x y = true -> F.le y z = true -> F.lt x z = true.
Proof.
  unfold F.lt, F.le. rewrite !ltb_spec, leb_spec. unfold SFltb, SFleb.
  destruct (SFcompare (Prim2SF x) (Prim2SF y)) as [[]|] eqn:Hxy; try discriminate.
  destruct (SFcompare (Prim2SF y) (Prim2SF z)) as [[]|] eqn:Hyz; try discriminate;
    intros _ _.
  - now rewrite (SFcompare_lt_eq_trans _ _ _ Hxy Hyz).
  - now rewrite (SFcompare_lt_trans _ _ _ Hxy Hyz).
Qed.

Lemma Prim2SF_nan x : F.isnan x = true -> Prim2SF x = S754_nan.
Proof. unfold F.isnan, Prim2SF. now intros ->. Qed.

Lemma lt_nan_r x y : F.isnan y = true -> F.lt x y = false.
Proof.
  intros H. unfold F.lt. rewrite ltb_spec, (Prim2SF_nan y H).
  unfold SFltb. now destruct (Prim2SF x).
Qed.

End FloatOrder.

(** ** The classifier *)

Section Classifier.

Import FloatOrder.

Lemma le_false_above lo x hi :
  F.lt lo x = true -> F.lt lo hi = false -> F.le x hi = false.
Proof.
  intros Hlo Hhi. destruct (F.le x hi) eqn:E; [|reflexivity].
  rewrite (lt_le_trans lo x hi Hlo E) in Hhi. discriminate.
Qed.

Lemma lt_false_below x c lo :
  F.lt x c = true -> F.lt lo c = false -> F.lt lo x = false.
Proof.
  intros Hc Hlo. destruct (F.lt lo x) eqn:E; [|reflexivity].
  rewrite (lt_trans lo x c E Hc) in Hlo. discriminate.
Qed.

Lemma labels_in_order :
  color_labels = label <$> [deep_negative; mild_negative; near_zero_negative;
                            near_zero_positive; mild_positive; strong_positive].
Proof. reflexivity. Qed.

Lemma classify_unfold x :
  classify x =
    if F.lt (-10) x && F.le x (-5) then Some "red"
    else if F.lt (-5) x && F.le x (-0.01) then Some "indianred"
    else if F.lt (-0.01) x && F.le x 0 then Some "lightpink"
    else if F.lt 0 x && F.le x 0.01 then Some "lightgreen"
    else if F.lt 0.01 x && F.le x 5 then Some "lime"
    else if F.lt 5 x && F.le x 10 then Some "green"
    else None.
Proof. reflexivity. Qed.

(** In a bin, the label of the bin. *)
Lemma classify_in_bin x i lo hi l :
  color_ranges !! i = Some lo -> color_ranges !! S i = Some hi ->
  color_labels !! i = Some l ->
  F.lt lo x = true -> F.le x hi = true ->
  classify x = Some l.
Proof.
  intros Hlo Hhi Hl Hx1 Hx2. rewrite classify_unfold.
  do 6 (destruct i as [|i];
        [injection Hlo as <-; injection Hhi as <-; injection Hl as <-;
         repeat match goal with
           | |- context [F.le x ?h] => rewrite (le_false_above _ x h Hx1 eq_refl)
           end;
         rewrite ?andb_false_r, Hx1, Hx2; reflexivity|]).
  discriminate Hl.
Qed.

(** Below the lowest edge, above the highest one, or NaN: no label. *)
Lemma classify_outside x :
  F.lt x (-10) = true \/ F.lt 10 x = true \/ F.isnan x = true ->
  classify x = None.
Proof.
  rewrite classify_unfold. intros [H|[H|H]].
  - repeat match goal with
      | |- context [F.lt ?l x] => rewrite (lt_false_below x _ l H eq_refl)
      end.
    reflexivity.
  - repeat match goal with
      | |- context [F.le x ?h] => rewrite (le_false_above _ x h H eq_refl)
      end.
    now rewrite !andb_false_r.
  - now rewrite !(lt_nan_r _ x H).
Qed.

Lemma classify_label x l : classify x = Some l -> l ∈ color_labels.
Proof.
  rewrite classify_unfold.
  repeat match goal with |- context [if ?b then _ else _] => destruct b end;
    intros [= <-]; unfold color_labels; set_solver.
Qed.

End Classifier.

(** C1, as stated, fails at the boundary [-5.0]: the bin whose right edge
    is [-5] is the first one, so the label is "red" (deep_negative) and not
    "indianred" (mild_negative). *)
Lemma C1_boundary_minus_five_counterexample :
  classify (-5) <> Some (label mild_negative).
Proof. vm_compute. discriminate. Qed.

(** C1, amended: a value on a bin edge takes the label of the bin that ends
    there: [-5.0] is deep_negative, [0.0] near_zero_negative, [0.01]
    near_zero_positive; the lowest edge [-10.0] ends no bin and, like
    [15.0], has no label; and every value in [(lo, hi]] takes the label of
    that bin. *)
Theorem C1_boundary_exactness :
  classify (-5) = Some (label deep_negative) /\
  classify 0 = Some (label near_zero_negative) /\
  classify 0.01 = Some (label near_zero_positive) /\
  classify 15 = None /\
  classify <$> color_ranges = None :: (Some <$> color_labels) /\
  forall x i lo hi l,
    color_ranges !! i = Some lo -> color_ranges !! S i = Some hi ->
    color_labels !! i = Some l ->
    F.lt lo x = true -> F.le x hi = true ->
    classify x = Some l.
Proof.
  repeat split; try (vm_compute; reflexivity).
  apply classify_in_bin.
Qed.

Lemma C1_boundary_exactness_witness :
  classify 2.5 = Some (label mild_positive).
Proof.
  apply (proj2 (proj2 (proj2 (proj2 (proj2 C1_boundary_exactness)))) 2.5%float 4 0.01%float 5%float);
    vm_compute; reflexivity.
Defined.

(** ** The market value parse *)

Section MarketValue.

Lemma digit_char c :
  Str.is_digit c = true ->
  Str.is_space c = false /\ Ascii.eqb c "." = false /\ Ascii.eqb c "," = false /\
  Ascii.eqb c "-" = false /\ Ascii.eqb c "+" = false /\
  Ascii.eqb (Str.lower_char c) "i" = false /\ Ascii.eqb (Str.lower_char c) "n" = false.
Proof.
  destruct c as [[] [] [] [] [] [] [] []]; vm_compute; intros H;
    first [discriminate H | repeat split].
Qed.

Lemma app_assoc_s (a b c : string) : (a ++ b) ++ c = a ++ (b ++ c).
Proof. induction a as [|x a IH]; simpl; [reflexivity|now rewrite IH]. Qed.

Lemma app_nil_s (a : string) : a ++ "" = a.
Proof. induction a as [|x a IH]; simpl; [reflexivity|now rewrite IH]. Qed.

Lemma join_cons sep g g' gs :
  Str.join sep (g :: g' :: gs) = g ++ sep ++ Str.join sep (g' :: gs).
Proof. reflexivity. Qed.

Lemma all_digits_cons c s :
  all_digits (String c s) = Str.is_digit c && all_digits s.
Proof. reflexivity. Qed.

Lemma all_digits_app a b :
  all_digits (a ++ b) = all_digits a && all_digits b.
Proof.
  induction a as [|x a IH]; [reflexivity|].
  simpl. rewrite !all_digits_cons, IH. now rewrite andb_assoc.
Qed.

Lemma replace_app old new a b :
  Str.replace old new (a ++ b) = Str.replace old new a ++ Str.replace old new b.
Proof.
  induction a as [|x a IH]; [reflexivity|].
  simpl. rewrite IH. destruct (Ascii.eqb x old); [|reflexivity].
  now rewrite app_assoc_s.
Qed.

(** Digits are neither dots nor commas: replacing leaves them alone. *)
Lemma replace_digits old new d :
  all_digits d = true -> (old = "." \/ old = ",")%char ->
  Str.replace old new d = d.
Proof.
  intros Hd Hold. induction d as [|c d IH]; [reflexivity|].
  rewrite all_digits_cons in Hd. apply andb_prop in Hd as [Hc Hd].
  simpl. rewrite (IH Hd).
  destruct (digit_char c Hc) as (_ & Hdot & Hcomma & _).
  now destruct Hold as [-> | ->]; rewrite ?Hdot, ?Hcomma.
Qed.

Lemma all_digits_concat gs :
  Forall (fun g => g <> "" /\ all_digits g = true) gs ->
  all_digits (Str.join "" gs) = true.
Proof.
  induction 1 as [|g gs [_ Hg] _ IH]; [reflexivity|].
  destruct gs as [|g' gs]; [exact Hg|].
  rewrite join_cons, !all_digits_app, Hg, IH. reflexivity.
Qed.

(** Removing the dots glues the groups. *)
Lemma remove_dots gs :
  Forall (fun g => g <> "" /\ all_digits g = true) gs ->
  Str.replace "." "" (Str.join "." gs) = Str.join "" gs.
Proof.
  induction 1 as [|g gs [_ Hg] _ IH]; [reflexivity|].
  destruct gs as [|g' gs]; [now apply replace_digits; auto|].
  rewrite !join_cons, !replace_app, IH, replace_digits by auto. reflexivity.
Qed.

(** The string line 53 hands to [float]. *)
Lemma cleaned_region_string gs ds :
  region_formatted gs ds ->
  Str.replace "," "." (Str.replace "." "" (region_string gs ds))
  = Str.join "" gs ++ "." ++ ds.
Proof.
  intros (_ & Hgs & Hds). unfold region_string.
  rewrite !replace_app, remove_dots, (replace_digits "." "" ds) by auto.
  rewrite (replace_digits "," "." ds), (replace_digits "," "." (Str.join "" gs))
    by (auto using all_digits_concat).
  reflexivity.
Qed.

Lemma digits_app us d r acc n :
  all_digits d = true ->
  (forall acc n, Str.digits us r acc n = (acc, n, r)) ->
  Str.digits us (d ++ r) acc n = (number_from acc d, (n + String.length d)%nat, r).
Proof.
  intros Hd Hr. revert acc n. induction d as [|c d IH]; intros acc n.
  - simpl. rewrite Hr. now rewrite Nat.add_0_r.
  - rewrite all_digits_cons in Hd. apply andb_prop in Hd as [Hc Hd].
    simpl. rewrite Hc, (IH Hd). f_equal. f_equal. lia.
Qed.

Lemma number_from_app acc a b :
  number_from acc (a ++ b) = number_from (number_from acc a) b.
Proof. revert acc. induction a as [|x a IH]; intros acc; simpl; [reflexivity|apply IH]. Qed.

Lemma rstrip_no_space s :
  forallb (fun c => negb (Str.is_space c)) (list_ascii_of_string s) = true ->
  Str.rstrip s = s.
Proof.
  induction s as [|c s IH]; [reflexivity|].
  simpl. intros [Hc Hs]%andb_prop. rewrite (IH Hs).
  destruct s; [|reflexivity].
  now apply negb_true_iff in Hc as ->.
Qed.

Lemma no_space_digits d :
  all_digits d = true ->
  forallb (fun c => negb (Str.is_space c)) (list_ascii_of_string d) = true.
Proof.
  induction d as [|c d IH]; [reflexivity|].
  rewrite all_digits_cons. intros [Hc Hd]%andb_prop.
  simpl. rewrite (IH Hd). now destruct (digit_char c Hc) as (-> & _).
Qed.

Lemma no_space_app a b :
  forallb (fun c => negb (Str.is_space c)) (list_ascii_of_string (a ++ b))
  = forallb (fun c => negb (Str.is_space c)) (list_ascii_of_string a)
    && forallb (fun c => negb (Str.is_space c)) (list_ascii_of_string b).
Proof.
  induction a as [|x a IH]; [reflexivity|].
  simpl. rewrite IH. now rewrite andb_assoc.
Qed.

(** A string that starts with a digit and holds no white space is read as
    an unsigned decimal number. *)
Lemma parse_float_digit_first us c r :
  Str.is_digit c = true ->
  forallb (fun c => negb (Str.is_space c)) (list_ascii_of_string r) = true ->
  Str.parse_float us (String c r)
  = match Str.decimal us (String c r) with
    | Some (m, e) => Some (F.of_decimal false m e)
    | None => None
    end.
Proof.
  intros Hc Hr.
  destruct (digit_char c Hc) as (Hsp & _ & _ & Hm & Hp & Hci & Hcn).
  assert (Hstrip : Str.strip (String c r) = String c r).
  { unfold Str.strip. simpl Str.lstrip. rewrite Hsp.
    apply rstrip_no_space. simpl. now rewrite Hsp. }
  assert (Hsign : Str.sign (String c r) = (false, String c r)).
  { simpl. apply Ascii.eqb_neq in Hm, Hp.
    destruct c as [[] [] [] [] [] [] [] []]; try reflexivity; exfalso; auto. }
  unfold Str.parse_float. rewrite Hstrip, Hsign.
  assert (Hw : forall w, String.eqb (Str.lower (String c r)) (String "i" w) = false).
  { intros w. simpl. now rewrite Hci. }
  assert (Hw' : forall w, String.eqb (Str.lower (String c r)) (String "n" w) = false).
  { intros w. simpl. now rewrite Hcn. }
  now rewrite !Hw, Hw'.
Qed.

(** Digits, a point and digits: the mantissa and the power of ten. *)
Lemma decimal_plain us i ds :
  i <> "" -> all_digits i = true -> all_digits ds = true ->
  Str.decimal us (i ++ "." ++ ds)
  = Some (number_from 0 (i ++ ds), (- Z.of_nat (String.length ds))%Z).
Proof.
  intros Hi Hdi Hds.
  destruct i as [|c i]; [done|].
  unfold Str.decimal.
  rewrite (digits_app us (String c i) ("." ++ ds) 0 0 Hdi)
    by (intros; simpl; now rewrite andb_false_r).
  change ("." ++ ds) with (String "." ds).
  cbv iota beta.
  rewrite <- (app_nil_s ds) at 1.
  rewrite (digits_app us ds "" _ 0 Hds) by reflexivity.
  cbv iota beta. simpl Str.exponent. cbv iota beta.
  replace (0 <? 0 + String.length (String c i) + (0 + String.length ds))%nat with true
    by (simpl; reflexivity).
  rewrite number_from_app. do 2 f_equal.
Qed.

(** A number written with digits, a point and digits. *)
Lemma parse_plain_decimal us i ds :
  i <> "" -> all_digits i = true -> all_digits ds = true ->
  Str.parse_float us (i ++ "." ++ ds)
  = Some (F.of_decimal false (number_from 0 (i ++ ds)) (- Z.of_nat (String.length ds))).
Proof.
  intros Hi Hdi Hds.
  pose proof (decimal_plain us i ds Hi Hdi Hds) as Hdec.
  destruct i as [|c i]; [done|].
  pose proof Hdi as Hdi'.
  rewrite all_digits_cons in Hdi'. apply andb_prop in Hdi' as [Hc Hdi'].
  change (String c i ++ "." ++ ds) with (String c (i ++ "." ++ ds)) in *.
  rewrite parse_float_digit_first; [|exact Hc|].
  2:{ rewrite no_space_app, (no_space_digits i Hdi').
      simpl. now rewrite (no_space_digits ds Hds). }
  now rewrite Hdec.
Qed.

(** The same with a sign in front, for the number alone. *)
Lemma number_signed_decimal us (neg : bool) i ds :
  i <> "" -> all_digits i = true -> all_digits ds = true ->
  Str.number us ((if neg then "-" else "") ++ i ++ "." ++ ds)
  = Some (F.of_decimal neg (number_from 0 (i ++ ds)) (- Z.of_nat (String.length ds))).
Proof.
  intros Hi Hdi Hds.
  pose proof (decimal_plain us i ds Hi Hdi Hds) as Hdec.
  assert (Hns : forallb (fun c => negb (Str.is_space c))
                  (list_ascii_of_string (i ++ "." ++ ds)) = true).
  { rewrite no_space_app, (no_space_digits i Hdi).
    simpl. now rewrite (no_space_digits ds Hds). }
  destruct i as [|c i]; [done|].
  pose proof Hdi as Hdi'.
  rewrite all_digits_cons in Hdi'. apply andb_prop in Hdi' as [Hc Hdi'].
  destruct (digit_char c Hc) as (Hsp & _ & _ & Hm & Hp & _).
  unfold Str.number.
  assert (Hstrip : forall t, forallb (fun c => negb (Str.is_space c))
                               (list_ascii_of_string t) = true ->
                             t <> "" -> Str.strip t = t).
  { intros [|x t] Ht Hne; [done|]. unfold Str.strip.
    simpl in Ht. apply andb_prop in Ht as [Hx Ht].
    simpl Str.lstrip. apply negb_true_iff in Hx. rewrite Hx.
    apply rstrip_no_space. simpl. now rewrite Hx. }
  destruct neg.
  - change ("-" ++ String c i ++ "." ++ ds) with (String "-" (String c i ++ "." ++ ds)).
    rewrite Hstrip by first [exact Hns | discriminate].
    change (Str.sign (String "-" (String c i ++ "." ++ ds)))
      with (true, String c i ++ "." ++ ds).
    cbv beta iota zeta. now rewrite Hdec.
  - change ("" ++ String c i ++ "." ++ ds) with (String c i ++ "." ++ ds).
    rewrite Hstrip by first [exact Hns | discriminate].
    assert (Hsign : Str.sign (String c i ++ "." ++ ds) = (false, String c i ++ "." ++ ds)).
    { simpl. apply Ascii.eqb_neq in Hm, Hp.
      destruct c as [[] [] [] [] [] [] [] []]; try reflexivity; exfalso; auto. }
    rewrite Hsign. cbv beta iota zeta. now rewrite Hdec.
Qed.

(** *** Strings of ASCII characters *)

Lemma is_ascii_cons c s :
  Str.is_ascii (String c s) = (N_of_ascii c <? 128)%N && Str.is_ascii s.
Proof. reflexivity. Qed.

Lemma is_ascii_app a b : Str.is_ascii (a ++ b) = Str.is_ascii a && Str.is_ascii b.
Proof.
  induction a as [|x a IH]; [reflexivity|].
  simpl. rewrite !is_ascii_cons, IH. now rewrite andb_assoc.
Qed.

Lemma digit_ascii c :
  Str.is_digit c = true -> (N_of_ascii c <? 128)%N = true /\ Ascii.eqb c Ascii.zero = false.
Proof.
  destruct c as [[] [] [] [] [] [] [] []]; vm_compute; intros H;
    first [discriminate H | split; reflexivity].
Qed.

Lemma is_ascii_digits d : all_digits d = true -> Str.is_ascii d = true.
Proof.
  induction d as [|c d IH]; [reflexivity|].
  rewrite all_digits_cons, is_ascii_cons. intros [Hc Hd]%andb_prop.
  now rewrite (proj1 (digit_ascii c Hc)), (IH Hd).
Qed.

(** [float] leaves an ASCII string as it is. *)
Lemma to_ascii_is_ascii s : Str.is_ascii s = true -> Str.to_ascii s = Some s.
Proof.
  unfold Str.to_ascii. induction s as [|c s IH]; [reflexivity|].
  rewrite is_ascii_cons. intros [Hc Hs]%andb_prop.
  cbn [Str.to_ascii_from]. now rewrite Hc, (IH Hs).
Qed.

Lemma float_of_str_ascii s :
  Str.is_ascii s = true -> Str.float_of_str s = Str.parse_float true s.
Proof. intros H. unfold Str.float_of_str. now rewrite (to_ascii_is_ascii s H). Qed.

(** *** C strings *)

Lemma c_str_digits d r : all_digits d = true -> Str.c_str (d ++ r) = d ++ Str.c_str r.
Proof.
  induction d as [|c d IH]; [reflexivity|].
  rewrite all_digits_cons. intros [Hc Hd]%andb_prop.
  simpl. now rewrite (proj2 (digit_ascii c Hc)), (IH Hd).
Qed.

(** A number written with digits only. *)
Lemma parse_plain_integer us i :
  i <> "" -> all_digits i = true ->
  Str.parse_float us i = Some (F.of_decimal false (number_from 0 i) 0).
Proof.
  intros Hi Hdi.
  destruct i as [|c i]; [done|].
  pose proof Hdi as Hdi'.
  rewrite all_digits_cons in Hdi'. apply andb_prop in Hdi' as [Hc Hdi'].
  rewrite parse_float_digit_first by auto using no_space_digits.
  unfold Str.decimal.
  rewrite <- (app_nil_s (String c i)) at 1.
  rewrite (digits_app us (String c i) "" 0 0 Hdi) by reflexivity.
  cbv iota beta. simpl Str.exponent. cbv iota beta.
  replace (0 <? 0 + String.length (String c i) + 0)%nat with true
    by (simpl; reflexivity).
  reflexivity.
Qed.

Lemma join_nonempty gs :
  gs <> [] -> Forall (fun g => g <> "" /\ all_digits g = true) gs ->
  Str.join "" gs <> "".
Proof.
  intros Hne Hgs. destruct Hgs as [|g gs [Hg _] _]; [done|].
  destruct g as [|c g]; [done|]. now destruct gs.
Qed.

Lemma parse_region_string gs ds :
  region_formatted gs ds ->
  parse_market_value (region_string gs ds)
  = Some (F.of_decimal false (number_from 0 (Str.join "" gs ++ ds))
            (- Z.of_nat (String.length ds))).
Proof.
  intros H. unfold parse_market_value.
  rewrite (cleaned_region_string gs ds H).
  destruct H as (Hne & Hgs & Hds).
  rewrite float_of_str_ascii.
  - apply parse_plain_decimal; auto using join_nonempty, all_digits_concat.
  - rewrite !is_ascii_app, (is_ascii_digits ds Hds),
      (is_ascii_digits _ (all_digits_concat gs Hgs)). reflexivity.
Qed.

(** Without a comma: the groups glued, read as an integer. *)
Lemma parse_region_integer gs :
  region_formatted gs "" ->
  parse_market_value (Str.join "." gs)
  = Some (F.of_decimal false (number_from 0 (Str.join "" gs)) 0).
Proof.
  intros (Hne & Hgs & _). unfold parse_market_value.
  rewrite remove_dots, replace_digits by (auto using all_digits_concat).
  rewrite float_of_str_ascii by (auto using is_ascii_digits, all_digits_concat).
  apply parse_plain_integer; auto using join_nonempty, all_digits_concat.
Qed.

(** The three calls of line 53 on the column are [market_value_cell] on
    each of its cells. *)
Lemma astype_cleaned strs :
  pd.astype_float64 (pd.str_replace "," "." (pd.str_replace "." "" strs))
  = Float64 <$> traverse market_value_cell strs.
Proof.
  unfold pd.astype_float64. f_equal.
  induction strs as [|o strs IH]; [reflexivity|].
  simpl. rewrite IH. now destruct o.
Qed.

End MarketValue.

(** ** The return frame *)

Section ReturnFrame.

Lemma bind_inr {A B} (a : A) (k : A -> result B) : (x ← inr a; k x) = k a.
Proof. reflexivity. Qed.

Lemma bind_mret {A B} (a : A) (k : A -> result B) : (x ← mret a; k x) = k a.
Proof. reflexivity. Qed.

Lemma getitem_Some (frame : DataFrame) name c :
  frame !! name = Some c -> pd.getitem frame name = inr c.
Proof. unfold pd.getitem. now intros ->. Qed.

Lemma getitem_inr (frame : DataFrame) name c :
  pd.getitem frame name = inr c -> frame !! name = Some c.
Proof. unfold pd.getitem. destruct (frame !! name); [now intros [= ->]|discriminate]. Qed.

(** Dividing an object column: [TypeError] as soon as a cell is a
    string; a column of NaN comes back as it is. *)
Lemma truediv_strings ss d :
  (exists s, Some s ∈ ss) -> pd.truediv (Object ss) d = inl TypeError.
Proof.
  intros [s Hs]. unfold pd.truediv.
  induction ss as [|o ss IH]; [now apply elem_of_nil in Hs|].
  destruct o as [s'|]; [reflexivity|].
  apply elem_of_cons in Hs as [Hs|Hs]; [discriminate|].
  simpl in *. specialize (IH Hs).
  destruct (traverse _ ss); [|discriminate]. now injection IH as ->.
Qed.

Lemma truediv_no_string ss d :
  (forall s, Some s ∉ ss) -> pd.truediv (Object ss) d = inr (Object ss).
Proof.
  intros Hs. unfold pd.truediv.
  induction ss as [|o ss IH]; [reflexivity|].
  destruct o as [s|]; [exfalso; apply (Hs s); left|].
  simpl in *. destruct (traverse _ ss) as [e|l].
  - discriminate IH. intros s Hin. apply (Hs s). now right.
  - assert (H : @inr exn _ (Object l) = inr (Object ss)).
    { apply IH. intros s Hin. apply (Hs s). now right. }
    now injection H as ->.
Qed.

Lemma has_string_true ss : pd.has_string ss = true <-> exists s, Some s ∈ ss.
Proof.
  unfold pd.has_string. rewrite existsb_exists. split.
  - intros ([s|] & Hin & H); [|discriminate]. exists s. now apply list_elem_of_In.
  - intros [s Hs]. exists (Some s). split; [now apply list_elem_of_In|reflexivity].
Qed.

Lemma has_string_false ss : pd.has_string ss = false <-> forall s, Some s ∉ ss.
Proof.
  split.
  - intros H s Hs. assert (pd.has_string ss = true) by (apply has_string_true; eauto).
    congruence.
  - intros H. destruct (pd.has_string ss) eqn:E; [|reflexivity].
    apply has_string_true in E as [s Hs]. now destruct (H s).
Qed.

Lemma string_or_not (ss : list (option string)) :
  (exists s, Some s ∈ ss) \/ (forall s, Some s ∉ ss).
Proof.
  induction ss as [|[s|] ss [[s' H]|H]].
  - right. intros s. apply not_elem_of_nil.
  - left. exists s. left.
  - left. exists s. left.
  - left. exists s'. now right.
  - right. intros s [Hs|Hs]%elem_of_cons; [discriminate|]. now apply (H s).
Qed.

Variable return_table : DataFrame.
Variable kod : column.
Hypothesis Hkod : return_table !! "Kod" = Some kod.

Lemma return_frame_float xs :
  return_table !! "Günlük Getiri (%)" = Some (Float64 xs) ->
  return_frame return_table
  = inr {[ "Hisse" := kod; "Getiri (%)" := Float64 ((fun x => F.div x 100) <$> xs) ]}.
Proof.
  intros Hg. unfold return_frame.
  now rewrite (getitem_Some _ _ _ Hkod), bind_inr, (getitem_Some _ _ _ Hg), bind_inr.
Qed.

Lemma return_frame_strings ss :
  return_table !! "Günlük Getiri (%)" = Some (Object ss) ->
  (exists s, Some s ∈ ss) ->
  return_frame return_table = inl TypeError.
Proof.
  intros Hg Hs. unfold return_frame.
  rewrite (getitem_Some _ _ _ Hkod), bind_inr, (getitem_Some _ _ _ Hg), bind_inr.
  now rewrite (truediv_strings ss 100 Hs).
Qed.

Lemma return_fallback_strings ss :
  return_table !! "Günlük Getiri (%)" = Some (Object ss) ->
  return_fallback return_table
  = inr {[ "Hisse" := kod; "Getiri (%)" := Float64 (fallback_value <$> ss) ]}.
Proof.
  intros Hg. unfold return_fallback.
  rewrite (getitem_Some _ _ _ Hg), bind_inr. simpl pd.str. rewrite bind_mret.
  unfold return_frame.
  rewrite (getitem_Some _ "Kod" kod) by (rewrite lookup_insert_ne; done).
  rewrite bind_inr, (getitem_Some _ "Günlük Getiri (%)" _ (lookup_insert_eq _ _ _)), bind_inr.
  unfold pd.to_numeric_coerce, pd.str_replace, pd.truediv.
  rewrite bind_mret. do 4 f_equal.
  rewrite <- !list_fmap_compose. apply list_fmap_ext. intros _ o _. now destruct o.
Qed.

(** The frame built from a column that holds a string: the handler's. *)
Lemma build_return_strings ss :
  return_table !! "Günlük Getiri (%)" = Some (Object ss) ->
  (exists s, Some s ∈ ss) ->
  build_return return_table
  = inr {[ "Hisse" := kod; "Getiri (%)" := Float64 (fallback_value <$> ss) ]}.
Proof.
  intros Hg Hs. unfold build_return.
  rewrite (return_frame_strings ss Hg Hs). simpl.
  now apply return_fallback_strings.
Qed.

(** The frame built from a column of dtype object without a string: the
    first attempt succeeds and the column stays as it is. *)
Lemma build_return_nan ss :
  return_table !! "Günlük Getiri (%)" = Some (Object ss) ->
  (forall s, Some s ∉ ss) ->
  build_return return_table = inr {[ "Hisse" := kod; "Getiri (%)" := Object ss ]}.
Proof.
  intros Hg Hs. unfold build_return, return_frame.
  rewrite (getitem_Some _ _ _ Hkod), bind_inr, (getitem_Some _ _ _ Hg), bind_inr.
  now rewrite (truediv_no_string ss 100 Hs), bind_inr.
Qed.

(** The frame built from any column, by whichever path the code
    takes. *)
Lemma build_return_column c :
  return_table !! "Günlük Getiri (%)" = Some c ->
  build_return return_table
  = inr {[ "Hisse" := kod; "Getiri (%)" := returns_column c ]}.
Proof.
  intros Hg. destruct c as [xs|ss]; cbn [returns_column].
  - unfold build_return. now rewrite (return_frame_float xs Hg).
  - destruct (pd.has_string ss) eqn:E.
    + apply (build_return_strings ss Hg). now apply has_string_true.
    + apply (build_return_nan ss Hg). now apply has_string_false.
Qed.

End ReturnFrame.

Lemma return_frame_TypeError t :
  return_frame t = inl TypeError <->
  exists kod ss s,
    t !! "Kod" = Some kod /\ t !! "Günlük Getiri (%)" = Some (Object ss) /\ Some s ∈ ss.
Proof.
  split.
  - unfold return_frame, pd.getitem.
    destruct (t !! "Kod") as [kod|] eqn:Hk; [|discriminate].
    destruct (t !! "Günlük Getiri (%)") as [[xs|ss]|] eqn:Hg; [discriminate| |discriminate].
    intros H. destruct (string_or_not ss) as [[s Hs]|Hs]; [now exists kod, ss, s|].
    rewrite !bind_mret, (truediv_no_string ss 100 Hs) in H. discriminate.
  - intros (kod & ss & s & Hk & Hg & Hs).
    apply (return_frame_strings t kod Hk ss Hg). now exists s.
Qed.

Lemma replace_percent_digits new d :
  all_digits d = true -> Str.replace "%" new d = d.
Proof.
  intros Hd. induction d as [|c d IH]; [reflexivity|].
  rewrite all_digits_cons in Hd. apply andb_prop in Hd as [Hc Hd].
  simpl. rewrite (IH Hd).
  assert (Hpc : Ascii.eqb c "%" = false)
    by (destruct c as [[] [] [] [] [] [] [] []]; vm_compute in Hc |- *;
        first [discriminate Hc | reflexivity]).
  now rewrite Hpc.
Qed.

(** What the handler hands to [pd.to_numeric] for a percentage string. *)
Lemma cleaned_percentage (neg : bool) i d :
  all_digits i = true -> all_digits d = true ->
  Str.replace "," "." (Str.replace "%" "" (percentage_string neg i d))
  = (if neg then "-" else "") ++ i ++ "." ++ d.
Proof.
  intros Hi Hd. unfold percentage_string.
  rewrite !replace_app.
  rewrite (replace_percent_digits "" i Hi), (replace_percent_digits "" d Hd).
  rewrite (replace_digits "," "." i), (replace_digits "," "." d) by auto.
  destruct neg; cbn [Str.replace Ascii.eqb Bool.eqb]; now rewrite ?app_nil_s.
Qed.

Lemma floatify_percentage (neg : bool) i d :
  i <> "" -> all_digits i = true -> all_digits d = true ->
  pd.floatify ((if neg then "-" else "") ++ i ++ "." ++ d)
  = Some (percentage_value neg i d).
Proof.
  intros Hne Hi Hd. unfold pd.floatify.
  assert (Hc : Str.c_str ((if neg then "-" else "") ++ i ++ "." ++ d)
               = (if neg then "-" else "") ++ i ++ "." ++ d).
  { assert (H : Str.c_str (i ++ "." ++ d) = i ++ "." ++ d).
    { rewrite (c_str_digits i _ Hi). f_equal.
      change ("." ++ d) with (String "." d). cbn [Str.c_str Ascii.eqb Bool.eqb].
      f_equal. rewrite <- (app_nil_s d) at 1. rewrite (c_str_digits d "" Hd).
      now rewrite app_nil_s. }
    destruct neg; [|exact H].
    change ("-" ++ i ++ "." ++ d) with (String "-" (i ++ "." ++ d)).
    cbn [Str.c_str Ascii.eqb Bool.eqb]. now rewrite H. }
  rewrite Hc, (number_signed_decimal false neg i d Hne Hi Hd). reflexivity.
Qed.

(** The value of the handler on a percentage string. *)
Lemma fallback_percentage o x : renders o x -> fallback_value o = F.div x 100.
Proof.
  intros (neg & i & d & -> & Hne & Hi & Hd & _ & ->).
  unfold fallback_value. cbn [fmap option_fmap option_map pd.to_numeric_cell].
  now rewrite (cleaned_percentage neg i d Hi Hd), (floatify_percentage neg i d Hne Hi Hd).
Qed.

(** C2: a numeric return column and a column of strings that write the same
    numbers as percentages (a sign, digits, a comma, decimals and '%', at
    most 15 digits) give the same frame: each value divided by 100 (5.0
    and "5,00%" both give 0.05).  The handler runs exactly when the first
    attempt raises [TypeError], that is when the column holds a string; a
    value or another exception of the first attempt is the result. *)
Theorem C2_return_paths_agree :
  build_return {[ "Kod" := Object [Some "AAA"]; "Günlük Getiri (%)" := Float64 [5%float] ]}
    = inr {[ "Hisse" := Object [Some "AAA"]; "Getiri (%)" := Float64 [0.05%float] ]} /\
  build_return {[ "Kod" := Object [Some "AAA"]; "Günlük Getiri (%)" := Object [Some "5,00%"] ]}
    = inr {[ "Hisse" := Object [Some "AAA"]; "Getiri (%)" := Float64 [0.05%float] ]} /\
  (forall (t1 t2 : DataFrame) kod xs ss,
     t1 !! "Kod" = Some kod -> t2 !! "Kod" = Some kod ->
     t1 !! "Günlük Getiri (%)" = Some (Float64 xs) ->
     t2 !! "Günlük Getiri (%)" = Some (Object ss) ->
     ss <> [] -> Forall2 renders ss xs ->
     return_frame t2 = inl TypeError /\
     build_return t2 = build_return t1 /\
     build_return t1
       = inr {[ "Hisse" := kod; "Getiri (%)" := Float64 ((fun x => F.div x 100) <$> xs) ]}) /\
  (forall t : DataFrame,
     (forall r, return_frame t = inr r -> build_return t = inr r) /\
     (forall e, return_frame t = inl e -> e <> TypeError -> build_return t = inl e) /\
     (return_frame t = inl TypeError -> build_return t = return_fallback t) /\
     (return_frame t = inl TypeError <->
      exists kod ss s,
        t !! "Kod" = Some kod /\ t !! "Günlük Getiri (%)" = Some (Object ss) /\ Some s ∈ ss)).
Proof.
  split; [vm_compute; reflexivity|].
  split; [vm_compute; reflexivity|].
  split.
  - intros t1 t2 kod xs ss Hk1 Hk2 Hg1 Hg2 Hne Hss.
    assert (Hs : exists s, Some s ∈ ss).
    { destruct Hss as [|o x ss xs (neg & i & d & -> & _) _]; [done|].
      eexists. left. }
    assert (H1 : build_return t1
       = inr {[ "Hisse" := kod; "Getiri (%)" := Float64 ((fun x => F.div x 100) <$> xs) ]}).
    { unfold build_return. now rewrite (return_frame_float t1 kod Hk1 xs Hg1). }
    split; [exact (return_frame_strings t2 kod Hk2 ss Hg2 Hs)|].
    split; [|exact H1].
    rewrite H1, (build_return_strings t2 kod Hk2 ss Hg2 Hs). do 4 f_equal.
    clear -Hss. induction Hss as [|o x ss xs Hox _ IH]; [reflexivity|].
    rewrite !fmap_cons, IH. now rewrite (fallback_percentage o x Hox).
  - intros t. unfold build_return. repeat split.
    + now intros r ->.
    + intros e -> He. simpl. now destruct (decide (e = TypeError)).
    + now intros ->.
    + apply return_frame_TypeError.
    + apply return_frame_TypeError.
Qed.

Lemma C2_return_paths_agree_witness :
  build_return {[ "Kod" := Object [Some "AAA"; Some "BBB"];
                  "Günlük Getiri (%)" := Object [Some "2,50%"; Some "-1,25%"] ]}
  = build_return {[ "Kod" := Object [Some "AAA"; Some "BBB"];
                    "Günlük Getiri (%)" := Float64 [2.5; -1.25]%float ]}.
Proof.
  refine (proj1 (proj2 (proj1 (proj2 (proj2 C2_return_paths_agree)) _ _
                   (Object [Some "AAA"; Some "BBB"]) [2.5; -1.25]%float
                   [Some "2,50%"; Some "-1,25%"] _ _ _ _ _ _))).
  - reflexivity.
  - reflexivity.
  - reflexivity.
  - reflexivity.
  - discriminate.
  - constructor; [|constructor; [|constructor]].
    + exists false, "2", "50". repeat split; [discriminate|simpl; lia].
    + exists true, "1", "25". repeat split; [discriminate|simpl; lia].
Defined.

(** ** The merge *)

Section Merge.

Context {K : Type} `{EqDecision K}.

Local Abbreviation same_key := (pd.same_key (K:=K)).

Lemma matches_elem a j r j' :
  j' ∈ pd.matches same_key a j r <-> exists d, j' = j + d /\ r !! d = Some a.
Proof.
  revert j. induction r as [|b r IH]; intros j; simpl.
  - split; [intros H; now apply elem_of_nil in H|intros (d & _ & H); discriminate].
  - rewrite elem_of_app, IH. unfold pd.same_key. split.
    + intros [H|(d & -> & H)].
      * case_bool_decide; [|now apply elem_of_nil in H].
        apply list_elem_of_singleton in H as ->. exists 0. subst. split; [lia|done].
      * exists (S d). split; [lia|done].
    + intros ([|d] & -> & H); simpl in H.
      * left. injection H as ->. rewrite bool_decide_eq_true_2 by done.
        rewrite Nat.add_0_r. apply list_elem_of_singleton. done.
      * right. exists d. split; [lia|done].
Qed.

Lemma matches_absent a j r : a ∉ r -> pd.matches same_key a j r = [].
Proof.
  intros Ha. destruct (pd.matches same_key a j r) as [|j' ms] eqn:E; [done|].
  assert (H : j' ∈ pd.matches same_key a j r) by (rewrite E; left).
  apply matches_elem in H as (d & _ & H). exfalso. apply Ha.
  eapply list_elem_of_lookup_2, H.
Qed.

(** Without duplicates on the right, a key meets at most one row. *)
Lemma matches_length a j r :
  NoDup r ->
  length (pd.matches same_key a j r) = if bool_decide (a ∈ r) then 1 else 0.
Proof.
  intros Hr. revert j. induction Hr as [|b r Hb Hr IH]; intros j; [done|].
  cbn [pd.matches]. rewrite length_app, IH. unfold pd.same_key at 1.
  destruct (decide (a = b)) as [->|Hab].
  - rewrite bool_decide_eq_true_2 by done.
    rewrite (bool_decide_eq_false_2 (b ∈ r)) by done.
    now rewrite bool_decide_eq_true_2 by left.
  - rewrite bool_decide_eq_false_2 by done. cbn [length Nat.add].
    apply (f_equal (fun c : bool => if c then 1 else 0)).
    apply bool_decide_ext. rewrite elem_of_cons. tauto.
Qed.

Lemma inner_join_elem i l r i' j' :
  (i', j') ∈ pd.inner_join same_key i l r <->
  exists d k, i' = i + d /\ l !! d = Some k /\ r !! j' = Some k.
Proof.
  revert i. induction l as [|a l IH]; intros i; simpl.
  - split; [intros H; now apply elem_of_nil in H|intros (d & k & _ & H & _); discriminate].
  - rewrite elem_of_app, IH, list_elem_of_fmap. split.
    + intros [(j & [= -> ->] & H)|(d & k & -> & Hl & Hr)].
      * apply matches_elem in H as (d & -> & H).
        exists 0, a. rewrite Nat.add_0_r. done.
      * exists (S d), k. split; [lia|done].
    + intros ([|d] & k & -> & Hl & Hr); simpl in Hl.
      * left. injection Hl as ->. exists j'. rewrite Nat.add_0_r. split; [done|].
        apply matches_elem. now exists j'.
      * right. exists d, k. split; [lia|done].
Qed.

(** Without duplicates on the right, the left rows that survive are those
    whose key is on the right, once each and in their order. *)
Lemma inner_join_left (dflt : K) (pre l r : list K) :
  NoDup r ->
  (fun i => default dflt ((pre ++ l)%list !! i)) <$> (pd.inner_join same_key (length pre) l r).*1
  = filter (fun k => k ∈ r) l.
Proof.
  intros Hr. revert pre. induction l as [|a l IH]; intros pre; [done|].
  simpl. rewrite !fmap_app, filter_cons.
  replace (pre ++ a :: l)%list with ((pre ++ [a]) ++ l)%list by now rewrite <- app_assoc.
  replace (S (length pre)) with (length (pre ++ [a])%list) by (rewrite length_app; simpl; lia).
  rewrite IH.
  pose proof (matches_length a 0 r Hr) as Hlen.
  destruct (decide (a ∈ r)) as [Ha|Ha].
  - rewrite bool_decide_eq_true_2 in Hlen by done.
    destruct (pd.matches same_key a 0 r) as [|j [|? ?]]; try discriminate Hlen.
    simpl. f_equal.
    rewrite <- app_assoc. simpl. now rewrite list_lookup_middle.
  - now rewrite (matches_absent a 0 r Ha).
Qed.

End Merge.

Lemma nrows_take idx c : pd.nrows (pd.take idx c) = length idx.
Proof. destruct c; simpl; now rewrite length_map. Qed.

(** The frame [pd.merge] returns, column by column. *)
Lemma merge_object (left right : DataFrame) on lk rk :
  left !! on = Some (Object lk) -> right !! on = Some (Object rk) ->
  pd.merge left right on
  = inr ((pd.take (pd.inner_join pd.same_key 0 lk rk).*1 <$> left)
         ∪ (pd.take (pd.inner_join pd.same_key 0 lk rk).*2 <$> delete on right)).
Proof.
  intros Hl Hr. unfold pd.merge.
  now rewrite (getitem_Some _ _ _ Hl), bind_inr, (getitem_Some _ _ _ Hr), bind_inr.
Qed.

Lemma merged_left_column (left right : DataFrame) idx1 idx2 on name c :
  left !! name = Some c ->
  ((pd.take idx1 <$> left) ∪ (pd.take idx2 <$> delete on right)) !! name
  = Some (pd.take idx1 c).
Proof.
  intros H. apply lookup_union_Some_l. now rewrite lookup_fmap, H.
Qed.

Lemma merged_right_column (left right : DataFrame) idx1 idx2 on name c :
  name <> on -> left !! name = None -> right !! name = Some c ->
  ((pd.take idx1 <$> left) ∪ (pd.take idx2 <$> delete on right)) !! name
  = Some (pd.take idx2 c).
Proof.
  intros Hne Hl Hr. rewrite lookup_union_r by now rewrite lookup_fmap, Hl.
  now rewrite lookup_fmap, lookup_delete_ne, Hr.
Qed.

Lemma merged_column_rows (left right : DataFrame) (idx : list (nat * nat)) on name c :
  ((pd.take (idx.*1) <$> left) ∪ (pd.take (idx.*2) <$> delete on right)) !! name = Some c ->
  pd.nrows c = length idx.
Proof.
  intros [H|[_ H]]%lookup_union_Some_raw;
    rewrite lookup_fmap in H;
    apply fmap_Some in H as (c' & _ & ->);
    now rewrite nrows_take, length_fmap.
Qed.

(** C4: with no duplicate ticker on either side, [pd.merge] on "Hisse"
    succeeds and keeps exactly the tickers present on both sides, once
    each, in the order of the sector frame: the number of rows is the size
    of the intersection of the two ticker sets, at most the size of either
    input; every column has that many rows; row [i] of the sector frame is
    paired with row [j] of the return frame exactly when their tickers are
    equal as strings.  Tickers {A,B,C} joined with {B,C,D} give {B,C}. *)
Theorem C4_merge_inner_join :
  pd.merge
    {[ "Hisse" := Object [Some "A"; Some "B"; Some "C"];
       "Sektör" := Object [Some "s1"; Some "s2"; Some "s3"] ]}
    {[ "Hisse" := Object [Some "B"; Some "C"; Some "D"];
       "Getiri (%)" := Float64 [1; 2; 3]%float ]}
    "Hisse"
  = inr {[ "Hisse" := Object [Some "B"; Some "C"];
           "Sektör" := Object [Some "s2"; Some "s3"];
           "Getiri (%)" := Float64 [1; 2]%float ]} /\
  forall (sector_df return_df : DataFrame) lk rk,
    sector_df !! "Hisse" = Some (Object lk) ->
    return_df !! "Hisse" = Some (Object rk) ->
    NoDup lk -> NoDup rk ->
    exists df idx ks,
      pd.merge sector_df return_df "Hisse" = inr df /\
      df !! "Hisse" = Some (Object ks) /\
      ks = filter (fun k => k ∈ rk) lk /\
      NoDup ks /\
      (forall k, k ∈ ks <-> k ∈ lk /\ k ∈ rk) /\
      length ks = size (list_to_set lk ∩ list_to_set rk : gset (option string)) /\
      length ks <= Nat.min (length lk) (length rk) /\
      (forall name c, df !! name = Some c -> pd.nrows c = length ks) /\
      (forall i j, (i, j) ∈ idx <-> exists k, lk !! i = Some k /\ rk !! j = Some k) /\
      (forall name c, sector_df !! name = Some c ->
         df !! name = Some (pd.take (idx.*1) c)) /\
      (forall name c, name <> "Hisse" -> sector_df !! name = None ->
         return_df !! name = Some c -> df !! name = Some (pd.take (idx.*2) c)).
Proof.
  split; [vm_compute; reflexivity|].
  intros sector_df return_df lk rk Hl Hr Hlk Hrk.
  set (idx := pd.inner_join pd.same_key 0 lk rk).
  set (ks := filter (fun k => k ∈ rk) lk).
  assert (Hks : (fun i => default None (lk !! i)) <$> idx.*1 = ks).
  { apply (inner_join_left None [] lk rk Hrk). }
  assert (Hnd : NoDup ks) by now apply NoDup_filter.
  assert (Hin : forall k, k ∈ ks <-> k ∈ lk /\ k ∈ rk).
  { intros k. unfold ks. rewrite list_elem_of_filter. tauto. }
  assert (Hlen : length idx = length ks).
  { now rewrite <- Hks, !length_fmap. }
  exists ((pd.take (idx.*1) <$> sector_df) ∪ (pd.take (idx.*2) <$> delete "Hisse" return_df)),
    idx, ks.
  split; [now apply merge_object|].
  split; [rewrite (merged_left_column _ _ _ _ _ _ _ Hl); simpl; now rewrite <- Hks|].
  split; [reflexivity|].
  split; [exact Hnd|].
  split; [exact Hin|].
  split.
  { rewrite <- (size_list_to_set (C:=gset (option string)) ks Hnd). f_equal.
    apply set_eq. intros k.
    rewrite elem_of_intersection, !elem_of_list_to_set. apply Hin. }
  split.
  { apply Nat.min_glb.
    - apply length_filter.
    - apply submseteq_length, NoDup_submseteq; [exact Hnd|].
      intros k Hk. now apply Hin in Hk. }
  split.
  { intros name c Hc. rewrite <- Hlen. eapply merged_column_rows, Hc. }
  split.
  { intros i j. unfold idx. rewrite inner_join_elem. split.
    - intros (d & k & -> & H1 & H2). now exists k.
    - intros (k & H1 & H2). now exists i, k. }
  split.
  - intros name c Hc. now apply merged_left_column.
  - intros name c Hne Hn Hc. now apply merged_right_column.
Qed.

Lemma C4_merge_inner_join_witness :
  exists df (idx : list (nat * nat)) ks,
    pd.merge
      {[ "Hisse" := Object [Some "A"; Some "B"; Some "C"] ]}
      {[ "Hisse" := Object [Some "C"; Some "D"; Some "A"] ]} "Hisse" = inr df /\
    df !! "Hisse" = Some (Object ks) /\
    ks = [Some "A"; Some "C"] /\
    ((1, 0) ∉ idx) /\ length ks <= 3.
Proof.
  destruct (proj2 C4_merge_inner_join
              {[ "Hisse" := Object [Some "A"; Some "B"; Some "C"] ]}
              {[ "Hisse" := Object [Some "C"; Some "D"; Some "A"] ]}
              [Some "A"; Some "B"; Some "C"] [Some "C"; Some "D"; Some "A"])
    as (df & idx & ks & Hm & Hh & Hks & _ & _ & _ & Hle & _ & Hidx & _).
  - reflexivity.
  - reflexivity.
  - apply (bool_decide_unpack _). vm_compute. exact I.
  - apply (bool_decide_unpack _). vm_compute. exact I.
  - exists df, idx, ks. split; [exact Hm|]. split; [exact Hh|].
    split; [rewrite Hks; vm_compute; reflexivity|]. split; [|exact Hle].
    intros H. apply Hidx in H as (k & H1 & H2). simpl in H1, H2. congruence.
Defined.

(** ** The pipeline, stage by stage *)

Section Pipeline.

Lemma bind_inr_inv {A B} (m : result A) (k : A -> result B) b :
  (x ← m; k x) = inr b -> exists a, m = inr a /\ k a = inr b.
Proof. destruct m as [e|a]; [discriminate|]. intros H. now exists a. Qed.

Lemma fmap_inr_inv {A B} (f : A -> B) (m : result A) b :
  f <$> m = inr b -> exists a, m = inr a /\ b = f a.
Proof. destruct m as [e|a]; [discriminate|]. intros [= <-]. now exists a. Qed.

(** [traverse] raises what its first failing element raises. *)
Lemma traverse_raises {A B} (f : A -> result B) l e0 :
  (forall a e, f a = inl e -> e = e0) ->
  (exists a, a ∈ l /\ f a = inl e0) ->
  traverse f l = inl e0.
Proof.
  intros Hf (a & Ha & Hfa). induction l as [|a' l IH]; [now apply elem_of_nil in Ha|].
  simpl. destruct (f a') as [e|b] eqn:E.
  - now rewrite (Hf _ _ E).
  - apply elem_of_cons in Ha as [->|Ha]; [congruence|].
    rewrite bind_inr, (IH Ha). reflexivity.
Qed.

Lemma traverse_inr {A B} (f : A -> result B) l bs :
  traverse f l = inr bs -> Forall2 (fun a b => f a = inr b) l bs.
Proof.
  revert bs. induction l as [|a l IH]; intros bs; simpl.
  - intros [= <-]. constructor.
  - intros (b & Hb & H)%bind_inr_inv.
    apply bind_inr_inv in H as (bs' & Hbs & [= <-]).
    constructor; auto.
Qed.

Lemma market_value_cell_raises o e : market_value_cell o = inl e -> e = ValueError.
Proof.
  destruct o as [s|]; [|discriminate]. simpl.
  destruct (parse_market_value s); [discriminate|]. now intros [= <-].
Qed.

Lemma cut_float xs :
  pd.cut (Float64 xs) color_ranges color_labels = inr (Object (classify <$> xs)).
Proof. reflexivity. Qed.

(** Lines 53-57 when the market value column holds strings. *)
Lemma normalise_and_classify_object (df : DataFrame) strs :
  df !! "Piyasa Değeri (mn $)" = Some (Object strs) ->
  normalise_and_classify df
  = (nums ← traverse market_value_cell strs;
     let df := <["Piyasa Değeri (mn $)" := Float64 nums]> df in
     getiri ← pd.getitem df "Getiri (%)";
     renk ← pd.cut getiri color_ranges color_labels;
     mret (<["Renk" := renk]> df)).
Proof.
  intros Hp. unfold normalise_and_classify.
  rewrite (getitem_Some _ _ _ Hp), bind_inr. simpl pd.str. rewrite bind_mret.
  rewrite astype_cleaned. now destruct (traverse market_value_cell strs).
Qed.

(** One unparsable market value among the merged rows ends lines 53-57
    with [ValueError]. *)
Lemma normalise_and_classify_bad_value (df : DataFrame) strs s :
  df !! "Piyasa Değeri (mn $)" = Some (Object strs) ->
  Some s ∈ strs -> parse_market_value s = None ->
  normalise_and_classify df = inl ValueError.
Proof.
  intros Hp Hs Hbad. rewrite (normalise_and_classify_object df strs Hp).
  rewrite (traverse_raises market_value_cell strs ValueError); [reflexivity| |].
  - apply market_value_cell_raises.
  - exists (Some s). split; [exact Hs|]. simpl. now rewrite Hbad.
Qed.

(** What a successful run of lines 53-57 did. *)
Lemma normalise_and_classify_inr (df df' : DataFrame) :
  normalise_and_classify df = inr df' ->
  exists strs nums getiri renk,
    df !! "Piyasa Değeri (mn $)" = Some (Object strs) /\
    Forall2 (fun o x => market_value_cell o = inr x) strs nums /\
    df !! "Getiri (%)" = Some getiri /\
    pd.cut getiri color_ranges color_labels = inr renk /\
    df' = <["Renk" := renk]> (<["Piyasa Değeri (mn $)" := Float64 nums]> df).
Proof.
  unfold normalise_and_classify.
  intros (piyasa & Hp%getitem_inr & H)%bind_inr_inv.
  apply bind_inr_inv in H as (strs & Hstr & H).
  destruct piyasa as [|strs']; [discriminate|]. injection Hstr as ->.
  rewrite astype_cleaned in H.
  apply bind_inr_inv in H as (c & (nums & Hn & ->)%fmap_inr_inv & H).
  apply bind_inr_inv in H as (getiri & Hg%getitem_inr & H).
  apply bind_inr_inv in H as (renk & Hr & [= <-]).
  exists strs, nums, getiri, renk.
  rewrite lookup_insert_ne in Hg by done.
  auto using traverse_inr.
Qed.

Lemma fetch_raises page e :
  process page = inl e -> fetch_and_process_data page = Outcome None [e].
Proof. unfold fetch_and_process_data. now intros ->. Qed.

Lemma main_nothing treemap page :
  returned (fetch_and_process_data page) = None -> main treemap page = None.
Proof. unfold main. now intros ->. Qed.

End Pipeline.

(** ** The market value column *)

(** C3: line 53 removes every dot, turns the comma into a point and parses
    the result as a float: "1.234,56" gives 1234.56 and "0,01" gives 0.01;
    for every string made of groups of digits separated by dots, a comma
    and decimals, the string parsed is the digits of the groups, a point
    and the decimals, and the value is the float64 nearest to the number
    written (likewise without the comma and the decimals).  This is the
    parse lines 53-57 apply to the market value column: on a frame whose
    market values are such strings, they return the frame with each market
    value replaced by that number. *)
Theorem C3_locale_numeric_parse :
  parse_market_value "1.234,56" = Some 1234.56%float /\
  parse_market_value "0,01" = Some 0.01%float /\
  (forall gs ds, region_formatted gs ds ->
     Str.replace "," "." (Str.replace "." "" (region_string gs ds))
       = Str.join "" gs ++ "." ++ ds /\
     parse_market_value (region_string gs ds)
       = Some (F.of_decimal false (number_from 0 (Str.join "" gs ++ ds))
                 (- Z.of_nat (String.length ds)))) /\
  (forall gs, region_formatted gs "" ->
     parse_market_value (Str.join "." gs)
       = Some (F.of_decimal false (number_from 0 (Str.join "" gs)) 0)) /\
  (forall strs,
     pd.astype_float64 (pd.str_replace "," "." (pd.str_replace "." "" strs))
     = Float64 <$> traverse market_value_cell strs) /\
  (forall (df : DataFrame) (written : list (list string * string)) rets,
     Forall (fun w => region_formatted w.1 w.2) written ->
     df !! "Piyasa Değeri (mn $)"
     = Some (Object ((fun w => Some (region_string w.1 w.2)) <$> written)) ->
     df !! "Getiri (%)" = Some (Float64 rets) ->
     exists df',
       normalise_and_classify df = inr df' /\
       df' !! "Piyasa Değeri (mn $)"
       = Some (Float64
                 ((fun w => F.of_decimal false (number_from 0 (Str.join "" w.1 ++ w.2))
                              (- Z.of_nat (String.length w.2))) <$> written)) /\
       forall name, name <> "Piyasa Değeri (mn $)" -> name <> "Renk" ->
                    df' !! name = df !! name).
Proof.
  split; [vm_compute; reflexivity|].
  split; [vm_compute; reflexivity|].
  split.
  { intros gs ds H. split; [exact (cleaned_region_string gs ds H)|].
    exact (parse_region_string gs ds H). }
  split; [exact parse_region_integer|].
  split; [exact astype_cleaned|].
  intros df written rets Hw Hp Hg.
  rewrite (normalise_and_classify_object df _ Hp).
  assert (Hnums : traverse market_value_cell
                    ((fun w => Some (region_string w.1 w.2)) <$> written)
                  = inr ((fun w => F.of_decimal false
                                     (number_from 0 (Str.join "" w.1 ++ w.2))
                                     (- Z.of_nat (String.length w.2))) <$> written)).
  { clear Hp. induction Hw as [|w written Hw1 _ IH]; [reflexivity|].
    rewrite !fmap_cons. cbn [traverse market_value_cell].
    rewrite (parse_region_string _ _ Hw1), bind_mret, IH, bind_inr. reflexivity. }
  rewrite Hnums, bind_inr. cbv zeta.
  rewrite (getitem_Some _ "Getiri (%)" (Float64 rets)), bind_inr
    by now rewrite lookup_insert_ne.
  rewrite cut_float, bind_inr.
  eexists. split; [reflexivity|]. split.
  - now rewrite lookup_insert_ne, lookup_insert_eq by done.
  - intros name N1 N2. now rewrite !lookup_insert_ne by done.
Qed.

Lemma C3_locale_numeric_parse_witness :
  region_formatted ["12"; "345"; "678"] "90" /\
  parse_market_value "12.345.678,90" = Some 12345678.9%float /\
  exists df',
    normalise_and_classify
      {[ "Piyasa Değeri (mn $)" := Object [Some "12.345.678,90"];
         "Getiri (%)" := Float64 [2.5%float] ]} = inr df' /\
    df' !! "Piyasa Değeri (mn $)" = Some (Float64 [12345678.9%float]).
Proof.
  assert (H : region_formatted ["12"; "345"; "678"] "90").
  { split; [discriminate|]. split; [|reflexivity].
    repeat constructor; discriminate. }
  split; [exact H|].
  split; [exact (proj2 (proj1 (proj2 (proj2 C3_locale_numeric_parse)) _ _ H))|].
  destruct (proj2 (proj2 (proj2 (proj2 (proj2 C3_locale_numeric_parse))))
              {[ "Piyasa Değeri (mn $)" := Object [Some "12.345.678,90"];
                 "Getiri (%)" := Float64 [2.5%float] ]}
              [(["12"; "345"; "678"], "90")] [2.5%float])
    as (df' & Hn & Hp & _).
  - constructor; [exact H|constructor].
  - reflexivity.
  - reflexivity.
  - exists df'. split; [exact Hn|]. rewrite Hp. vm_compute. reflexivity.
Defined.

(** ** Unclassified rows *)

Lemma color_map_keys l c :
  color_map !! l = Some c -> l = "(?)" \/ l ∈ color_labels.
Proof.
  intros H. unfold color_map in H.
  apply elem_of_list_to_map_2 in H.
  repeat (apply elem_of_cons in H as [[= -> ->]|H];
          [first [now left | right; unfold color_labels; set_solver]|]).
  now apply elem_of_nil in H.
Qed.

Lemma classify_never_mixed x : classify x <> Some "(?)".
Proof.
  intros H%classify_label. unfold color_labels in H.
  repeat (apply elem_of_cons in H as [H|H]; [discriminate H|]).
  now apply elem_of_nil in H.
Qed.

(** C5, as stated, fails in its last part: the row whose return is 15.0
    is in the frame returned, and so in the frame handed to the chart,
    with the colour value NaN, and the colour map of the call has no
    entry for it. *)
Lemma C5_unclassified_colour_counterexample :
  ~ (forall page df i,
       returned (fetch_and_process_data page) = Some df ->
       cell_at df "Renk" i = Some (Number PrimFloat.nan) ->
       is_Some (px.mapped_colour (px.color_discrete_map (treemap_call df))
                  (Number PrimFloat.nan))).
Proof.
  intros H.
  pose (page := page_of (sector_rows [Some "AAA"] [Some "Tech"] [Some "1.500,00"])
                  (return_rows [Some "AAA"] (Float64 [1500%float]))).
  destruct (returned (fetch_and_process_data (inr page))) as [df|] eqn:E;
    [|vm_compute in E; discriminate E].
  destruct (H (inr page) df 0 E) as [c Hc]; [|discriminate Hc].
  apply (f_equal (fun o : option DataFrame => d ← o; cell_at d "Renk" 0)) in E.
  vm_compute in E. symmetry. exact E.
Qed.

(** C5, amended: a return below -10, above 10 or NaN has no label;
    [pd.cut] raises nothing and returns one cell per row; after lines 53-57
    the row is still in the frame, its return unchanged and its "Renk" cell
    NaN, a state no label equals.  The colour map has entries for the six
    labels and for "(?)" only; no row is ever labelled "(?)", and the NaN
    cell is no key of the map. *)
Theorem C5_unclassified_rows :
  (forall x,
     F.lt x (-10) = true \/ F.lt 10 x = true \/ F.isnan x = true ->
     classify x = None) /\
  (forall xs,
     pd.cut (Float64 xs) color_ranges color_labels = inr (Object (classify <$> xs))) /\
  (forall (df df' : DataFrame) xs,
     df !! "Getiri (%)" = Some (Float64 xs) ->
     normalise_and_classify df = inr df' ->
     df' !! "Getiri (%)" = Some (Float64 xs) /\
     df' !! "Renk" = Some (Object (classify <$> xs)) /\
     forall i x,
       xs !! i = Some x ->
       F.lt x (-10) = true \/ F.lt 10 x = true \/ F.isnan x = true ->
       cell_at df' "Getiri (%)" i = Some (Number x) /\
       cell_at df' "Renk" i = Some (Number PrimFloat.nan) /\
       (forall c, Text (label c) <> Number PrimFloat.nan) /\
       px.mapped_colour color_map (Number PrimFloat.nan) = None) /\
  (forall l c, color_map !! l = Some c -> l = "(?)" \/ l ∈ color_labels) /\
  (forall x, classify x <> Some "(?)").
Proof.
  split; [exact classify_outside|].
  split; [exact cut_float|].
  split; [|split; [exact color_map_keys|exact classify_never_mixed]].
  intros df df' xs Hg Hn.
  apply normalise_and_classify_inr in Hn
    as (strs & nums & getiri & renk & _ & _ & Hg' & Hcut & ->).
  rewrite Hg in Hg'. injection Hg' as <-.
  rewrite cut_float in Hcut. injection Hcut as <-.
  assert (H1 : (<["Renk" := Object (classify <$> xs)]>
                  (<["Piyasa Değeri (mn $)" := Float64 nums]> df)) !! "Getiri (%)"
               = Some (Float64 xs)).
  { now rewrite !lookup_insert_ne by done. }
  split; [exact H1|]. split; [apply lookup_insert_eq|].
  intros i x Hx Hout. unfold cell_at.
  rewrite H1, lookup_insert_eq. simpl.
  rewrite !list_lookup_fmap, Hx. simpl.
  rewrite (classify_outside x Hout). repeat split. discriminate.
Qed.

Lemma C5_unclassified_rows_witness :
  classify 15 = None /\
  cell_at
    (<["Renk" := Object [None]]>
       (<["Piyasa Değeri (mn $)" := Float64 [1500%float]]>
          {[ "Getiri (%)" := Float64 [15%float];
             "Piyasa Değeri (mn $)" := Object [Some "1.500,00"] ]}))
    "Renk" 0
  = Some (Number PrimFloat.nan).
Proof.
  split.
  - apply (proj1 C5_unclassified_rows 15%float). right. left. reflexivity.
  - refine (proj1 (proj2 (proj2 (proj2 (proj1 (proj2 (proj2 C5_unclassified_rows))
             {[ "Getiri (%)" := Float64 [15%float];
                "Piyasa Değeri (mn $)" := Object [Some "1.500,00"] ]} _ [15%float]
             _ _)) 0 15%float _ _))).
    + reflexivity.
    + vm_compute. reflexivity.
    + reflexivity.
    + right. left. reflexivity.
Defined.

(** ** Failures *)

Lemma sector_frame_raises t e : sector_frame t = inl e -> e = KeyError.
Proof.
  unfold sector_frame, pd.getitem.
  repeat match goal with
    | |- context [?m !! ?k] => destruct (m !! k); [rewrite bind_mret|now intros [= <-]]
    end.
  discriminate.
Qed.

Lemma index_None {A} (l : list A) i : l !! i = None -> index l i = inl IndexError.
Proof. unfold index. now intros ->. Qed.

Lemma index_Some {A} (l : list A) i a : l !! i = Some a -> index l i = inr a.
Proof. unfold index. now intros ->. Qed.

(** What is raised when a table position is missing. *)
Lemma merged_frame_layout tables :
  tables !! 2 = None \/ tables !! 6 = None ->
  merged_frame tables
  = inl match tables !! 2 with
        | None => IndexError
        | Some t => match sector_frame t with inl _ => KeyError | inr _ => IndexError end
        end.
Proof.
  intros H. unfold merged_frame.
  destruct (tables !! 2) as [t|] eqn:H2.
  - destruct H as [H|H6]; [discriminate|].
    rewrite (index_Some _ _ _ H2), bind_inr.
    destruct (sector_frame t) as [e|sdf] eqn:Hs.
    + now rewrite (sector_frame_raises t e Hs).
    + now rewrite bind_inr, (index_None _ _ H6).
  - now rewrite (index_None _ _ H2).
Qed.

(** C6, as stated, fails: what the function returns for a page whose
    tables are too few is [None], the same value as for a failed request,
    so no test of the returned value tells the two apart; and for three
    empty tables (position 6 missing) the exception logged is the
    [KeyError] of the missing column, the same as for seven empty tables,
    where no position is missing. *)
Lemma C6_layout_error_counterexample :
  ~ (exists tell : option DataFrame -> bool,
       (forall tables : list DataFrame,
          tables !! 2 = None \/ tables !! 6 = None ->
          tell (returned (fetch_and_process_data (inr tables))) = true) /\
       tell (returned (fetch_and_process_data (inl RequestException))) = false) /\
  fetch_and_process_data (inr [∅; ∅; ∅]) = Outcome None [KeyError] /\
  fetch_and_process_data (inr [∅; ∅; ∅])
  = fetch_and_process_data (inr (replicate 7 ∅)).
Proof.
  split; [|split; reflexivity].
  intros (tell & Hlayout & Hfetch).
  specialize (Hlayout [∅; ∅; ∅] (or_intror eq_refl)).
  change (returned (fetch_and_process_data (inr [∅; ∅; ∅])))
    with (@None DataFrame) in Hlayout.
  change (returned (fetch_and_process_data (inl RequestException)))
    with (@None DataFrame) in Hfetch.
  congruence.
Qed.

(** C6, amended: when position 2 or position 6 is out of range the call
    returns [None], as for every other failure, and [main] draws no chart.
    The exception the handler logs is [IndexError] when position 2 is
    missing, or when position 6 is missing and the table at position 2 has
    its three columns; it is the [KeyError] of the missing column
    otherwise. *)
Theorem C6_layout_failure (tables : list DataFrame) :
  tables !! 2 = None \/ tables !! 6 = None ->
  returned (fetch_and_process_data (inr tables)) = None /\
  (forall treemap, main treemap (inr tables) = None) /\
  (tables !! 2 = None ->
   logged (fetch_and_process_data (inr tables)) = [IndexError]) /\
  (forall t, tables !! 2 = Some t ->
     logged (fetch_and_process_data (inr tables))
     = [match sector_frame t with inl _ => KeyError | inr _ => IndexError end]).
Proof.
  intros H.
  assert (Hp : process (inr tables)
               = inl match tables !! 2 with
                     | None => IndexError
                     | Some t =>
                         match sector_frame t with inl _ => KeyError | inr _ => IndexError end
                     end).
  { unfold process. now rewrite bind_inr, (merged_frame_layout tables H). }
  rewrite (fetch_raises _ _ Hp). simpl.
  split; [reflexivity|]. split.
  - intros treemap. apply main_nothing. now rewrite (fetch_raises _ _ Hp).
  - split; [now intros ->|now intros t ->].
Qed.

Lemma C6_layout_failure_witness :
  returned (fetch_and_process_data
              (inr [∅; ∅; sector_rows [Some "AAA"] [Some "Tech"] [Some "1.500,00"]])) = None /\
  logged (fetch_and_process_data
            (inr [∅; ∅; sector_rows [Some "AAA"] [Some "Tech"] [Some "1.500,00"]]))
  = [IndexError].
Proof.
  pose proof (C6_layout_failure
                [∅; ∅; sector_rows [Some "AAA"] [Some "Tech"] [Some "1.500,00"]]
                (or_intror eq_refl)) as (H1 & _ & _ & H2).
  split; [exact H1|]. exact (H2 _ eq_refl).
Defined.

(** C7, as stated, fails: with two merged rows, one of them holding the
    market value "-", the call returns no frame at all, not the frame of
    the other row. *)
Lemma C7_row_drop_counterexample :
  ~ (forall (tables : list DataFrame) df strs,
       merged_frame tables = inr df ->
       df !! "Piyasa Değeri (mn $)" = Some (Object strs) ->
       is_Some (returned (fetch_and_process_data (inr tables)))).
Proof.
  intros H.
  pose (tables := page_of
          (sector_rows [Some "AAA"; Some "BBB"] [Some "Tech"; Some "Bank"]
             [Some "1.500,00"; Some "-"])
          (return_rows [Some "AAA"; Some "BBB"] (Float64 [250; 100]%float))).
  destruct (merged_frame tables) as [e|df] eqn:E; [vm_compute in E; discriminate E|].
  specialize (H tables df [Some "1.500,00"; Some "-"] E).
  destruct H as [df' Hdf'].
  - apply (f_equal (fun r : result DataFrame =>
                      match r with
                      | inr d => d !! "Piyasa Değeri (mn $)"
                      | inl _ => None
                      end)) in E.
    vm_compute in E. symmetry. exact E.
  - vm_compute in Hdf'. discriminate Hdf'.
Qed.

(** C7, amended: a market value that [float] does not read once the dots
    are removed and the comma is a point, in any row that survived the
    merge, ends the whole run: the call logs [ValueError], returns [None]
    and no chart is drawn.  No row is dropped for it. *)
Theorem C7_parse_failure_aborts (tables : list DataFrame) (df : DataFrame) strs s :
  merged_frame tables = inr df ->
  df !! "Piyasa Değeri (mn $)" = Some (Object strs) ->
  Some s ∈ strs ->
  parse_market_value s = None ->
  fetch_and_process_data (inr tables) = Outcome None [ValueError] /\
  (forall treemap, main treemap (inr tables) = None).
Proof.
  intros Hm Hp Hs Hbad.
  assert (H : process (inr tables) = inl ValueError).
  { unfold process. rewrite bind_inr, Hm, bind_inr.
    exact (normalise_and_classify_bad_value df strs s Hp Hs Hbad). }
  split; [exact (fetch_raises _ _ H)|].
  intros treemap. apply main_nothing. now rewrite (fetch_raises _ _ H).
Qed.

Lemma C7_parse_failure_aborts_witness :
  fetch_and_process_data
    (inr (page_of
            (sector_rows [Some "AAA"; Some "BBB"] [Some "Tech"; Some "Bank"]
               [Some "1.500,00"; Some "-"])
            (return_rows [Some "AAA"; Some "BBB"] (Float64 [250; 100]%float))))
  = Outcome None [ValueError].
Proof.
  refine (proj1 (C7_parse_failure_aborts _ _ [Some "1.500,00"; Some "-"] "-" _ _ _ _)).
  - vm_compute. reflexivity.
  - vm_compute. reflexivity.
  - right. left.
  - vm_compute. reflexivity.
Defined.

(** ** A whole run *)

Lemma sector_frame_inr t sdf :
  sector_frame t = inr sdf ->
  exists kod sektor piyasa,
    t !! "Kod" = Some kod /\ t !! "Sektör" = Some sektor /\
    t !! "Piyasa Değeri (mn $)" = Some piyasa /\
    sdf = {[ "Hisse" := kod; "Sektör" := sektor; "Piyasa Değeri (mn $)" := piyasa ]}.
Proof.
  unfold sector_frame.
  intros (kod & Hk%getitem_inr & H)%bind_inr_inv.
  apply bind_inr_inv in H as (sektor & Hs%getitem_inr & H).
  apply bind_inr_inv in H as (piyasa & Hp%getitem_inr & [= <-]).
  now exists kod, sektor, piyasa.
Qed.

(** The stages a successful run went through. *)
Lemma process_inr tables df :
  process (inr tables) = inr df ->
  exists sector_table return_table sector_df return_df merged,
    tables !! 2 = Some sector_table /\ sector_frame sector_table = inr sector_df /\
    tables !! 6 = Some return_table /\ build_return return_table = inr return_df /\
    pd.merge sector_df return_df "Hisse" = inr merged /\
    normalise_and_classify merged = inr df.
Proof.
  unfold process. rewrite bind_inr.
  intros (merged & Hm & Hn)%bind_inr_inv. unfold merged_frame in Hm.
  apply bind_inr_inv in Hm as (st & Hst & Hm).
  apply bind_inr_inv in Hm as (sdf & Hsdf & Hm).
  apply bind_inr_inv in Hm as (rt & Hrt & Hm).
  apply bind_inr_inv in Hm as (rdf & Hrdf & Hm).
  exists st, rt, sdf, rdf, merged.
  unfold index in Hst, Hrt.
  destruct (tables !! 2); [injection Hst as ->|discriminate].
  destruct (tables !! 6); [injection Hrt as ->|discriminate].
  auto 10.
Qed.

(** C10: in the handler of [TypeError], a string that is still no number
    once '%' is removed and the comma is a point raises nothing: its cell
    becomes NaN, the return frame keeps one row per input row, NaN divided
    by 100 is NaN, and NaN has no label.  When the run succeeds and the
    ticker of that row is also in the sector table, the frame returned has
    a row with that ticker, a NaN return and a NaN "Renk". *)
Theorem C10_uncoercible_return
    (tables : list DataFrame) (sector_table return_table : DataFrame)
    (lk rk ss : list (option string)) (i j : nat) (k : option string) (s : string) :
  tables !! 2 = Some sector_table ->
  tables !! 6 = Some return_table ->
  sector_table !! "Kod" = Some (Object lk) ->
  return_table !! "Kod" = Some (Object rk) ->
  return_table !! "Günlük Getiri (%)" = Some (Object ss) ->
  ss !! j = Some (Some s) ->
  pd.floatify (Str.replace "," "." (Str.replace "%" "" s)) = None ->
  lk !! i = Some k ->
  rk !! j = Some k ->
  (exists rets,
     build_return return_table
     = inr {[ "Hisse" := Object rk; "Getiri (%)" := Float64 rets ]} /\
     length rets = length ss /\
     rets !! j = Some PrimFloat.nan) /\
  classify PrimFloat.nan = None /\
  (forall df,
     process (inr tables) = inr df ->
     exists p hisse rets renk,
       df !! "Hisse" = Some (Object hisse) /\
       df !! "Getiri (%)" = Some (Float64 rets) /\
       df !! "Renk" = Some (Object renk) /\
       hisse !! p = Some k /\
       rets !! p = Some PrimFloat.nan /\
       renk !! p = Some None).
Proof.
  intros H2 H6 Hlk Hrk Hss Hs Hbad Hi Hj.
  assert (Hnan : fallback_value (Some s) = PrimFloat.nan).
  { unfold fallback_value. simpl. now rewrite Hbad. }
  assert (Hret : (fallback_value <$> ss) !! j = Some PrimFloat.nan).
  { now rewrite list_lookup_fmap, Hs; simpl; rewrite Hnan. }
  assert (Hstr : exists s, Some s ∈ ss)
    by (exists s; eapply list_elem_of_lookup_2, Hs).
  pose proof (build_return_strings return_table _ Hrk ss Hss Hstr) as Hb.
  split; [exists (fallback_value <$> ss); now rewrite length_fmap|].
  split; [reflexivity|].
  intros df (st & rt & sdf & rdf & merged & H2' & Hsdf & H6' & Hrdf & Hm & Hn)%process_inr.
  rewrite H2 in H2'. injection H2' as <-. rewrite H6 in H6'. injection H6' as <-.
  rewrite Hb in Hrdf. injection Hrdf as <-.
  apply sector_frame_inr in Hsdf as (kod & sektor & piyasa & Hk & _ & _ & ->).
  rewrite Hlk in Hk. injection Hk as <-.
  rewrite (merge_object _ _ "Hisse" lk rk) in Hm
    by (try apply lookup_insert_eq).
  injection Hm as <-.
  set (idx := pd.inner_join pd.same_key 0 lk rk) in *.
  assert (Hin : (i, j) ∈ idx).
  { apply inner_join_elem. now exists i, k. }
  apply list_elem_of_lookup_1 in Hin as [p Hp].
  apply normalise_and_classify_inr in Hn
    as (strs & nums & getiri & renk & _ & _ & Hg & Hcut & ->).
  rewrite (merged_right_column _ _ _ _ _ _ (Float64 (fallback_value <$> ss))) in Hg;
    [|done|now rewrite !lookup_insert_ne by done|
      now rewrite lookup_insert_ne, lookup_singleton_eq by done].
  injection Hg as <-. simpl in Hcut. injection Hcut as <-.
  exists p. eexists _, _, _.
  rewrite !(lookup_insert_ne _ "Renk") by done.
  rewrite !(lookup_insert_ne _ "Piyasa Değeri (mn $)") by done.
  rewrite (merged_left_column _ _ _ _ _ "Hisse" (Object lk)) by apply lookup_insert_eq.
  rewrite (merged_right_column _ _ _ _ _ "Getiri (%)" (Float64 (fallback_value <$> ss)));
    [|done|now rewrite !lookup_insert_ne by done|
      now rewrite lookup_insert_ne, lookup_singleton_eq by done].
  rewrite lookup_insert_eq. simpl.
  split; [reflexivity|]. split; [reflexivity|]. split; [reflexivity|].
  rewrite !list_lookup_fmap, Hp. simpl. rewrite Hi, Hret. simpl.
  repeat split.
Qed.

Lemma C10_uncoercible_return_witness :
  exists df,
    process
      (inr (page_of
              (sector_rows [Some "AAA"; Some "BBB"] [Some "Tech"; Some "Bank"]
                 [Some "1.500,00"; Some "2.000,00"])
              (return_rows [Some "AAA"; Some "BBB"] (Object [Some "2,50%"; Some "-"]))))
    = inr df /\
    exists p hisse rets renk,
      df !! "Hisse" = Some (Object hisse) /\
      df !! "Getiri (%)" = Some (Float64 rets) /\
      df !! "Renk" = Some (Object renk) /\
      hisse !! p = Some (Some "BBB") /\
      rets !! p = Some PrimFloat.nan /\
      renk !! p = Some None.
Proof.
  set (tables := page_of _ _).
  destruct (process (inr tables)) as [e|df] eqn:E; [vm_compute in E; discriminate E|].
  exists df. split; [reflexivity|].
  refine (proj2 (proj2 (C10_uncoercible_return tables
            (sector_rows [Some "AAA"; Some "BBB"] [Some "Tech"; Some "Bank"]
               [Some "1.500,00"; Some "2.000,00"])
            (return_rows [Some "AAA"; Some "BBB"] (Object [Some "2,50%"; Some "-"]))
            [Some "AAA"; Some "BBB"] [Some "AAA"; Some "BBB"]
            [Some "2,50%"; Some "-"] 1 1 (Some "BBB") "-"
            _ _ _ _ _ _ _ _ _)) df E); reflexivity.
Defined.

(** ** The chart *)

Lemma cells_length c : length (cells c) = pd.nrows c.
Proof. destruct c; simpl; apply length_fmap. Qed.


(** ** The templates *)









(** ** The parser against literals *)

(** [Str.parse_float] agrees with the float64 literals of the prover, which
    are rounded to nearest, on short and long decimals, exponents,
    subnormals and overflow. *)
Lemma parse_float_examples :
  Str.parse_float true " -0 " = Some (-0)%float /\
  Str.parse_float true "1_0.5e1" = Some 105%float /\
  Str.parse_float false "1_0.5e1" = None /\
  Str.parse_float false "5.00" = Some 5%float /\
  Str.parse_float false "-.5E-2" = Some (-0.005)%float /\
  Str.parse_float false "." = None /\
  Str.parse_float false "1." = Some 1%float /\
  Str.parse_float false "1e400" = Some PrimFloat.infinity /\
  Str.parse_float false "123456789012345678901234567890"
  = Some 123456789012345678901234567890%float /\
  Str.parse_float false "0.1234567890123456789012345"
  = Some 0.1234567890123456789012345%float /\
  Str.parse_float false "4.9e-324" = Some 4.9e-324%float /\
  Str.parse_float false "2.2250738585072011e-308" = Some 2.2250738585072011e-308%float /\
  Str.parse_float false "-Infinity" = Some PrimFloat.neg_infinity /\
  Str.parse_float false "-" = None /\
  Str.parse_float false "" = None /\
  Str.parse_float false "1,5" = None.
Proof. vm_compute. repeat split. Qed.

(** The scenario of the design document: one sector row
    ("AAA", "Tech", "1.500,00") and one return row ("AAA", "2,50%"). *)
Lemma end_to_end_example :
  fetch_and_process_data
    (inr (page_of (sector_rows [Some "AAA"] [Some "Tech"] [Some "1.500,00"])
            (return_rows [Some "AAA"] (Object [Some "2,50%"]))))
  = Outcome
      (Some {[ "Hisse" := Object [Some "AAA"];
               "Sektör" := Object [Some "Tech"];
               "Piyasa Değeri (mn $)" := Float64 [1500%float];
               "Getiri (%)" := Float64 [0.025%float];
               "Renk" := Object [Some (label mild_positive)] ]}) [].
Proof. vm_compute. reflexivity. Qed.

(** * Further properties *)

(** ** More on the order of float64 *)

Module FloatFacts.

Import FloatOrder.

Lemma Prim2SF_not_nan x : F.isnan x = false -> Prim2SF x <> S754_nan.
Proof.
  unfold F.isnan, Prim2SF. intros ->.
  destruct (is_zero x); [discriminate|].
  destruct (is_infinity x); [discriminate|].
  destruct (Z.frexp x) as [r e].
  destruct (shr_fexp _ _ _ _ _) as [shr e'].
  destruct (shr_m shr); discriminate.
Qed.

Lemma SFcompare_total a b :
  a <> S754_nan -> b <> S754_nan -> exists c, SFcompare a b = Some c.
Proof. destruct a as [?|?| |? ? ?], b as [?|?| |? ? ?]; simpl; eauto; congruence. Qed.

Lemma SFcompare_antisym a b c :
  SFcompare a b = Some c -> SFcompare b a = Some (CompOpp c).
Proof.
  destruct a as [[]|[]| |[] ma ea], b as [[]|[]| |[] mb eb];
    simpl; try congruence; intros [= <-]; try reflexivity;
    change (Pos.compare_cont Eq) with Pos.compare;
    rewrite (Z.compare_antisym ea eb), (Pos.compare_antisym ma mb);
    destruct (ea ?= eb)%Z, (ma ?= mb)%positive; reflexivity.
Qed.

Lemma SFcompare_refl a : SFcompare a a <> Some Lt.
Proof.
  destruct a as [[]|[]| |[] m e]; simpl; try congruence;
    change (Pos.compare_cont Eq) with Pos.compare;
    rewrite Z.compare_refl, Pos.compare_refl; discriminate.
Qed.

Lemma SFcompare_eq_lt_trans a b c :
  SFcompare a b = Some Eq -> SFcompare b c = Some Lt -> SFcompare a c = Some Lt.
Proof.
  destruct a as [[]|[]| |[] ma ea], b as [[]|[]| |[] mb eb], c as [[]|[]| |[] mc ec];
    simpl; try congruence;
    change (Pos.compare_cont Eq) with Pos.compare;
    intros Hab Hbc; cmp_cases.
Qed.

Lemma SFcompare_eq_eq_trans a b c :
  SFcompare a b = Some Eq -> SFcompare b c = Some Eq -> SFcompare a c = Some Eq.
Proof.
  destruct a as [[]|[]| |[] ma ea], b as [[]|[]| |[] mb eb], c as [[]|[]| |[] mc ec];
    simpl; try congruence;
    change (Pos.compare_cont Eq) with Pos.compare;
    intros Hab Hbc; cmp_cases.
Qed.

Lemma lt_nan_l x y : F.isnan x = true -> F.lt x y = false.
Proof.
  intros H. unfold F.lt. now rewrite ltb_spec, (Prim2SF_nan x H).
Qed.

Lemma le_nan_l x y : F.isnan x = true -> F.le x y = false.
Proof.
  intros H. unfold F.le. now rewrite leb_spec, (Prim2SF_nan x H).
Qed.

Lemma le_nan_r x y : F.isnan y = true -> F.le x y = false.
Proof.
  intros H. unfold F.le. rewrite leb_spec, (Prim2SF_nan y H).
  unfold SFleb. now destruct (Prim2SF x).
Qed.

(** A float that compares is no NaN. *)
Lemma lt_not_nan x y : F.lt x y = true -> F.isnan x = false /\ F.isnan y = false.
Proof.
  intros H. split.
  - destruct (F.isnan x) eqn:E; [|reflexivity]. now rewrite (lt_nan_l x y E) in H.
  - destruct (F.isnan y) eqn:E; [|reflexivity]. now rewrite (lt_nan_r x y E) in H.
Qed.

Lemma le_not_nan x y : F.le x y = true -> F.isnan x = false /\ F.isnan y = false.
Proof.
  intros H. split.
  - destruct (F.isnan x) eqn:E; [|reflexivity]. now rewrite (le_nan_l x y E) in H.
  - destruct (F.isnan y) eqn:E; [|reflexivity]. now rewrite (le_nan_r x y E) in H.
Qed.

Lemma lt_irrefl x : F.lt x x = false.
Proof.
  unfold F.lt. rewrite ltb_spec. unfold SFltb.
  pose proof (SFcompare_refl (Prim2SF x)).
  now destruct (SFcompare (Prim2SF x) (Prim2SF x)) as [[]|].
Qed.

Lemma lt_asym x y : F.lt x y = true -> F.lt y x = false.
Proof.
  intros H. destruct (F.lt y x) eqn:E; [|reflexivity].
  now rewrite <- (lt_irrefl x), (lt_trans x y x H E).
Qed.

Lemma lt_le x y : F.lt x y = true -> F.le x y = true.
Proof.
  unfold F.lt, F.le. rewrite ltb_spec, leb_spec. unfold SFltb, SFleb.
  now destruct (SFcompare (Prim2SF x) (Prim2SF y)) as [[]|].
Qed.

Lemma le_lt_trans x y z : F.le x y = true -> F.lt y z = true -> F.lt x z = true.
Proof.
  unfold F.lt, F.le. rewrite !ltb_spec, leb_spec. unfold SFltb, SFleb.
  destruct (SFcompare (Prim2SF x) (Prim2SF y)) as [[]|] eqn:Hxy; try discriminate;
    destruct (SFcompare (Prim2SF y) (Prim2SF z)) as [[]|] eqn:Hyz; try discriminate;
    intros _ _.
  - now rewrite (SFcompare_eq_lt_trans _ _ _ Hxy Hyz).
  - now rewrite (SFcompare_lt_trans _ _ _ Hxy Hyz).
Qed.

Lemma le_trans x y z : F.le x y = true -> F.le y z = true -> F.le x z = true.
Proof.
  unfold F.le. rewrite !leb_spec. unfold SFleb.
  destruct (SFcompare (Prim2SF x) (Prim2SF y)) as [[]|] eqn:Hxy; try discriminate;
    destruct (SFcompare (Prim2SF y) (Prim2SF z)) as [[]|] eqn:Hyz; try discriminate;
    intros _ _.
  - now rewrite (SFcompare_eq_eq_trans _ _ _ Hxy Hyz).
  - now rewrite (SFcompare_eq_lt_trans _ _ _ Hxy Hyz).
  - now rewrite (SFcompare_lt_eq_trans _ _ _ Hxy Hyz).
  - now rewrite (SFcompare_lt_trans _ _ _ Hxy Hyz).
Qed.

(** Two floats that are no NaN are ordered one way or the other. *)
Lemma le_or_lt x y :
  F.isnan x = false -> F.isnan y = false -> F.le x y = true \/ F.lt y x = true.
Proof.
  intros Hx%Prim2SF_not_nan Hy%Prim2SF_not_nan.
  unfold F.lt, F.le. rewrite ltb_spec, leb_spec. unfold SFltb, SFleb.
  destruct (SFcompare_total _ _ Hx Hy) as [c Hc].
  rewrite Hc, (SFcompare_antisym _ _ _ Hc). destruct c; auto.
Qed.

(** Neither above nor below: equal, as floats, or NaN. *)
Lemma neither_lt x y :
  negb (F.lt y x) && negb (F.lt x y) = PrimFloat.eqb x y || F.isnan x || F.isnan y.
Proof.
  destruct (F.isnan x) eqn:Hx.
  { rewrite (lt_nan_l x y Hx), (lt_nan_r y x Hx).
    now destruct (PrimFloat.eqb x y), (F.isnan y). }
  destruct (F.isnan y) eqn:Hy.
  { rewrite (lt_nan_r x y Hy), (lt_nan_l y x Hy).
    now destruct (PrimFloat.eqb x y). }
  rewrite !orb_false_r.
  apply Prim2SF_not_nan in Hx, Hy.
  unfold F.lt. rewrite !ltb_spec, FloatAxioms.eqb_spec. unfold SFltb, SFeqb.
  destruct (SFcompare_total _ _ Hx Hy) as [c Hc].
  rewrite Hc, (SFcompare_antisym _ _ _ Hc). now destruct c.
Qed.

End FloatFacts.

(** ** The classifier, both ways *)

Section ClassifierFacts.

Import FloatOrder FloatFacts.

Ltac in_list := repeat first [apply list_elem_of_here | apply list_elem_of_further].

Ltac in_list_absurd H :=
  repeat (apply elem_of_cons in H as [H|H]; [discriminate H|]);
  now apply elem_of_nil in H.

Lemma le_lt_or_eq x y :
  F.le x y = true -> F.lt x y = true \/ PrimFloat.eqb x y = true.
Proof.
  unfold F.lt, F.le. rewrite ltb_spec, leb_spec, FloatAxioms.eqb_spec.
  unfold SFltb, SFleb, SFeqb.
  destruct (SFcompare (Prim2SF x) (Prim2SF y)) as [[]|]; auto.
Qed.

(** A label comes with its bin. *)
Lemma classify_bin x l :
  classify x = Some l ->
  exists i lo hi,
    color_labels !! i = Some l /\
    color_ranges !! i = Some lo /\ color_ranges !! S i = Some hi /\
    F.lt lo x = true /\ F.le x hi = true.
Proof.
  rewrite classify_unfold.
  repeat match goal with
    | |- context [if ?a && ?b then _ else _] =>
        destruct a eqn:?, b eqn:?; cbn [andb]
    end;
    intros [= <-];
    first [ now exists 0, (-10)%float, (-5)%float
          | now exists 1, (-5)%float, (-0.01)%float
          | now exists 2, (-0.01)%float, 0%float
          | now exists 3, 0%float, 0.01%float
          | now exists 4, 0.01%float, 5%float
          | now exists 5, 5%float, 10%float ].
Qed.

(** X1: a label is only given to a value of its bin: if [classify x] is
    the [i]-th label then [x] lies in [(lo, hi]], [lo] and [hi] being the
    [i]-th and the next edge of [color_ranges]. *)
Theorem X1_classify_sound x l :
  classify x = Some l ->
  exists i lo hi,
    color_labels !! i = Some l /\
    color_ranges !! i = Some lo /\ color_ranges !! S i = Some hi /\
    F.lt lo x = true /\ F.le x hi = true.
Proof. apply classify_bin. Qed.

Lemma X1_classify_sound_witness :
  exists i lo hi,
    color_labels !! i = Some "lime" /\
    color_ranges !! i = Some lo /\ color_ranges !! S i = Some hi /\
    F.lt lo 2.5 = true /\ F.le 2.5 hi = true.
Proof. apply (X1_classify_sound 2.5%float "lime"). vm_compute. reflexivity. Defined.

(** X2: the bins leave no gap: a return has a label exactly when it is
    above -10 and at most 10. *)
Theorem X2_classify_coverage x :
  is_Some (classify x) <-> F.lt (-10) x = true /\ F.le x 10 = true.
Proof.
  split.
  - intros [l (i & lo & hi & Hl & Hlo & Hhi & H1 & H2)%classify_bin].
    do 6 (destruct i as [|i];
          [injection Hlo as <-; injection Hhi as <-;
           split;
           [first [exact H1 | refine (lt_trans (-10) _ x _ H1); reflexivity]
           |first [exact H2 | refine (le_trans x _ 10 H2 _); reflexivity]]|]).
    discriminate Hl.
  - intros [H1 H2].
    destruct (lt_not_nan _ _ H1) as [_ Hx].
    assert (Hedge : forall e, F.isnan e = false -> F.le x e = false -> F.lt e x = true).
    { intros e He Hle. destruct (le_or_lt x e Hx He); congruence. }
    rewrite classify_unfold, H1, H2.
    destruct (F.le x (-5)) eqn:E1; [now eexists|].
    rewrite (Hedge (-5)%float eq_refl E1).
    destruct (F.le x (-0.01)) eqn:E2; [now eexists|].
    rewrite (Hedge (-0.01)%float eq_refl E2).
    destruct (F.le x 0) eqn:E3; [now eexists|].
    rewrite (Hedge 0%float eq_refl E3).
    destruct (F.le x 0.01) eqn:E4; [now eexists|].
    rewrite (Hedge 0.01%float eq_refl E4).
    destruct (F.le x 5) eqn:E5; [now eexists|].
    rewrite (Hedge 5%float eq_refl E5). now eexists.
Qed.

Lemma X2_classify_coverage_witness :
  is_Some (classify 2.5) /\ F.le 15 10 = false /\ classify 15 = None.
Proof.
  split; [apply (proj2 (X2_classify_coverage 2.5%float)); split; reflexivity|].
  split; [reflexivity|].
  destruct (classify 15) as [l|] eqn:E; [|reflexivity].
  destruct (proj1 (X2_classify_coverage 15%float)) as [_ H]; [now rewrite E|].
  discriminate H.
Defined.

(** X3: the labels follow the order of the returns: of two labelled
    returns, the larger one never has a label earlier in [color_labels]. *)
Theorem X3_classify_monotone x y lx ly :
  classify x = Some lx -> classify y = Some ly -> F.le x y = true ->
  exists i j, color_labels !! i = Some lx /\ color_labels !! j = Some ly /\ i <= j.
Proof.
  intros (i & lo & hi & Hl & Hlo & Hhi & H1 & H2)%classify_bin
         (j & lo' & hi' & Hl' & Hlo' & Hhi' & H1' & H2')%classify_bin Hxy.
  exists i, j. split; [exact Hl|]. split; [exact Hl'|].
  pose proof (lt_le_trans _ _ _ (lt_le_trans _ _ _ H1 Hxy) H2') as Hc.
  destruct i as [|[|[|[|[|[|i]]]]]]; try discriminate Hl;
    destruct j as [|[|[|[|[|[|j]]]]]]; try discriminate Hl';
    try lia;
    injection Hlo as <-; injection Hhi' as <-; discriminate Hc.
Qed.

Lemma X3_classify_monotone_witness :
  exists i j,
    color_labels !! i = Some "indianred" /\ color_labels !! j = Some "lime" /\ i <= j.
Proof.
  apply (X3_classify_monotone (-3)%float 2.5%float); vm_compute; reflexivity.
Defined.

(** X4: the tone of a label agrees with the sign of the return: a green
    tone ("lightgreen", "lime", "green") is given exactly to the labelled
    returns above zero; "red" and "indianred" only to returns below zero;
    "lightpink" to returns below zero or equal to zero. *)
Theorem X4_tone_follows_sign x l :
  classify x = Some l ->
  (l ∈ ["lightgreen"; "lime"; "green"] <-> F.lt 0 x = true) /\
  (l ∈ ["red"; "indianred"] -> F.lt x 0 = true) /\
  (l = "lightpink" -> F.lt x 0 = true \/ PrimFloat.eqb x 0 = true).
Proof.
  intros (i & lo & hi & Hl & Hlo & Hhi & H1 & H2)%classify_bin.
  assert (Hneg : F.le x 0 = true -> F.lt 0 x = false).
  { intros Hle. destruct (F.lt 0 x) eqn:E; [|reflexivity].
    now rewrite <- (lt_irrefl 0), (lt_le_trans _ _ _ E Hle). }
  assert (Hsign : F.lt 0 x = match i with 3 | 4 | 5 => true | _ => false end
                  /\ (i < 2 -> F.lt x 0 = true)).
  { destruct i as [|[|[|[|[|[|i]]]]]]; try discriminate Hl;
      injection Hlo as <-; injection Hhi as <-; (split; [|intros; try lia]).
    - apply Hneg, lt_le, (le_lt_trans x (-5) 0 H2 eq_refl).
    - apply (le_lt_trans x (-5) 0 H2 eq_refl).
    - apply Hneg, lt_le, (le_lt_trans x (-0.01) 0 H2 eq_refl).
    - apply (le_lt_trans x (-0.01) 0 H2 eq_refl).
    - apply Hneg, H2.
    - exact H1.
    - apply (lt_trans 0 0.01 x eq_refl H1).
    - apply (lt_trans 0 5 x eq_refl H1). }
  destruct Hsign as [-> Hlow].
  destruct i as [|[|[|[|[|[|i]]]]]]; try discriminate Hl; injection Hl as <-;
    (split; [split; [first [intros _; reflexivity | intros H; exfalso; in_list_absurd H]
                    |first [discriminate | intros _; in_list]]|]);
    (split; [first [intros _; apply Hlow; lia | intros H; exfalso; in_list_absurd H]|]);
    first [discriminate | intros _].
  injection Hlo as <-. injection Hhi as <-. now apply le_lt_or_eq.
Qed.

Lemma X4_tone_follows_sign_witness :
  F.lt 0 0 = false /\ (F.lt 0 0 = true \/ PrimFloat.eqb 0 0 = true).
Proof.
  split; [reflexivity|].
  apply (proj2 (proj2 (X4_tone_follows_sign 0%float "lightpink" eq_refl)) eq_refl).
Defined.

End ClassifierFacts.

(** ** The return frame, whatever the table *)

Section ReturnFrameFacts.

Lemma return_frame_missing (t : DataFrame) :
  t !! "Kod" = None \/ t !! "Günlük Getiri (%)" = None ->
  return_frame t = inl KeyError.
Proof.
  unfold return_frame, pd.getitem.
  destruct (t !! "Kod"); [|reflexivity].
  destruct (t !! "Günlük Getiri (%)"); [|reflexivity].
  intros [H|H]; discriminate H.
Qed.

(** X5: the return frame is built whenever the table has the columns
    "Kod" and "Günlük Getiri (%)", whatever the second one holds: the
    handler of [TypeError] cannot fail in its turn.  The frame has one
    return per row of the table, in a float64 column, except when the
    column is of dtype object and holds no string (NaN only, or no row):
    the first attempt then succeeds and the column is kept as it is.
    When one of the two columns is missing the result is [KeyError], which
    the handler does not catch. *)
Theorem X5_build_return_total (t : DataFrame) :
  match t !! "Kod", t !! "Günlük Getiri (%)" with
  | Some kod, Some c =>
      exists c',
        build_return t = inr {[ "Hisse" := kod; "Getiri (%)" := c' ]} /\
        pd.nrows c' = pd.nrows c /\
        match c with
        | Float64 _ => exists rets, c' = Float64 rets
        | Object ss =>
            if pd.has_string ss then exists rets, c' = Float64 rets else c' = Object ss
        end
  | _, _ => build_return t = inl KeyError
  end.
Proof.
  destruct (t !! "Kod") as [kod|] eqn:Hk.
  - destruct (t !! "Günlük Getiri (%)") as [c|] eqn:Hg.
    + exists (returns_column c). split; [exact (build_return_column t kod Hk c Hg)|].
      destruct c as [xs|ss]; cbn [returns_column].
      * split; [apply length_fmap|now eexists].
      * destruct (pd.has_string ss); (split; [|now eauto]);
          [apply length_fmap|reflexivity].
    + unfold build_return. now rewrite return_frame_missing by auto.
  - unfold build_return. now rewrite return_frame_missing by auto.
Qed.

End ReturnFrameFacts.

(** ** Strings line 53 and line 43 were not written for *)

Section OtherFormats.

(** X6: a market value written the other way round is not refused but
    read at another scale.  Digits, a point and digits ("1234.56") lose
    the point and are read as one integer (123456); digits, a comma,
    digits, a point and digits ("1,234.56") are read with the comma as
    the decimal point (1.23456). *)
Theorem X6_other_locale_misread :
  parse_market_value "1234.56" = Some 123456%float /\
  parse_market_value "1,234.56" = Some 1.23456%float /\
  (forall i ds,
     i <> "" -> all_digits i = true -> all_digits ds = true ->
     parse_market_value (i ++ "." ++ ds)
     = Some (F.of_decimal false (number_from 0 (i ++ ds)) 0)) /\
  (forall a b c,
     a <> "" -> all_digits a = true -> all_digits b = true -> all_digits c = true ->
     parse_market_value (a ++ "," ++ b ++ "." ++ c)
     = Some (F.of_decimal false (number_from 0 (a ++ b ++ c))
               (- Z.of_nat (String.length (b ++ c))))).
Proof.
  split; [vm_compute; reflexivity|].
  split; [vm_compute; reflexivity|].
  split.
  - intros i ds Hi Hdi Hds. unfold parse_market_value.
    rewrite !replace_app, (replace_digits "." "" i), (replace_digits "." "" ds) by auto.
    change (Str.replace "." "" ".") with "".
    change (Str.replace "," "." "") with "".
    change ("" ++ Str.replace "," "." ds) with (Str.replace "," "." ds).
    rewrite (replace_digits "," "." i), (replace_digits "," "." ds) by auto.
    rewrite float_of_str_ascii
      by (rewrite is_ascii_app; now rewrite !is_ascii_digits by assumption).
    apply parse_plain_integer.
    + destruct i; [done|discriminate].
    + now rewrite all_digits_app, Hdi, Hds.
  - intros a b c Ha Hda Hdb Hdc. unfold parse_market_value.
    rewrite !replace_app.
    rewrite (replace_digits "." "" a), (replace_digits "." "" b),
      (replace_digits "." "" c) by auto.
    change (Str.replace "." "" ",") with ",".
    change (Str.replace "." "" ".") with "".
    change (Str.replace "," "." ",") with ".".
    change (Str.replace "," "." "") with "".
    change ("" ++ Str.replace "," "." c) with (Str.replace "," "." c).
    rewrite (replace_digits "," "." a), (replace_digits "," "." b),
      (replace_digits "," "." c) by auto.
    assert (Hbc : all_digits (b ++ c) = true) by now rewrite all_digits_app, Hdb, Hdc.
    rewrite float_of_str_ascii
      by (rewrite !is_ascii_app, (is_ascii_digits a), (is_ascii_digits b),
            (is_ascii_digits c) by assumption; reflexivity).
    rewrite (parse_plain_decimal true a (b ++ c)); auto.
Qed.

Lemma X6_other_locale_misread_witness :
  parse_market_value "987.65" = Some 98765%float.
Proof.
  exact (proj1 (proj2 (proj2 X6_other_locale_misread)) "987" "65"
           ltac:(discriminate) eq_refl eq_refl).
Defined.

Lemma fallback_value_Some s :
  fallback_value (Some s)
  = F.div (default PrimFloat.nan
             (pd.floatify (Str.replace "," "." (Str.replace "%" "" s)))) 100.
Proof. reflexivity. Qed.

(** A string that starts with a digit and holds no white space: what
    [pd.floatify] makes of it is decided by its decimal reading. *)
Lemma number_digit_first us c r :
  Str.is_digit c = true ->
  forallb (fun c => negb (Str.is_space c)) (list_ascii_of_string r) = true ->
  Str.number us (String c r)
  = match Str.decimal us (String c r) with
    | Some (m, e) => Some (F.of_decimal false m e)
    | None => None
    end.
Proof.
  intros Hc Hr.
  destruct (digit_char c Hc) as (Hsp & _ & _ & Hm & Hp & _).
  assert (Hstrip : Str.strip (String c r) = String c r).
  { unfold Str.strip. simpl Str.lstrip. rewrite Hsp.
    apply rstrip_no_space. simpl. now rewrite Hsp. }
  assert (Hsign : Str.sign (String c r) = (false, String c r)).
  { simpl. apply Ascii.eqb_neq in Hm, Hp.
    destruct c as [[] [] [] [] [] [] [] []]; try reflexivity; exfalso; auto. }
  unfold Str.number. now rewrite Hstrip, Hsign.
Qed.

Lemma infinity_digit_first c r : Str.is_digit c = true -> Str.infinity (String c r) = None.
Proof.
  intros Hc.
  destruct (digit_char c Hc) as (_ & _ & _ & Hm & Hp & Hci & _).
  assert (Hsign : Str.sign (String c r) = (false, String c r)).
  { simpl. apply Ascii.eqb_neq in Hm, Hp.
    destruct c as [[] [] [] [] [] [] [] []]; try reflexivity; exfalso; auto. }
  unfold Str.infinity. rewrite Hsign. cbv beta iota zeta.
  cbn [Str.lower String.eqb]. now rewrite Hci.
Qed.

(** X7: the handler of [TypeError] removes '%' and turns the comma into a
    point but keeps the dots, so a percentage written with a thousands
    separator ("1.234,56%") is no number for it: the cell becomes NaN,
    where line 53 would have read the same digits as 1234.56. *)
Theorem X7_percent_with_thousands_is_nan :
  fallback_value (Some "1.234,56%") = PrimFloat.nan /\
  parse_market_value "1.234,56" = Some 1234.56%float /\
  (forall a b c,
     a <> "" -> all_digits a = true -> all_digits b = true -> all_digits c = true ->
     fallback_value (Some (a ++ "." ++ b ++ "," ++ c ++ "%")) = PrimFloat.nan).
Proof.
  split; [vm_compute; reflexivity|].
  split; [vm_compute; reflexivity|].
  intros a b c Ha Hda Hdb Hdc.
  rewrite fallback_value_Some, !replace_app.
  rewrite (replace_percent_digits "" a), (replace_percent_digits "" b),
    (replace_percent_digits "" c) by auto.
  change (Str.replace "%" "" ".") with ".".
  change (Str.replace "%" "" ",") with ",".
  change (Str.replace "%" "" "%") with "".
  change (Str.replace "," "." ".") with ".".
  change (Str.replace "," "." ",") with ".".
  change (Str.replace "," "." "") with "".
  rewrite (replace_digits "," "." a), (replace_digits "," "." b),
    (replace_digits "," "." c) by auto.
  rewrite app_nil_s.
  assert (Hnone : pd.floatify (a ++ "." ++ b ++ "." ++ c) = None).
  { unfold pd.floatify.
    assert (Hcs : Str.c_str (a ++ "." ++ b ++ "." ++ c) = a ++ "." ++ b ++ "." ++ c).
    { rewrite (c_str_digits a _ Hda). f_equal.
      change ("." ++ b ++ "." ++ c) with (String "." (b ++ "." ++ c)).
      cbn [Str.c_str Ascii.eqb Bool.eqb]. f_equal.
      rewrite (c_str_digits b _ Hdb). f_equal.
      change ("." ++ c) with (String "." c).
      cbn [Str.c_str Ascii.eqb Bool.eqb]. f_equal.
      rewrite <- (app_nil_s c) at 1. rewrite (c_str_digits c "" Hdc).
      now rewrite app_nil_s. }
    rewrite Hcs.
    destruct a as [|x a]; [done|].
    pose proof Hda as Hda'.
    rewrite all_digits_cons in Hda'. apply andb_prop in Hda' as [Hx Hda'].
    change (String x a ++ "." ++ b ++ "." ++ c)
      with (String x (a ++ "." ++ b ++ "." ++ c)).
    rewrite (infinity_digit_first x _ Hx).
    rewrite number_digit_first; [|exact Hx|].
    2:{ rewrite !no_space_app, (no_space_digits a Hda'), (no_space_digits b Hdb),
          (no_space_digits c Hdc). reflexivity. }
    change (String x (a ++ "." ++ b ++ "." ++ c))
      with (String x a ++ "." ++ b ++ "." ++ c).
    unfold Str.decimal.
    rewrite (digits_app false (String x a) ("." ++ b ++ "." ++ c) 0 0 Hda)
      by reflexivity.
    change ("." ++ b ++ "." ++ c) with (String "." (b ++ "." ++ c)).
    cbv iota beta.
    rewrite (digits_app false b ("." ++ c) _ 0 Hdb) by reflexivity.
    cbv iota beta.
    replace (0 <? 0 + String.length (String x a) + (0 + String.length b))%nat
      with true by (simpl; reflexivity).
    reflexivity. }
  rewrite Hnone. reflexivity.
Qed.

Lemma X7_percent_with_thousands_is_nan_witness :
  fallback_value (Some "12.345,6%") = PrimFloat.nan.
Proof.
  exact (proj2 (proj2 X7_percent_with_thousands_is_nan) "12" "345" "6"
           ltac:(discriminate) eq_refl eq_refl eq_refl).
Defined.

End OtherFormats.

(** ** The merge with repeated tickers *)

Section MergeCounts.

Context {K : Type} `{EqDecision K}.

Local Abbreviation same_key := (pd.same_key (K:=K)).

Lemma matches_count (a : K) j r :
  length (pd.matches same_key a j r) = length (filter (fun b => a = b) r).
Proof.
  revert j. induction r as [|b r IH]; intros j; [reflexivity|].
  cbn [pd.matches]. rewrite length_app, IH, filter_cons. unfold pd.same_key.
  destruct (decide (a = b)) as [->|Hab].
  - now rewrite bool_decide_eq_true_2.
  - now rewrite bool_decide_eq_false_2.
Qed.

Lemma fst_pairs {A B} (i : A) (ms : list B) : (map (pair i) ms).*1 = replicate (length ms) i.
Proof.
  induction ms as [|m ms IH]; [reflexivity|].
  cbn [map]. rewrite fmap_cons. cbn [length replicate fst]. now rewrite IH.
Qed.

(** The tickers of the joined rows: each left ticker, as many times as
    it occurs on the right. *)
Lemma inner_join_keys (dflt : K) (pre l r : list K) :
  (fun i => default dflt ((pre ++ l)%list !! i)) <$> (pd.inner_join same_key (length pre) l r).*1
  = l ≫= (fun a => replicate (length (filter (fun b => a = b) r)) a).
Proof.
  revert pre. induction l as [|a l IH]; intros pre; [reflexivity|].
  cbn [pd.inner_join]. rewrite !fmap_app, bind_cons.
  replace (pre ++ a :: l)%list with ((pre ++ [a]) ++ l)%list by now rewrite <- app_assoc.
  replace (S (length pre)) with (length (pre ++ [a])%list) by (rewrite length_app; simpl; lia).
  rewrite IH. f_equal.
  rewrite fst_pairs, fmap_replicate, matches_count. f_equal.
  rewrite <- app_assoc. simpl. now rewrite list_lookup_middle.
Qed.

Lemma filter_replicate_same (a : K) m :
  filter (fun b => a = b) (replicate m a) = replicate m a.
Proof.
  induction m as [|m IHm]; [reflexivity|].
  cbn [replicate]. rewrite filter_cons, IHm. now destruct (decide (a = a)).
Qed.

Lemma filter_replicate_other (k a : K) m :
  k <> a -> filter (fun b => k = b) (replicate m a) = [].
Proof.
  intros Hka. induction m as [|m IHm]; [reflexivity|].
  cbn [replicate]. rewrite filter_cons, IHm. now destruct (decide (k = a)).
Qed.

Lemma count_bind_replicate (k : K) (n : K -> nat) l :
  length (filter (fun b => k = b) (l ≫= (fun a => replicate (n a) a)))
  = length (filter (fun b => k = b) l) * n k.
Proof.
  induction l as [|a l IH]; [reflexivity|].
  rewrite bind_cons, filter_app, length_app, IH, filter_cons.
  destruct (decide (k = a)) as [->|Hka].
  - rewrite filter_replicate_same, length_replicate. simpl. lia.
  - now rewrite filter_replicate_other.
Qed.

End MergeCounts.

(** X8: [pd.merge] removes no duplicate: a ticker present [m] times in the
    sector frame and [n] times in the return frame is in [m * n] rows of
    the merged frame (none when it is missing on one side), and every
    column of the merged frame has as many rows as there are such pairs. *)
Theorem X8_merge_duplicates (sector_df return_df : DataFrame) lk rk :
  sector_df !! "Hisse" = Some (Object lk) ->
  return_df !! "Hisse" = Some (Object rk) ->
  exists df ks,
    pd.merge sector_df return_df "Hisse" = inr df /\
    df !! "Hisse" = Some (Object ks) /\
    (forall k,
       length (filter (fun b => k = b) ks)
       = length (filter (fun b => k = b) lk) * length (filter (fun b => k = b) rk)) /\
    (forall name c, df !! name = Some c -> pd.nrows c = length ks).
Proof.
  intros Hl Hr.
  set (idx := pd.inner_join pd.same_key 0 lk rk).
  exists ((pd.take (idx.*1) <$> sector_df) ∪ (pd.take (idx.*2) <$> delete "Hisse" return_df)),
    ((fun i => default None (lk !! i)) <$> idx.*1).
  split; [now apply merge_object|].
  split; [now rewrite (merged_left_column _ _ _ _ _ _ _ Hl)|].
  split.
  - intros k. unfold idx.
    rewrite (inner_join_keys None [] lk rk).
    apply (count_bind_replicate k (fun a => length (filter (fun b => a = b) rk))).
  - intros name c Hc. rewrite !length_fmap. eapply merged_column_rows, Hc.
Qed.

Lemma X8_merge_duplicates_witness :
  exists df ks,
    pd.merge
      {[ "Hisse" := Object [Some "A"; Some "B"; Some "A"] ]}
      {[ "Hisse" := Object [Some "A"; Some "A"; Some "C"] ]} "Hisse" = inr df /\
    df !! "Hisse" = Some (Object ks) /\
    length (filter (fun b => Some "A" = b) ks) = 4 /\
    length (filter (fun b => Some "B" = b) ks) = 0.
Proof.
  destruct (X8_merge_duplicates
              {[ "Hisse" := Object [Some "A"; Some "B"; Some "A"] ]}
              {[ "Hisse" := Object [Some "A"; Some "A"; Some "C"] ]}
              [Some "A"; Some "B"; Some "A"] [Some "A"; Some "A"; Some "C"])
    as (df & ks & Hm & Hh & Hc & _); [reflexivity|reflexivity|].
  exists df, ks. split; [exact Hm|]. split; [exact Hh|].
  split; [exact (Hc (Some "A"))|exact (Hc (Some "B"))].
Defined.

(** ** The frame a successful run returns *)

Section JoinOrder.

Context {K : Type} (eqb : K -> K -> bool).

Lemma matches_ge a j r j' : j' ∈ pd.matches eqb a j r -> j <= j'.
Proof.
  revert j. induction r as [|b r IH]; intros j; cbn [pd.matches].
  - intros H. now apply elem_of_nil in H.
  - intros [H|H]%elem_of_app.
    + destruct (eqb a b); [|now apply elem_of_nil in H].
      apply list_elem_of_singleton in H. lia.
    + apply IH in H. lia.
Qed.

Lemma matches_NoDup a j r : NoDup (pd.matches eqb a j r).
Proof.
  revert j. induction r as [|b r IH]; intros j; cbn [pd.matches]; [constructor|].
  apply NoDup_app. split; [|split; [|apply IH]].
  - destruct (eqb a b); [apply NoDup_singleton|constructor].
  - intros x Hx Hx'. apply matches_ge in Hx'.
    destruct (eqb a b); [|now apply elem_of_nil in Hx].
    apply list_elem_of_singleton in Hx. lia.
Qed.

Lemma inner_join_ge i l r p : p ∈ pd.inner_join eqb i l r -> i <= p.1.
Proof.
  revert i. induction l as [|a l IH]; intros i; cbn [pd.inner_join].
  - intros H. now apply elem_of_nil in H.
  - intros [H|H]%elem_of_app.
    + change (map (pair i) ?l) with (pair i <$> l) in H.
      apply list_elem_of_fmap in H as (x & -> & _). reflexivity.
    + apply IH in H. lia.
Qed.

(** A join lists every pair of equal keys once. *)
Lemma inner_join_NoDup i l r : NoDup (pd.inner_join eqb i l r).
Proof.
  revert i. induction l as [|a l IH]; intros i; cbn [pd.inner_join]; [constructor|].
  apply NoDup_app. split; [|split; [|apply IH]].
  - change (map (pair i) ?l) with (pair i <$> l).
    apply NoDup_fmap_2; [|apply matches_NoDup].
    intros x y [= ->]. reflexivity.
  - intros p Hp Hp'. apply inner_join_ge in Hp'.
    change (map (pair i) ?l) with (pair i <$> l) in Hp.
    apply list_elem_of_fmap in Hp as (x & -> & _). cbn [fst] in Hp'. lia.
Qed.

End JoinOrder.

Section RunFacts.

Ltac among := repeat first [apply list_elem_of_here | apply list_elem_of_further].

Lemma returned_Some {A} (m : result A) a : returned (catch_all m) = Some a -> m = inr a.
Proof. destruct m; simpl; [discriminate|now intros [= ->]]. Qed.

Lemma take_float idx xs :
  pd.take idx (Float64 xs) = Float64 ((fun i => default PrimFloat.nan (xs !! i)) <$> idx).
Proof. reflexivity. Qed.

Lemma take_object idx xs :
  pd.take idx (Object xs) = Object ((fun i => default None (xs !! i)) <$> idx).
Proof. reflexivity. Qed.

(** What [build_return] returned. *)
Lemma build_return_inr (rt rdf : DataFrame) :
  build_return rt = inr rdf ->
  exists kod c,
    rt !! "Kod" = Some kod /\ rt !! "Günlük Getiri (%)" = Some c /\
    rdf = {[ "Hisse" := kod; "Getiri (%)" := returns_column c ]}.
Proof.
  intros H.
  destruct (rt !! "Kod") as [kod|] eqn:Hk.
  - destruct (rt !! "Günlük Getiri (%)") as [c|] eqn:Hg.
    + exists kod, c. split; [reflexivity|]. split; [reflexivity|].
      rewrite (build_return_column rt kod Hk c Hg) in H. now injection H as <-.
    + unfold build_return in H. rewrite return_frame_missing in H by auto. discriminate H.
  - unfold build_return in H. rewrite return_frame_missing in H by auto. discriminate H.
Qed.

Lemma returns_column_rows c : pd.nrows (returns_column c) = pd.nrows c.
Proof.
  destruct c as [xs|ss]; cbn [returns_column]; [apply length_fmap|].
  destruct (pd.has_string ss); [apply length_fmap|reflexivity].
Qed.

(** The return column holds numbers only, also when it is of dtype
    object, and so does every selection of its rows. *)
Lemma take_returns_cells c idx :
  exists rets, cells (pd.take idx (returns_column c)) = Number <$> rets.
Proof.
  destruct c as [xs|ss]; cbn [returns_column].
  - rewrite take_float. now eexists.
  - destruct (pd.has_string ss) eqn:E.
    + rewrite take_float. now eexists.
    + rewrite take_object. cbn [cells].
      exists ((fun _ => PrimFloat.nan) <$> idx).
      rewrite <- !list_fmap_compose. apply list_fmap_ext. intros _ i _.
      cbn [compose]. destruct (ss !! i) as [[s|]|] eqn:Hi; [|reflexivity|reflexivity].
      exfalso. apply (proj1 (has_string_false ss) E s).
      eapply list_elem_of_lookup_2, Hi.
Qed.

(** [pd.cut] on a column that holds numbers only. *)
Lemma cut_numbers c rets :
  cells c = Number <$> rets ->
  pd.cut c color_ranges color_labels = inr (Object (classify <$> rets)).
Proof.
  destruct c as [xs|ss]; cbn [cells].
  - intros H. rewrite cut_float. do 2 f_equal.
    revert rets H. induction xs as [|x xs IH]; intros [|r rets]; try discriminate.
    + reflexivity.
    + rewrite !fmap_cons. intros [= -> H]. now rewrite (IH rets H).
  - intros H.
    change (pd.cut (Object ss) color_ranges color_labels)
      with (Object <$>
              traverse (fun o : option string =>
                          match o with
                          | Some _ => raise TypeError
                          | None => mret None
                          end) ss).
    assert (Ht : traverse (fun o : option string =>
                             match o with
                             | Some _ => @raise (option string) TypeError
                             | None => mret None
                             end) ss
                 = inr (classify <$> rets)).
    { revert rets H. induction ss as [|o ss IH]; intros [|r rets]; try discriminate.
      - reflexivity.
      - rewrite !fmap_cons. destruct o as [s|]; [discriminate|].
        intros [= <- H]. cbn [traverse]. rewrite bind_mret, (IH rets H), bind_inr.
        reflexivity. }
    now rewrite Ht.
Qed.

(** The merged frame of lines 26-52, column by column. *)
Lemma merged_frame_inr (tables : list DataFrame) (m : DataFrame) :
  merged_frame tables = inr m ->
  exists st rt kod_l sektor piyasa kod_r getiri idx,
    tables !! 2 = Some st /\ tables !! 6 = Some rt /\
    st !! "Kod" = Some kod_l /\ st !! "Sektör" = Some sektor /\
    st !! "Piyasa Değeri (mn $)" = Some piyasa /\
    rt !! "Kod" = Some kod_r /\ rt !! "Günlük Getiri (%)" = Some getiri /\
    pd.join_keys kod_l kod_r = inr idx /\
    m = (pd.take (idx.*1) <$>
           {[ "Hisse" := kod_l; "Sektör" := sektor; "Piyasa Değeri (mn $)" := piyasa ]})
        ∪ (pd.take (idx.*2) <$>
             delete "Hisse" {[ "Hisse" := kod_r; "Getiri (%)" := returns_column getiri ]}).
Proof.
  unfold merged_frame.
  intros (st & Hst & H)%bind_inr_inv.
  apply bind_inr_inv in H as (sdf & Hsdf & H).
  apply bind_inr_inv in H as (rt & Hrt & H).
  apply bind_inr_inv in H as (rdf & Hrdf & H).
  unfold index in Hst, Hrt.
  destruct (tables !! 2) as [st'|] eqn:H2; [injection Hst as ->|discriminate].
  destruct (tables !! 6) as [rt'|] eqn:H6; [injection Hrt as ->|discriminate].
  apply sector_frame_inr in Hsdf as (kod_l & sektor & piyasa & Hk & Hs & Hp & ->).
  apply build_return_inr in Hrdf as (kod_r & getiri & Hkr & Hg & ->).
  unfold pd.merge in H.
  rewrite (getitem_Some _ "Hisse" kod_l (lookup_insert_eq _ _ _)), bind_inr in H.
  rewrite (getitem_Some _ "Hisse" kod_r (lookup_insert_eq _ _ _)), bind_inr in H.
  apply bind_inr_inv in H as (idx & Hidx & [= <-]).
  exists st, rt, kod_l, sektor, piyasa, kod_r, getiri, idx. auto 10.
Qed.

(** The columns of a merged frame. *)
Lemma merged_columns (kod_l sektor piyasa kod_r getiri : column) (idx : list (nat * nat)) :
  let m : DataFrame :=
    (pd.take (idx.*1) <$>
       {[ "Hisse" := kod_l; "Sektör" := sektor; "Piyasa Değeri (mn $)" := piyasa ]})
    ∪ (pd.take (idx.*2) <$>
         delete "Hisse" {[ "Hisse" := kod_r; "Getiri (%)" := getiri ]}) in
  m !! "Hisse" = Some (pd.take (idx.*1) kod_l) /\
  m !! "Sektör" = Some (pd.take (idx.*1) sektor) /\
  m !! "Piyasa Değeri (mn $)" = Some (pd.take (idx.*1) piyasa) /\
  m !! "Getiri (%)" = Some (pd.take (idx.*2) getiri) /\
  (forall name,
     name <> "Hisse" -> name <> "Sektör" -> name <> "Piyasa Değeri (mn $)" ->
     name <> "Getiri (%)" -> m !! name = None).
Proof.
  intros m. unfold m. split; [|split; [|split; [|split]]].
  - apply (merged_left_column _ _ _ _ "Hisse" "Hisse" kod_l), lookup_insert_eq.
  - apply (merged_left_column _ _ _ _ "Hisse" "Sektör" sektor).
    now rewrite lookup_insert_ne, lookup_insert_eq.
  - apply (merged_left_column _ _ _ _ "Hisse" "Piyasa Değeri (mn $)" piyasa).
    now rewrite !lookup_insert_ne, lookup_singleton_eq.
  - apply (merged_right_column _ _ _ _ "Hisse" "Getiri (%)" getiri); [done| |].
    + now rewrite !lookup_insert_ne, lookup_singleton_ne.
    + now rewrite lookup_insert_ne, lookup_singleton_eq.
  - intros name H1 H2 H3 H4. apply lookup_union_None. split.
    + rewrite lookup_fmap, !lookup_insert_ne, lookup_singleton_ne by done. reflexivity.
    + rewrite lookup_fmap, lookup_delete_ne, lookup_insert_ne, lookup_singleton_ne by done.
      reflexivity.
Qed.

(** Lines 26-52 on a page whose two tables have their columns. *)
Lemma merged_frame_eq (tables : list DataFrame) (st rt : DataFrame)
    (kod_l sektor piyasa kod_r getiri : column) :
  tables !! 2 = Some st -> tables !! 6 = Some rt ->
  st !! "Kod" = Some kod_l -> st !! "Sektör" = Some sektor ->
  st !! "Piyasa Değeri (mn $)" = Some piyasa ->
  rt !! "Kod" = Some kod_r -> rt !! "Günlük Getiri (%)" = Some getiri ->
  merged_frame tables
  = (idx ← pd.join_keys kod_l kod_r;
     mret ((pd.take (idx.*1) <$>
              {[ "Hisse" := kod_l; "Sektör" := sektor; "Piyasa Değeri (mn $)" := piyasa ]})
           ∪ (pd.take (idx.*2) <$>
                delete "Hisse"
                  {[ "Hisse" := kod_r; "Getiri (%)" := returns_column getiri ]}))).
Proof.
  intros H2 H6 Hk Hs Hp Hkr Hg. unfold merged_frame.
  rewrite (index_Some _ _ _ H2), bind_inr.
  unfold sector_frame.
  rewrite (getitem_Some _ _ _ Hk), bind_inr, (getitem_Some _ _ _ Hs), bind_inr,
    (getitem_Some _ _ _ Hp), bind_inr, bind_mret.
  rewrite (index_Some _ _ _ H6), bind_inr.
  rewrite (build_return_column rt kod_r Hkr getiri Hg), bind_inr. unfold pd.merge.
  rewrite (getitem_Some _ "Hisse" kod_l (lookup_insert_eq _ _ _)), bind_inr.
  rewrite (getitem_Some _ "Hisse" kod_r (lookup_insert_eq _ _ _)), bind_inr.
  reflexivity.
Qed.

(** Lines 53-57 on a merged frame whose market values are strings and
    whose returns are numbers. *)
Lemma normalise_merged (kod_l sektor kod_r getiri : column) strs rets
    (idx : list (nat * nat)) :
  cells (pd.take (idx.*2) getiri) = Number <$> rets ->
  let m : DataFrame :=
    (pd.take (idx.*1) <$>
       {[ "Hisse" := kod_l; "Sektör" := sektor; "Piyasa Değeri (mn $)" := Object strs ]})
    ∪ (pd.take (idx.*2) <$>
         delete "Hisse" {[ "Hisse" := kod_r; "Getiri (%)" := getiri ]}) in
  normalise_and_classify m
  = (nums ← traverse market_value_cell ((fun i => default None (strs !! i)) <$> idx.*1);
     mret (<["Renk" := Object (classify <$> rets)]>
             (<["Piyasa Değeri (mn $)" := Float64 nums]> m))).
Proof.
  intros Hrets m.
  destruct (merged_columns kod_l sektor (Object strs) kod_r getiri idx)
    as (_ & _ & Hp & Hg & _).
  fold m in Hp, Hg.
  rewrite (normalise_and_classify_object m _ Hp).
  destruct (traverse market_value_cell _) as [e|nums]; [reflexivity|].
  rewrite !bind_inr. cbv zeta.
  rewrite (getitem_Some _ "Getiri (%)" (pd.take (idx.*2) getiri)), bind_inr
    by now rewrite lookup_insert_ne.
  now rewrite (cut_numbers _ _ Hrets), bind_inr.
Qed.

Lemma traverse_total {A B} (f : A -> result B) l :
  (forall a, a ∈ l -> exists b, f a = inr b) -> exists bs, traverse f l = inr bs.
Proof.
  induction l as [|a l IH]; intros H; [now exists []|].
  destruct (H a) as [b Hb]; [left|].
  destruct IH as [bs Hbs]; [intros a' Ha'; apply H; now right|].
  exists (b :: bs). simpl. now rewrite Hb, bind_inr, Hbs.
Qed.

Lemma traverse_inl {A B} (f : A -> result B) l e :
  traverse f l = inl e -> exists a, a ∈ l /\ f a = inl e.
Proof.
  induction l as [|a l IH]; cbn [traverse]; [discriminate|].
  destruct (f a) as [e'|b] eqn:E.
  - intros [= <-]. exists a. split; [left|exact E].
  - rewrite bind_inr. destruct (traverse f l) as [e'|bs]; [|discriminate].
    intros [= <-]. destruct (IH eq_refl) as (a' & Ha & Hf).
    exists a'. split; [now right|exact Hf].
Qed.

Lemma market_value_cell_inr o :
  (exists x, market_value_cell o = inr x) <->
  (forall s, o = Some s -> is_Some (parse_market_value s)).
Proof.
  destruct o as [s|]; simpl.
  - destruct (parse_market_value s) as [x|] eqn:E.
    + split; [intros _ s' [= <-]; now rewrite E|now exists x].
    + split; [now intros [x [=]]|].
      intros H. destruct (H s eq_refl) as [x Hx]. rewrite E in Hx. discriminate.
  - split; [discriminate|now exists PrimFloat.nan].
Qed.

(** Line 53 on a column of numbers: no [.str]. *)
Lemma normalise_and_classify_numeric (df : DataFrame) xs :
  df !! "Piyasa Değeri (mn $)" = Some (Float64 xs) ->
  normalise_and_classify df = inl AttributeError.
Proof.
  intros Hp. unfold normalise_and_classify.
  now rewrite (getitem_Some _ _ _ Hp), bind_inr.
Qed.

(** The frame a successful run returns, in closed form. *)
Lemma process_shape (tables : list DataFrame) (df : DataFrame) :
  process (inr tables) = inr df ->
  exists st rt kod_l sektor strs kod_r getiri idx nums rets,
    tables !! 2 = Some st /\ tables !! 6 = Some rt /\
    st !! "Kod" = Some kod_l /\ st !! "Sektör" = Some sektor /\
    st !! "Piyasa Değeri (mn $)" = Some (Object strs) /\
    rt !! "Kod" = Some kod_r /\ rt !! "Günlük Getiri (%)" = Some getiri /\
    pd.join_keys kod_l kod_r = inr idx /\
    traverse market_value_cell ((fun i => default None (strs !! i)) <$> idx.*1) = inr nums /\
    cells (pd.take (idx.*2) (returns_column getiri)) = Number <$> rets /\
    df = <["Renk" := Object (classify <$> rets)]>
           (<["Piyasa Değeri (mn $)" := Float64 nums]>
              ((pd.take (idx.*1) <$>
                  {[ "Hisse" := kod_l; "Sektör" := sektor;
                     "Piyasa Değeri (mn $)" := Object strs ]})
               ∪ (pd.take (idx.*2) <$>
                    delete "Hisse"
                      {[ "Hisse" := kod_r; "Getiri (%)" := returns_column getiri ]}))).
Proof.
  unfold process. rewrite bind_inr.
  intros (m & Hm & Hn)%bind_inr_inv.
  apply merged_frame_inr in Hm
    as (st & rt & kod_l & sektor & piyasa & kod_r & getiri & idx
        & H2 & H6 & Hk & Hs & Hp & Hkr & Hg & Hj & ->).
  destruct piyasa as [xs|strs].
  - destruct (merged_columns kod_l sektor (Float64 xs) kod_r (returns_column getiri) idx)
      as (_ & _ & Hp' & _).
    cbv zeta in Hp'.
    rewrite (normalise_and_classify_numeric _ _ Hp') in Hn. discriminate Hn.
  - destruct (take_returns_cells getiri (idx.*2)) as [rets Hrets].
    rewrite (normalise_merged kod_l sektor kod_r _ strs rets idx Hrets) in Hn.
    apply bind_inr_inv in Hn as (nums & Hnums & [= <-]).
    exists st, rt, kod_l, sektor, strs, kod_r, getiri, idx, nums, rets. auto 12.
Qed.

Lemma fmap_Number_length (rets : list float) c :
  cells c = Number <$> rets -> length rets = pd.nrows c.
Proof. intros H. now rewrite <- cells_length, H, length_fmap. Qed.

(** Every column of the frame returned has one row per joined pair. *)
Lemma final_rows (kod_l sektor kod_r getiri : column) strs (idx : list (nat * nat))
    nums (rets : list float) name c :
  length nums = length idx -> length rets = length idx ->
  (<["Renk" := Object (classify <$> rets)]>
     (<["Piyasa Değeri (mn $)" := Float64 nums]>
        ((pd.take (idx.*1) <$>
            {[ "Hisse" := kod_l; "Sektör" := sektor;
               "Piyasa Değeri (mn $)" := Object strs ]})
         ∪ (pd.take (idx.*2) <$>
              delete "Hisse" {[ "Hisse" := kod_r; "Getiri (%)" := getiri ]}))
     : DataFrame)) !! name = Some c ->
  pd.nrows c = length idx.
Proof.
  intros Hlen Hlen' Hc.
  apply lookup_insert_Some in Hc as [[_ <-]|[_ Hc]].
  { cbn [pd.nrows]. now rewrite length_fmap. }
  apply lookup_insert_Some in Hc as [[_ <-]|[_ Hc]]; [exact Hlen|].
  eapply merged_column_rows, Hc.
Qed.

(** The tickers of the sector table that a join on strings keeps. *)
Lemma joined_left (lk rk : list (option string)) i :
  i ∈ (pd.inner_join pd.same_key 0 lk rk).*1 <->
  exists k, lk !! i = Some k /\ k ∈ rk.
Proof.
  split.
  - intros ([i' j] & Heq & Hin)%list_elem_of_fmap. cbn [fst] in Heq. subst i'.
    apply inner_join_elem in Hin as (d & k & Hd & Hl & Hr).
    cbn [Nat.add] in Hd. subst d. exists k. split; [exact Hl|].
    eapply list_elem_of_lookup_2, Hr.
  - intros (k & Hl & [j Hj]%list_elem_of_lookup_1).
    apply (list_elem_of_fmap_2' _ _ (i, j)); [|reflexivity].
    apply inner_join_elem. now exists i, k.
Qed.

(** X9: when a run returns a frame.  For a page whose two tables have a
    "Kod" column of strings, [fetch_and_process_data] returns a frame
    exactly when the sector table has the columns "Sektör" and "Piyasa
    Değeri (mn $)", the latter holding strings, the return table has the
    column "Günlük Getiri (%)", and [float] reads the market value, once
    the dots are removed and the comma is a point, in every sector row
    whose ticker is in the return table.  Nothing is asked of the other
    rows, nor of the returns. *)
Theorem X9_success_conditions (tables : list DataFrame) (st rt : DataFrame)
    (lk rk : list (option string)) :
  tables !! 2 = Some st -> tables !! 6 = Some rt ->
  st !! "Kod" = Some (Object lk) -> rt !! "Kod" = Some (Object rk) ->
  (is_Some (returned (fetch_and_process_data (inr tables))) <->
   exists sektor strs getiri,
     st !! "Sektör" = Some sektor /\
     st !! "Piyasa Değeri (mn $)" = Some (Object strs) /\
     rt !! "Günlük Getiri (%)" = Some getiri /\
     (forall i k s, lk !! i = Some k -> k ∈ rk -> strs !! i = Some (Some s) ->
                    is_Some (parse_market_value s))).
Proof.
  intros H2 H6 Hk Hkr. split.
  - unfold fetch_and_process_data.
    destruct (process (inr tables)) as [e|df] eqn:Hp; [intros [df [=]]|]. intros _.
    apply process_shape in Hp
      as (st' & rt' & kod_l & sektor & strs & kod_r & getiri & idx & nums & rets
          & H2' & H6' & Hk' & Hs & Hp & Hkr' & Hg & Hj & Hnums & _ & _).
    rewrite H2 in H2'. injection H2' as <-. rewrite H6 in H6'. injection H6' as <-.
    rewrite Hk in Hk'. injection Hk' as <-. rewrite Hkr in Hkr'. injection Hkr' as <-.
    injection Hj as <-.
    exists sektor, strs, getiri. repeat (split; [assumption|]).
    intros i k s Hi Hin Hs'.
    assert (Hcell : Some s ∈ (fun i => default None (strs !! i))
                               <$> (pd.inner_join pd.same_key 0 lk rk).*1).
    { apply (list_elem_of_fmap_2' _ _ i); [|now rewrite Hs'].
      apply joined_left. now exists k. }
    apply list_elem_of_lookup_1 in Hcell as [p Hp0].
    apply traverse_inr in Hnums.
    destruct (Forall2_lookup_l _ _ _ _ _ Hnums Hp0) as (x & _ & Hx).
    apply (proj1 (market_value_cell_inr (Some s))); [now exists x|reflexivity].
  - intros (sektor & strs & getiri & Hs & Hp & Hg & Hparse).
    unfold fetch_and_process_data, process. rewrite bind_inr.
    rewrite (merged_frame_eq tables st rt (Object lk) sektor (Object strs) (Object rk) getiri)
      by assumption.
    cbn [pd.join_keys]. rewrite !bind_mret.
    set (idx := pd.inner_join pd.same_key 0 lk rk).
    destruct (take_returns_cells getiri (idx.*2)) as [rets Hrets].
    rewrite (normalise_merged (Object lk) sektor (Object rk) _ strs rets idx Hrets).
    destruct (traverse_total market_value_cell
                ((fun i => default None (strs !! i)) <$> idx.*1)) as [nums ->].
    + intros o (i & -> & Hi)%list_elem_of_fmap.
      apply joined_left in Hi as (k & Hl & Hin).
      apply market_value_cell_inr. intros s Hs'.
      destruct (strs !! i) as [o|] eqn:E; [|discriminate Hs'].
      simpl in Hs'. subst o. now apply (Hparse i k s).
    + rewrite bind_inr. simpl. now eexists.
Qed.

Lemma X9_success_conditions_witness :
  is_Some (returned (fetch_and_process_data
    (inr (page_of
            (sector_rows [Some "AAA"; Some "BBB"] [Some "Tech"; Some "Bank"]
               [Some "1.500,00"; Some "-"])
            (return_rows [Some "AAA"; Some "CCC"] (Float64 [250; 100]%float)))))).
Proof.
  apply (proj2 (X9_success_conditions
                  (page_of
                     (sector_rows [Some "AAA"; Some "BBB"] [Some "Tech"; Some "Bank"]
                        [Some "1.500,00"; Some "-"])
                     (return_rows [Some "AAA"; Some "CCC"] (Float64 [250; 100]%float)))
                  (sector_rows [Some "AAA"; Some "BBB"] [Some "Tech"; Some "Bank"]
                     [Some "1.500,00"; Some "-"])
                  (return_rows [Some "AAA"; Some "CCC"] (Float64 [250; 100]%float))
                  [Some "AAA"; Some "BBB"] [Some "AAA"; Some "CCC"]
                  eq_refl eq_refl eq_refl eq_refl)).
  exists (Object [Some "Tech"; Some "Bank"]), [Some "1.500,00"; Some "-"],
    (Float64 [250; 100]%float).
  repeat (split; [reflexivity|]).
  intros [|[|i]] k s Hi Hin Hs; simpl in Hi, Hs.
  - injection Hs as <-. vm_compute. now eexists.
  - exfalso. injection Hi as <-.
    apply elem_of_cons in Hin as [Hin|Hin]; [discriminate Hin|].
    apply elem_of_cons in Hin as [Hin|Hin]; [discriminate Hin|].
    now apply elem_of_nil in Hin.
  - discriminate Hi.
Defined.

(** X10: the frame a run returns has the five columns "Hisse", "Sektör",
    "Piyasa Değeri (mn $)", "Getiri (%)" and "Renk" and no other; the
    market value is float64; the return column holds numbers only (it is
    float64, or of dtype object with NaN in every row); all five have as
    many rows; the "Renk" column holds, row by row, the label of the
    return of the same row (NaN when the return has none); and nothing
    was logged. *)
Theorem X10_returned_frame_schema (tables : list DataFrame) (df : DataFrame) :
  returned (fetch_and_process_data (inr tables)) = Some df ->
  exists hisse sektor caps getiri rets,
    df !! "Hisse" = Some hisse /\ df !! "Sektör" = Some sektor /\
    df !! "Piyasa Değeri (mn $)" = Some (Float64 caps) /\
    df !! "Getiri (%)" = Some getiri /\ cells getiri = Number <$> rets /\
    df !! "Renk" = Some (Object (classify <$> rets)) /\
    (forall name, is_Some (df !! name) ->
       name ∈ ["Hisse"; "Sektör"; "Piyasa Değeri (mn $)"; "Getiri (%)"; "Renk"]) /\
    pd.nrows hisse = length rets /\ pd.nrows sektor = length rets /\
    length caps = length rets /\ pd.nrows getiri = length rets /\
    logged (fetch_and_process_data (inr tables)) = [].
Proof.
  unfold fetch_and_process_data. intros Hr%returned_Some. rewrite Hr.
  apply process_shape in Hr
    as (st & rt & kod_l & sektor & strs & kod_r & getiri & idx & nums & rets
        & _ & _ & _ & _ & _ & _ & _ & _ & Hnums & Hrets & ->).
  destruct (merged_columns kod_l sektor (Object strs) kod_r (returns_column getiri) idx)
    as (Hh & Hs & _ & Hg & Hnone).
  cbv zeta in Hh, Hs, Hg, Hnone.
  exists (pd.take (idx.*1) kod_l), (pd.take (idx.*1) sektor), nums,
    (pd.take (idx.*2) (returns_column getiri)), rets.
  split; [now rewrite !lookup_insert_ne by done|].
  split; [now rewrite !lookup_insert_ne by done|].
  split; [now rewrite lookup_insert_ne, lookup_insert_eq by done|].
  split; [now rewrite !lookup_insert_ne by done|].
  split; [exact Hrets|].
  split; [now rewrite lookup_insert_eq|].
  split.
  { intros name [c Hc].
    destruct (decide (name = "Renk")) as [->|N1]; [among|].
    destruct (decide (name = "Piyasa Değeri (mn $)")) as [->|N2]; [among|].
    destruct (decide (name = "Hisse")) as [->|N3]; [among|].
    destruct (decide (name = "Sektör")) as [->|N4]; [among|].
    destruct (decide (name = "Getiri (%)")) as [->|N5]; [among|].
    rewrite !lookup_insert_ne, Hnone in Hc by done. discriminate Hc. }
  pose proof (fmap_Number_length _ _ Hrets) as Hlen.
  rewrite nrows_take, length_fmap in Hlen.
  rewrite !nrows_take, !length_fmap, Hlen.
  split; [reflexivity|]. split; [reflexivity|]. split; [|split; reflexivity].
  apply traverse_inr, Forall2_length in Hnums.
  now rewrite !length_fmap in Hnums.
Qed.

Lemma X10_returned_frame_schema_witness :
  exists df hisse sektor caps getiri rets,
    returned (fetch_and_process_data
      (inr (page_of
              (sector_rows [Some "AAA"; Some "BBB"] [Some "Tech"; Some "Bank"]
                 [Some "1.500,00"; Some "2.000,00"])
              (return_rows [Some "BBB"; Some "AAA"] (Float64 [250; -1200]%float)))))
    = Some df /\
    df !! "Hisse" = Some hisse /\ df !! "Sektör" = Some sektor /\
    df !! "Piyasa Değeri (mn $)" = Some (Float64 caps) /\
    df !! "Getiri (%)" = Some getiri /\ cells getiri = Number <$> rets /\
    df !! "Renk" = Some (Object (classify <$> rets)).
Proof.
  set (tables := page_of _ _).
  destruct (returned (fetch_and_process_data (inr tables))) as [df|] eqn:E;
    [|vm_compute in E; discriminate E].
  destruct (X10_returned_frame_schema tables df E)
    as (hisse & sektor & caps & getiri & rets & H1 & H2 & H3 & H4 & H5 & H6 & _).
  exists df, hisse, sektor, caps, getiri, rets. auto 8.
Defined.

(** X11: a market value column that holds numbers, not strings, ends the
    run: when the two tables have their columns and the tickers can be
    joined but "Piyasa Değeri (mn $)" is a numeric column, line 53 has no
    [.str] to call; [AttributeError] is logged, [None] is returned and no
    chart is drawn, whatever the rows are. *)
Theorem X11_numeric_market_value (tables : list DataFrame) (st rt : DataFrame)
    (kod_l sektor kod_r getiri : column) (xs : list float) (idx : list (nat * nat)) :
  tables !! 2 = Some st -> tables !! 6 = Some rt ->
  st !! "Kod" = Some kod_l -> st !! "Sektör" = Some sektor ->
  st !! "Piyasa Değeri (mn $)" = Some (Float64 xs) ->
  rt !! "Kod" = Some kod_r -> rt !! "Günlük Getiri (%)" = Some getiri ->
  pd.join_keys kod_l kod_r = inr idx ->
  fetch_and_process_data (inr tables) = Outcome None [AttributeError] /\
  (forall treemap, main treemap (inr tables) = None).
Proof.
  intros H2 H6 Hk Hs Hp Hkr Hg Hj.
  assert (H : process (inr tables) = inl AttributeError).
  { unfold process. rewrite bind_inr.
    rewrite (merged_frame_eq tables st rt kod_l sektor (Float64 xs) kod_r getiri)
      by assumption.
    rewrite Hj, !bind_inr, bind_mret.
    destruct (merged_columns kod_l sektor (Float64 xs) kod_r (returns_column getiri) idx)
      as (_ & _ & Hp' & _).
    cbv zeta in Hp'.
    exact (normalise_and_classify_numeric _ _ Hp'). }
  split; [exact (fetch_raises _ _ H)|].
  intros treemap. apply main_nothing. now rewrite (fetch_raises _ _ H).
Qed.

Lemma X11_numeric_market_value_witness :
  fetch_and_process_data
    (inr (page_of
            {[ "Kod" := Object [Some "AAA"; Some "BBB"];
               "Sektör" := Object [Some "Tech"; Some "Bank"];
               "Piyasa Değeri (mn $)" := Float64 [1500; 2000]%float ]}
            (return_rows [Some "AAA"; Some "BBB"] (Float64 [250; 100]%float))))
  = Outcome None [AttributeError].
Proof.
  refine (proj1 (X11_numeric_market_value _ _ _
                   (Object [Some "AAA"; Some "BBB"]) (Object [Some "Tech"; Some "Bank"])
                   (Object [Some "AAA"; Some "BBB"]) (Float64 [250; 100]%float)
                   [1500; 2000]%float [(0, 0); (1, 1)] _ _ _ _ _ _ _ _));
    reflexivity.
Defined.

Lemma build_return_raises rt e : build_return rt = inl e -> e = KeyError.
Proof.
  destruct (rt !! "Kod") as [kod|] eqn:Hk.
  - destruct (rt !! "Günlük Getiri (%)") as [c|] eqn:Hg.
    + rewrite (build_return_column rt kod Hk c Hg). discriminate.
    + unfold build_return. rewrite return_frame_missing by auto. now intros [= <-].
  - unfold build_return. rewrite return_frame_missing by auto. now intros [= <-].
Qed.

Lemma join_keys_raises lk rk e : pd.join_keys lk rk = inl e -> e = ValueError.
Proof.
  destruct lk as [f|o], rk as [f'|o']; cbn [pd.join_keys]; unfold pd.join_mixed;
    repeat match goal with
      | |- context [if ?b then _ else _] => destruct b
      end;
    first [discriminate | now intros [= <-]].
Qed.

Lemma merged_frame_raises tables e :
  merged_frame tables = inl e -> e ∈ [IndexError; KeyError; ValueError].
Proof.
  unfold merged_frame.
  destruct (tables !! 2) as [st|] eqn:H2;
    [rewrite (index_Some _ _ _ H2), bind_inr
    |rewrite (index_None _ _ H2); intros [= <-]; among].
  destruct (sector_frame st) as [e'|sdf] eqn:Hs.
  { intros [= <-]. rewrite (sector_frame_raises _ _ Hs). among. }
  rewrite bind_inr.
  destruct (tables !! 6) as [rt|] eqn:H6;
    [rewrite (index_Some _ _ _ H6), bind_inr
    |rewrite (index_None _ _ H6); intros [= <-]; among].
  destruct (build_return rt) as [e'|rdf] eqn:Hb.
  { intros [= <-]. rewrite (build_return_raises _ _ Hb). among. }
  rewrite bind_inr.
  apply sector_frame_inr in Hs as (kod_l & sektor & piyasa & _ & _ & _ & ->).
  apply build_return_inr in Hb as (kod_r & getiri & _ & _ & ->).
  unfold pd.merge.
  rewrite (getitem_Some _ "Hisse" kod_l (lookup_insert_eq _ _ _)), bind_inr.
  rewrite (getitem_Some _ "Hisse" kod_r (lookup_insert_eq _ _ _)), bind_inr.
  destruct (pd.join_keys kod_l kod_r) as [e'|idx] eqn:Hj; [|discriminate].
  intros [= <-]. rewrite (join_keys_raises _ _ _ Hj). among.
Qed.

Lemma process_raises tables e :
  process (inr tables) = inl e ->
  e ∈ [IndexError; KeyError; ValueError; AttributeError].
Proof.
  unfold process. rewrite bind_inr.
  destruct (merged_frame tables) as [e'|m] eqn:Hm.
  - intros [= <-]. apply merged_frame_raises in Hm.
    repeat (apply elem_of_cons in Hm as [->|Hm]; [among|]).
    now apply elem_of_nil in Hm.
  - rewrite bind_inr.
    apply merged_frame_inr in Hm
      as (st & rt & kod_l & sektor & piyasa & kod_r & getiri & idx
          & _ & _ & _ & _ & _ & _ & _ & _ & ->).
    destruct piyasa as [xs|strs].
    + destruct (merged_columns kod_l sektor (Float64 xs) kod_r (returns_column getiri) idx)
        as (_ & _ & Hp' & _).
      cbv zeta in Hp'.
      rewrite (normalise_and_classify_numeric _ _ Hp').
      intros [= <-]. among.
    + destruct (take_returns_cells getiri (idx.*2)) as [rets Hrets].
      rewrite (normalise_merged kod_l sektor kod_r _ strs rets idx Hrets).
      destruct (traverse market_value_cell _) as [e'|nums] eqn:Ht; [|discriminate].
      intros [= <-].
      apply traverse_inl in Ht as (o & _ & Ho).
      rewrite (market_value_cell_raises o e' Ho). among.
Qed.

(** X12: what a run can log.  Whatever tables the page holds, the
    exception logged by [fetch_and_process_data], if any, is an
    [IndexError], a [KeyError], a [ValueError] or an [AttributeError]; a
    [TypeError] is never logged. *)
Theorem X12_failure_kinds (tables : list DataFrame) :
  (forall e, e ∈ logged (fetch_and_process_data (inr tables)) ->
             e ∈ [IndexError; KeyError; ValueError; AttributeError]) /\
  TypeError ∉ logged (fetch_and_process_data (inr tables)).
Proof.
  assert (H : forall e, e ∈ logged (fetch_and_process_data (inr tables)) ->
                        e ∈ [IndexError; KeyError; ValueError; AttributeError]).
  { intros e. unfold fetch_and_process_data.
    destruct (process (inr tables)) as [e'|df] eqn:Hp; simpl.
    - intros ->%list_elem_of_singleton. exact (process_raises tables e' Hp).
    - intros He. now apply elem_of_nil in He. }
  split; [exact H|].
  intros He%H.
  repeat (apply elem_of_cons in He as [He|He]; [discriminate He|]).
  now apply elem_of_nil in He.
Qed.

Lemma X12_failure_kinds_witness :
  logged (fetch_and_process_data
            (inr (page_of
                    (sector_rows [Some "AAA"; Some "BBB"] [Some "Tech"; Some "Bank"]
                       [Some "1.500,00"; Some "-"])
                    (return_rows [Some "AAA"; Some "BBB"] (Float64 [250; 100]%float)))))
  = [ValueError] /\
  ValueError ∈ [IndexError; KeyError; ValueError; AttributeError].
Proof.
  split; [vm_compute; reflexivity|].
  apply (proj1 (X12_failure_kinds
           (page_of
              (sector_rows [Some "AAA"; Some "BBB"] [Some "Tech"; Some "Bank"]
                 [Some "1.500,00"; Some "-"])
              (return_rows [Some "AAA"; Some "BBB"] (Float64 [250; 100]%float))))).
  vm_compute. left.
Defined.

Lemma cell_at_Some (df : DataFrame) name c p :
  df !! name = Some c -> cell_at df name p = cells c !! p.
Proof. unfold cell_at. now intros ->. Qed.

(** A row taken at a position in range is the row at that position. *)
Lemma cells_take idx c p i :
  idx !! p = Some i -> i < pd.nrows c -> cells (pd.take idx c) !! p = cells c !! i.
Proof.
  intros Hp Hi. destruct c as [xs|xs]; cbn [pd.nrows] in Hi;
    apply lookup_lt_is_Some_2 in Hi as [x Hx].
  - rewrite take_float. cbn [cells]. rewrite !list_lookup_fmap, Hp. simpl. now rewrite Hx.
  - rewrite take_object. cbn [cells]. rewrite !list_lookup_fmap, Hp. simpl. now rewrite Hx.
Qed.

(** X13: no row of the frame returned mixes two stocks.  With tickers
    that are strings, a numeric return column and tables whose columns
    have one cell per row, the rows of the frame returned are the pairs
    made of a row [i] of the sector table and a row [j] of the return
    table with the same ticker, each such pair being a row once and only
    once; and row [p], made of the pair [(i, j)], holds the ticker and the
    sector of row [i], the market value parsed from the cell of row [i],
    the return of row [j] divided by 100, and the label of that
    quotient. *)
Theorem X13_row_provenance (tables : list DataFrame) (st rt : DataFrame)
    (lk rk strs : list (option string)) (sektor : column) (xs : list float)
    (df : DataFrame) :
  tables !! 2 = Some st -> tables !! 6 = Some rt ->
  st !! "Kod" = Some (Object lk) -> st !! "Sektör" = Some sektor ->
  st !! "Piyasa Değeri (mn $)" = Some (Object strs) ->
  rt !! "Kod" = Some (Object rk) -> rt !! "Günlük Getiri (%)" = Some (Float64 xs) ->
  pd.nrows sektor = length lk -> length strs = length lk ->
  length xs = length rk ->
  returned (fetch_and_process_data (inr tables)) = Some df ->
  exists idx : list (nat * nat),
    NoDup idx /\
    (forall i j, (i, j) ∈ idx <-> exists k, lk !! i = Some k /\ rk !! j = Some k) /\
    (forall name c, df !! name = Some c -> pd.nrows c = length idx) /\
    (forall p i j, idx !! p = Some (i, j) ->
       cell_at df "Hisse" p = cell_at st "Kod" i /\
       cell_at df "Hisse" p = cell_at rt "Kod" j /\
       cell_at df "Sektör" p = cell_at st "Sektör" i /\
       (exists o x, strs !! i = Some o /\ market_value_cell o = inr x /\
                    cell_at df "Piyasa Değeri (mn $)" p = Some (Number x)) /\
       (exists x, xs !! j = Some x /\
                  cell_at df "Getiri (%)" p = Some (Number (F.div x 100)) /\
                  cell_at df "Renk" p
                  = Some (match classify (F.div x 100) with
                          | Some l => Text l
                          | None => Number PrimFloat.nan
                          end))).
Proof.
  intros H2 H6 Hk Hs Hp Hkr Hg Hn1 Hn2 Hn3 Hr.
  unfold fetch_and_process_data in Hr.
  apply returned_Some, process_shape in Hr
    as (st' & rt' & kod_l & sektor' & strs' & kod_r & getiri' & idx & nums & rets
        & H2' & H6' & Hk' & Hs' & Hp' & Hkr' & Hg' & Hj & Hnums & Hrets & ->).
  rewrite H2 in H2'. injection H2' as <-. rewrite H6 in H6'. injection H6' as <-.
  rewrite Hk in Hk'. injection Hk' as <-. rewrite Hs in Hs'. injection Hs' as <-.
  rewrite Hp in Hp'. injection Hp' as <-. rewrite Hkr in Hkr'. injection Hkr' as <-.
  rewrite Hg in Hg'. injection Hg' as <-.
  injection Hj as <-.
  set (idx := pd.inner_join pd.same_key 0 lk rk) in *.
  cbn [returns_column] in *.
  set (qs := (fun x => F.div x 100) <$> xs) in *.
  rewrite take_float in Hrets. cbn [cells] in Hrets.
  assert (Hrets' : rets = (fun i => default PrimFloat.nan (qs !! i)) <$> idx.*2).
  { revert Hrets. generalize ((fun i => default PrimFloat.nan (qs !! i)) <$> idx.*2).
    clear. intros l. revert rets.
    induction l as [|x l IH]; intros [|r rets]; try discriminate; [reflexivity|].
    rewrite !fmap_cons. intros [= -> H]. now rewrite (IH rets H). }
  subst rets. clear Hrets.
  destruct (merged_columns (Object lk) sektor (Object strs) (Object rk) (Float64 qs) idx)
    as (Hh & Hse & _ & Hge & _).
  cbv zeta in Hh, Hse, Hge.
  assert (Hidx : forall i j,
             (i, j) ∈ idx <-> exists k, lk !! i = Some k /\ rk !! j = Some k).
  { intros i j. unfold idx. rewrite inner_join_elem. split.
    - intros (d & k & -> & H1 & H2'). now exists k.
    - intros (k & H1 & H2'). now exists i, k. }
  apply traverse_inr in Hnums.
  assert (Hlen : length nums = length idx).
  { apply Forall2_length in Hnums. now rewrite !length_fmap in Hnums. }
  exists idx. split; [apply inner_join_NoDup|]. split; [exact Hidx|]. split.
  { intros name c Hc. eapply final_rows, Hc; [exact Hlen|]. now rewrite !length_fmap. }
  intros p i j Hpij.
  destruct (proj1 (Hidx i j)) as (k & Hi & Hj); [eapply list_elem_of_lookup_2, Hpij|].
  assert (Hp1 : idx.*1 !! p = Some i) by now rewrite list_lookup_fmap, Hpij.
  assert (Hp2 : idx.*2 !! p = Some j) by now rewrite list_lookup_fmap, Hpij.
  pose proof (lookup_lt_Some _ _ _ Hi) as Hil.
  pose proof (lookup_lt_Some _ _ _ Hj) as Hjl.
  match goal with
  | |- cell_at ?d _ _ = _ /\ _ => set (frame := d)
  end.
  assert (Hhisse : cell_at frame "Hisse" p = cells (Object lk) !! i).
  { rewrite (cell_at_Some frame "Hisse" (pd.take (idx.*1) (Object lk)))
      by (unfold frame; now rewrite !lookup_insert_ne by done).
    now apply cells_take. }
  split; [now rewrite Hhisse, (cell_at_Some _ _ _ _ Hk)|].
  split.
  { rewrite Hhisse, (cell_at_Some _ _ _ _ Hkr). cbn [cells].
    now rewrite !list_lookup_fmap, Hi, Hj. }
  split.
  { rewrite (cell_at_Some frame "Sektör" (pd.take (idx.*1) sektor))
      by (unfold frame; now rewrite !lookup_insert_ne by done).
    rewrite (cell_at_Some _ _ _ _ Hs). apply cells_take; [exact Hp1|lia]. }
  split.
  { destruct (lookup_lt_is_Some_2 strs i) as [o Ho]; [lia|].
    assert (Hcell : ((fun i => default None (strs !! i)) <$> idx.*1) !! p = Some o)
      by (rewrite list_lookup_fmap, Hp1; simpl; now rewrite Ho).
    destruct (Forall2_lookup_l _ _ _ _ _ Hnums Hcell) as (x & Hx & Hmv).
    exists o, x. split; [exact Ho|]. split; [exact Hmv|].
    rewrite (cell_at_Some frame "Piyasa Değeri (mn $)" (Float64 nums))
      by (unfold frame; now rewrite lookup_insert_ne, lookup_insert_eq by done).
    cbn [cells]. now rewrite list_lookup_fmap, Hx. }
  destruct (lookup_lt_is_Some_2 xs j) as [x Hx]; [lia|].
  assert (Hq : qs !! j = Some (F.div x 100))
    by (unfold qs; now rewrite list_lookup_fmap, Hx).
  exists x. split; [exact Hx|]. split.
  - rewrite (cell_at_Some frame "Getiri (%)" (pd.take (idx.*2) (Float64 qs)))
      by (unfold frame; now rewrite !lookup_insert_ne by done).
    rewrite (cells_take _ _ p j Hp2) by (cbn [pd.nrows]; now apply lookup_lt_Some in Hq).
    cbn [cells]. now rewrite list_lookup_fmap, Hq.
  - rewrite (cell_at_Some frame "Renk" _ _ (lookup_insert_eq _ _ _)).
    cbn [cells]. rewrite !list_lookup_fmap, Hpij. simpl. now rewrite Hq.
Qed.

Lemma X13_row_provenance_witness :
  exists df (idx : list (nat * nat)),
    returned (fetch_and_process_data
      (inr (page_of
              (sector_rows [Some "AAA"; Some "BBB"] [Some "Tech"; Some "Bank"]
                 [Some "1.500,00"; Some "2.000,00"])
              (return_rows [Some "BBB"; Some "AAA"] (Float64 [250; -1200]%float)))))
    = Some df /\
    NoDup idx /\
    (forall i j, (i, j) ∈ idx <->
       exists k, [Some "AAA"; Some "BBB"] !! i = Some k /\
                 [Some "BBB"; Some "AAA"] !! j = Some k) /\
    (forall name c, df !! name = Some c -> pd.nrows c = length idx).
Proof.
  set (tables := page_of _ _).
  destruct (returned (fetch_and_process_data (inr tables))) as [df|] eqn:E;
    [|vm_compute in E; discriminate E].
  destruct (X13_row_provenance tables
              (sector_rows [Some "AAA"; Some "BBB"] [Some "Tech"; Some "Bank"]
                 [Some "1.500,00"; Some "2.000,00"])
              (return_rows [Some "BBB"; Some "AAA"] (Float64 [250; -1200]%float))
              [Some "AAA"; Some "BBB"] [Some "BBB"; Some "AAA"]
              [Some "1.500,00"; Some "2.000,00"]
              (Object [Some "Tech"; Some "Bank"]) [250; -1200]%float df)
    as (idx & H0 & H1 & H2 & _); try reflexivity; [exact E|].
  exists df, idx. auto.
Defined.

Lemma take_insert_unused idx (xs : list (option string)) i v :
  i ∉ idx -> pd.take idx (Object (<[i := v]> xs)) = pd.take idx (Object xs).
Proof.
  intros Hi. rewrite !take_object. f_equal.
  induction idx as [|a idx IH]; [reflexivity|].
  rewrite !fmap_cons, IH by (intros H; apply Hi; now right).
  rewrite list_lookup_insert_ne; [reflexivity|].
  intros ->. apply Hi. left.
Qed.

(** X14: the market value of a stock that has no return is never read.
    Replacing, by anything, the market value cell of a sector row whose
    ticker is in no row of the return table changes nothing to what the
    call returns and logs: an unparsable cell there does not end the run,
    since line 53 only sees the rows that survived the merge. *)
Theorem X14_unmatched_row_irrelevant (tables : list DataFrame) (st rt : DataFrame)
    (lk rk strs : list (option string)) (sektor getiri : column)
    (i : nat) (k v : option string) :
  tables !! 2 = Some st -> tables !! 6 = Some rt ->
  st !! "Kod" = Some (Object lk) -> st !! "Sektör" = Some sektor ->
  st !! "Piyasa Değeri (mn $)" = Some (Object strs) ->
  rt !! "Kod" = Some (Object rk) -> rt !! "Günlük Getiri (%)" = Some getiri ->
  lk !! i = Some k -> k ∉ rk ->
  fetch_and_process_data
    (inr (<[2 := <["Piyasa Değeri (mn $)" := Object (<[i := v]> strs)]> st]> tables))
  = fetch_and_process_data (inr tables).
Proof.
  intros H2 H6 Hk Hs Hp Hkr Hg Hi Hnot.
  unfold fetch_and_process_data, process. rewrite !bind_inr.
  rewrite (merged_frame_eq tables st rt (Object lk) sektor (Object strs) (Object rk) getiri)
    by assumption.
  rewrite (merged_frame_eq _ (<["Piyasa Değeri (mn $)" := Object (<[i := v]> strs)]> st) rt
             (Object lk) sektor (Object (<[i := v]> strs)) (Object rk) getiri).
  - cbn [pd.join_keys]. rewrite !bind_mret.
    set (idx := pd.inner_join pd.same_key 0 lk rk).
    assert (Hunused : i ∉ idx.*1).
    { intros (k' & Hl & Hin)%joined_left. rewrite Hi in Hl. injection Hl as <-.
      now apply Hnot. }
    rewrite !fmap_insert, !map_fmap_singleton.
    now rewrite (take_insert_unused _ strs i v Hunused).
  - apply list_lookup_insert_eq. eapply lookup_lt_Some, H2.
  - now rewrite list_lookup_insert_ne by done.
  - now rewrite lookup_insert_ne by done.
  - now rewrite lookup_insert_ne by done.
  - apply lookup_insert_eq.
  - exact Hkr.
  - exact Hg.
Qed.

Lemma X14_unmatched_row_irrelevant_witness :
  fetch_and_process_data
    (inr (<[2 := <["Piyasa Değeri (mn $)" := Object (<[1 := Some "-"]> [Some "1.500,00"; Some "2.000,00"])]>
                   (sector_rows [Some "AAA"; Some "BBB"] [Some "Tech"; Some "Bank"]
                      [Some "1.500,00"; Some "2.000,00"])]>
            (page_of
               (sector_rows [Some "AAA"; Some "BBB"] [Some "Tech"; Some "Bank"]
                  [Some "1.500,00"; Some "2.000,00"])
               (return_rows [Some "AAA"; Some "CCC"] (Float64 [250; 100]%float)))))
  = fetch_and_process_data
      (inr (page_of
              (sector_rows [Some "AAA"; Some "BBB"] [Some "Tech"; Some "Bank"]
                 [Some "1.500,00"; Some "2.000,00"])
              (return_rows [Some "AAA"; Some "CCC"] (Float64 [250; 100]%float)))).
Proof.
  apply (X14_unmatched_row_irrelevant _ _
           (return_rows [Some "AAA"; Some "CCC"] (Float64 [250; 100]%float))
           [Some "AAA"; Some "BBB"] [Some "AAA"; Some "CCC"]
           [Some "1.500,00"; Some "2.000,00"]
           (Object [Some "Tech"; Some "Bank"]) (Float64 [250; 100]%float)
           1 (Some "BBB") (Some "-")); try reflexivity.
  apply (bool_decide_unpack _). vm_compute. exact I.
Defined.

(** ** The summary of [main] *)

Lemma len_rows (frame : DataFrame) n :
  frame <> ∅ -> (forall name c, frame !! name = Some c -> pd.nrows c = n) ->
  pd.len frame = n.
Proof.
  intros Hne H. unfold pd.len.
  destruct (map_to_list frame) as [|[k c] l] eqn:E.
  - now apply map_to_list_empty_iff in E.
  - cbn [head from_option snd]. apply (H k). apply elem_of_map_to_list. rewrite E. left.
Qed.

Lemma where_true_count (test : float -> bool) xs i :
  length (pd.where_true i (map test xs)) = length (List.filter test xs).
Proof.
  revert i. induction xs as [|x xs IH]; intros i; [reflexivity|].
  cbn [map pd.where_true List.filter]. rewrite length_app, IH.
  now destruct (test x).
Qed.

(** A comparison that is false on NaN, on a column that holds numbers
    only. *)
Lemma compare_numbers (test : float -> bool) c rets :
  cells c = Number <$> rets -> test PrimFloat.nan = false ->
  pd.compare_cells test c = inr (map test rets).
Proof.
  intros H Hnan. destruct c as [xs|ss]; cbn [cells pd.compare_cells] in *.
  - do 2 f_equal.
    revert rets H. induction xs as [|x xs IH]; intros [|r rets]; try discriminate.
    + reflexivity.
    + rewrite !fmap_cons. intros [= -> H]. now rewrite (IH rets H).
  - revert rets H. induction ss as [|o ss IH]; intros [|r rets]; try discriminate.
    + reflexivity.
    + rewrite !fmap_cons. destruct o as [s|]; [discriminate|].
      intros [= <- H]. cbn [traverse map]. rewrite bind_mret, (IH rets H), bind_inr.
      now rewrite Hnan.
Qed.

Lemma summary_metrics_eq (df : DataFrame) getiri rets :
  df !! "Getiri (%)" = Some getiri -> cells getiri = Number <$> rets ->
  (forall name c, df !! name = Some c -> pd.nrows c = length rets) ->
  summary_metrics df
  = inr (length rets,
         length (List.filter (fun x => F.lt 0 x) rets),
         length (List.filter (fun x => F.lt x 0) rets)).
Proof.
  intros Hg Hrets Hrows.
  assert (Hne : df <> ∅) by (intros ->; rewrite lookup_empty in Hg; discriminate).
  assert (Hmask : forall mask,
             pd.len (pd.getitem_mask df mask) = length (pd.where_true 0 mask)).
  { intros mask. apply len_rows.
    - unfold pd.getitem_mask. now intros H%fmap_empty_inv.
    - intros name c. unfold pd.getitem_mask. rewrite lookup_fmap_Some.
      intros (c' & <- & _). apply nrows_take. }
  unfold summary_metrics. cbv zeta.
  rewrite (getitem_Some _ _ _ Hg), bind_inr.
  unfold pd.gt. rewrite (compare_numbers _ _ rets Hrets eq_refl), bind_inr, bind_inr.
  unfold pd.lt. rewrite (compare_numbers _ _ rets Hrets eq_refl), bind_inr.
  rewrite !Hmask, !where_true_count, (len_rows df (length rets) Hne Hrows).
  reflexivity.
Qed.

(** Above zero, below zero, or neither: each return is in one class. *)
Lemma sign_partition rets :
  length (List.filter (fun x => F.lt 0 x) rets)
  + length (List.filter (fun x => F.lt x 0) rets)
  + length (List.filter (fun x => PrimFloat.eqb x 0 || F.isnan x) rets)
  = length rets.
Proof.
  induction rets as [|x rets IH]; [reflexivity|].
  cbn [List.filter].
  pose proof (FloatFacts.neither_lt x 0) as H.
  change (F.isnan 0) with false in H. rewrite orb_false_r in H.
  destruct (F.lt 0 x) eqn:E1.
  - rewrite (FloatFacts.lt_asym _ _ E1) in H |- *. cbn [negb andb] in H.
    rewrite <- H. cbn [length]. lia.
  - destruct (F.lt x 0) eqn:E2; cbn [negb andb] in H; rewrite <- H; cbn [length]; lia.
Qed.

(** X15: the three numbers [main] shows under the chart.  For the frame
    a run returns, whose return column holds the numbers [rets],
    "Toplam Hisse Sayısı" is its number of rows, "Yükselen Hisse Sayısı"
    the number of rows whose return is above zero and "Düşen Hisse
    Sayısı" the number of rows whose return is below zero, and computing
    them raises nothing.  The two counts do not add up to the total in
    general: a row whose return is zero or NaN is in neither. *)
Theorem X15_summary_metrics (tables : list DataFrame) (df : DataFrame) :
  returned (fetch_and_process_data (inr tables)) = Some df ->
  exists getiri rets,
    df !! "Getiri (%)" = Some getiri /\ cells getiri = Number <$> rets /\
    summary_metrics df
    = inr (length rets,
           length (List.filter (fun x => F.lt 0 x) rets),
           length (List.filter (fun x => F.lt x 0) rets)) /\
    length (List.filter (fun x => F.lt 0 x) rets)
    + length (List.filter (fun x => F.lt x 0) rets)
    + length (List.filter (fun x => PrimFloat.eqb x 0 || F.isnan x) rets)
    = length rets.
Proof.
  unfold fetch_and_process_data. intros Hr%returned_Some.
  apply process_shape in Hr
    as (st & rt & kod_l & sektor & strs & kod_r & getiri & idx & nums & rets
        & _ & _ & _ & _ & _ & _ & _ & _ & Hnums & Hrets & ->).
  apply traverse_inr, Forall2_length in Hnums. rewrite !length_fmap in Hnums.
  pose proof (fmap_Number_length _ _ Hrets) as Hlen.
  rewrite nrows_take, length_fmap in Hlen.
  exists (pd.take (idx.*2) (returns_column getiri)), rets.
  assert (Hg : (<["Renk" := Object (classify <$> rets)]>
                  (<["Piyasa Değeri (mn $)" := Float64 nums]>
                     ((pd.take (idx.*1) <$>
                         {[ "Hisse" := kod_l; "Sektör" := sektor;
                            "Piyasa Değeri (mn $)" := Object strs ]})
                      ∪ (pd.take (idx.*2) <$>
                           delete "Hisse"
                             {[ "Hisse" := kod_r;
                                "Getiri (%)" := returns_column getiri ]}))
                   : DataFrame)) !! "Getiri (%)"
               = Some (pd.take (idx.*2) (returns_column getiri))).
  { rewrite !lookup_insert_ne by done.
    exact (proj1 (proj2 (proj2 (proj2
             (merged_columns kod_l sektor (Object strs) kod_r (returns_column getiri) idx))))). }
  split; [exact Hg|]. split; [exact Hrets|].
  split; [|apply sign_partition].
  apply (summary_metrics_eq _ _ rets Hg Hrets).
  intros name c Hc. rewrite Hlen. eapply final_rows, Hc; [now symmetry|exact Hlen].
Qed.

Lemma X15_summary_metrics_witness :
  exists df getiri rets,
    returned (fetch_and_process_data
      (inr (page_of
              (sector_rows [Some "AAA"; Some "BBB"; Some "CCC"]
                 [Some "Tech"; Some "Bank"; Some "Bank"]
                 [Some "1.500,00"; Some "2.000,00"; Some "1.750,50"])
              (return_rows [Some "AAA"; Some "BBB"; Some "CCC"]
                 (Float64 [250; -120; 0]%float)))))
    = Some df /\
    df !! "Getiri (%)" = Some getiri /\ cells getiri = Number <$> rets /\
    summary_metrics df
    = inr (length rets,
           length (List.filter (fun x => F.lt 0 x) rets),
           length (List.filter (fun x => F.lt x 0) rets)).
Proof.
  set (tables := page_of _ _).
  destruct (returned (fetch_and_process_data (inr tables))) as [df|] eqn:E;
    [|vm_compute in E; discriminate E].
  destruct (X15_summary_metrics tables df E) as (getiri & rets & H1 & H2 & H3 & _).
  exists df, getiri, rets. auto.
Defined.

End RunFacts.
